(** * Role bindings and MFA enrolment of the identity service

    A shallow embedding of
    - [src/spaceone/identity/service/role_binding_service.py]
      (RoleBindingService: create, update_role, delete and the aggregator
      [_get_latest_role_type]),
    - [src/spaceone/identity/service/user_profile_service.py]
      (UserProfileService: enable_mfa, disable_mfa, confirm_mfa,
      get_workspaces, [_check_last_admin] and
      [_generate_temporary_password]),
    - [src/spaceone/identity/model/user/database.py] (the MFA and User
      documents),
    followed by the properties the specification states about them.

    Python dictionaries are stdpp finite maps, document collections are
    lists of records queried by field, and a service method is a function
    from the store to a result (a value or a raised error) and the store
    it leaves behind. *)

From Stdlib Require Import ZArith.
From stdpp Require Import base gmap strings list fin_maps option infinite.

Local Open Scope Z_scope.

(** ** Python values and errors *)

(** The values held by the dictionaries of the MFA code: a string
    ([state], [mfa_type]) or a dictionary of strings ([options]). *)
Inductive PyVal : Type :=
  | PyStr (s : string)
  | PyDict (d : gmap string string).

#[global] Instance PyVal_eq_dec : EqDecision PyVal.
Proof. solve_decision. Defined.

(** The errors the two services raise, with the keyword arguments they are
    raised with ([supported_role_type] is a list; where the source passes
    the one string "DOMAIN_ADMIN" it is the list of that string).
    [AttributeError] is Python's own error for reading an attribute of
    [None]; [ERROR_INVALID_PARAMETER] is the error of the conversion of a
    call's arguments into the request, [ERROR_DB_QUERY] the one of a
    document the database layer does not save. *)
Inductive Error : Type :=
  | ERROR_NOT_FOUND (key value : string)
  | ERROR_NOT_ALLOWED_ROLE_TYPE
      (request_role_id request_role_type : string)
      (supported_role_type : list string)
  | ERROR_REQUIRED_PARAMETER (key : string)
  | ERROR_INVALID_PARAMETER (key : string)
  | ERROR_DB_QUERY
  | ERROR_MFA_ALREADY_ENABLED (user_id : string)
  | ERROR_MFA_ALREADY_DISABLED (user_id : string)
  | ERROR_MFA_NOT_ENABLED (user_id : string)
  | ERROR_NOT_SUPPORTED_MFA_TYPE (support_mfa_types : list string)
  | ERROR_INVALID_VERIFY_CODE (verify_code : string)
  | AttributeError (object attribute : string).

Inductive Result (A : Type) : Type :=
  | Ok (a : A)
  | Raise (e : Error).
Arguments Ok {A} a.
Arguments Raise {A} e.

(** ** The documents (model/user/database.py and the documents the
    services read) *)

Module MFA.
(** [class MFA(EmbeddedDocument)]: [state] defaults to "DISABLED",
    [mfa_type] has no default (it is [None] until set), [options] is a
    dictionary that defaults to the empty one. *)
Record t : Type := mk {
  state : string;
  mfa_type : option string;
  options : gmap string string
}.

(** [to_dict]: the fields that are set, by name. *)
Definition to_dict (m : t) : gmap string PyVal :=
  let d : gmap string PyVal :=
    {[ "state" := PyStr (state m); "options" := PyDict (options m) ]} in
  match mfa_type m with
  | Some ty => <["mfa_type" := PyStr ty]> d
  | None => d
  end.

(** The embedded document a dictionary is stored as: a field that the
    dictionary lacks takes the default of its declaration. *)
Definition of_dict (d : gmap string PyVal) : t :=
  {| state := match d !! "state" with Some (PyStr s) => s | _ => "DISABLED" end;
     mfa_type := match d !! "mfa_type" with Some (PyStr ty) => Some ty | _ => None end;
     options := match d !! "options" with Some (PyDict o) => o | _ => ∅ end |}.

Definition set_state (s : string) (m : t) : t :=
  {| state := s; mfa_type := mfa_type m; options := options m |}.
End MFA.

Module User.
(** [class User(MongoModel)], the fields the two services read or
    write; [user_id] is unique with [domain_id]. *)
Record t : Type := mk {
  user_id : string;
  name : string;
  state : string;
  email : string;
  role_type : string;
  mfa : option MFA.t;
  language : string;
  domain_id : string
}.

Definition set_role_type (r : string) (u : t) : t :=
  {| user_id := user_id u; name := name u; state := state u;
     email := email u; role_type := r; mfa := mfa u;
     language := language u; domain_id := domain_id u |}.

Definition set_mfa (m : option MFA.t) (u : t) : t :=
  {| user_id := user_id u; name := name u; state := state u;
     email := email u; role_type := role_type u; mfa := m;
     language := language u; domain_id := domain_id u |}.
End User.

Module Role.
Record t : Type := mk {
  role_id : string;
  role_type : string;
  domain_id : string
}.
End Role.

Module Workspace.
Record t : Type := mk {
  workspace_id : string;
  domain_id : string
}.
End Workspace.

Module RoleBinding.
Record t : Type := mk {
  role_binding_id : string;
  role_type : string;
  user_id : string;
  role_id : string;
  resource_group : string;
  workspace_id : option string;
  domain_id : string
}.

Definition set_role (rid rty : string) (rb : t) : t :=
  {| role_binding_id := role_binding_id rb; role_type := rty;
     user_id := user_id rb; role_id := rid;
     resource_group := resource_group rb;
     workspace_id := workspace_id rb; domain_id := domain_id rb |}.
End RoleBinding.

(** ** The store and the monad of a service call *)

(** The four collections behind the managers. A collection is the list of
    its documents, in the order a query returns them. *)
Record Store : Type := mkStore {
  users : list User.t;
  roles : list Role.t;
  workspaces : list Workspace.t;
  role_bindings : list RoleBinding.t
}.

Definition M (A : Type) : Type := Store → Result A * Store.

Definition ret {A} (a : A) : M A := λ s, (Ok a, s).
Definition raise {A} (e : Error) : M A := λ s, (Raise e, s).
Definition bind {A B} (m : M A) (k : A → M B) : M B :=
  λ s, match m s with
       | (Ok a, s') => k a s'
       | (Raise e, s') => (Raise e, s')
       end.
Definition gets {A} (f : Store → A) : M A := λ s, (Ok (f s), s).
Definition modify (f : Store → Store) : M unit := λ s, (Ok tt, f s).

Declare Scope service_scope.
Delimit Scope service_scope with service.
Notation "'let*' x ':=' m 'in' k" := (bind m (λ x, k))
  (at level 10, x name, m at level 100, k at level 200) : service_scope.
Local Open Scope service_scope.

(** [get] of a collection: the first document that matches, if any. *)
Definition get_document {A} (P : A → Prop) `{∀ x, Decision (P x)}
    (c : list A) : option A :=
  List.find (λ x, bool_decide (P x)) c.

(** [update] of the documents that match. *)
Definition update_documents {A} (P : A → Prop) `{∀ x, Decision (P x)}
    (f : A → A) (c : list A) : list A :=
  (λ x, if decide (P x) then f x else x) <$> c.

(** [delete] of the documents that match. *)
Definition delete_documents {A} (P : A → Prop) `{∀ x, Decision (P x)}
    (c : list A) : list A :=
  filter (λ x, ¬ P x) c.

Definition with_users (us : list User.t) (s : Store) : Store :=
  {| users := us; roles := roles s; workspaces := workspaces s;
     role_bindings := role_bindings s |}.

Definition with_role_bindings (rbs : list RoleBinding.t) (s : Store) : Store :=
  {| users := users s; roles := roles s; workspaces := workspaces s;
     role_bindings := rbs |}.

(** ** The managers *)

Module UserManager.
(** The dictionary [update_user_by_vo] is called with: the two services
    pass [{"role_type": ...}] or [{"mfa": ...}]. *)
Record params : Type := mk_params {
  role_type : option string;
  mfa : option (gmap string PyVal)
}.

Definition apply_params (p : params) (u : User.t) : User.t :=
  let u := match role_type p with
           | Some r => User.set_role_type r u
           | None => u
           end in
  match mfa p with
  | Some d => User.set_mfa (Some (MFA.of_dict d)) u
  | None => u
  end.

Definition same_user (user_vo u : User.t) : Prop :=
  User.user_id u = User.user_id user_vo ∧
  User.domain_id u = User.domain_id user_vo.

#[global] Instance same_user_dec user_vo u : Decision (same_user user_vo u).
Proof. unfold same_user. apply _. Defined.

(** Modelled from the spec: UserManager.get_user is not among the
    sources; "resolve the user by (user_id, domain_id); fails with
    NotFound if absent" (spec 4.1, UserStore.get of spec 6). *)
Definition get_user (user_id domain_id : string) : M User.t :=
  let* us := gets users in
  match get_document
          (λ u, User.user_id u = user_id ∧ User.domain_id u = domain_id)
          us with
  | Some u => ret u
  | None => raise (ERROR_NOT_FOUND "user_id" user_id)
  end.

(** Modelled from the spec: UserManager.update_user_by_vo is not among
    the sources; the user record is "mutated only through explicit
    field-level updates" (spec 3, UserStore.update of spec 6): the
    fields named in the dictionary are written to the stored user, the
    others are left as they are, and the updated user is returned. *)
Definition update_user_by_vo (p : params) (user_vo : User.t) : M User.t :=
  let* _ := modify (λ s,
    with_users (update_documents (same_user user_vo) (apply_params p)
                  (users s)) s) in
  ret (apply_params p user_vo).

(** Modelled from the spec: UserManager.filter_users is not among the
    sources; UserStore.filter of spec 6: the stored users of the domain
    with the given state and role type, in stored order. The query reads
    the store and cannot fail. *)
Definition filter_users (domain_id state role_type : string) (s : Store)
    : list User.t :=
  filter (λ u, User.domain_id u = domain_id ∧ User.state u = state ∧
               User.role_type u = role_type)
         (users s).
End UserManager.

Module RoleManager.
(** Modelled from the spec: RoleManager.get_role is not among the
    sources; "resolve the role by (role_id, domain_id); fails with
    NotFound if absent" (spec 4.1, RoleStore.get of spec 6). *)
Definition get_role (role_id domain_id : string) : M Role.t :=
  let* rs := gets roles in
  match get_document
          (λ r, Role.role_id r = role_id ∧ Role.domain_id r = domain_id)
          rs with
  | Some r => ret r
  | None => raise (ERROR_NOT_FOUND "role_id" role_id)
  end.
End RoleManager.

Module WorkspaceManager.
(** Modelled from the spec: WorkspaceManager.get_workspace is not among
    the sources; "resolve the workspace by (workspace_id, domain_id);
    fails with NotFound if absent" (spec 4.1). The service passes
    [params.get("workspace_id")], which is [None] when the request
    carries no workspace: no workspace has that identifier. *)
Definition get_workspace (workspace_id : option string)
    (domain_id : string) : M Workspace.t :=
  let* ws := gets workspaces in
  match get_document
          (λ w, Some (Workspace.workspace_id w) = workspace_id ∧
                Workspace.domain_id w = domain_id)
          ws with
  | Some w => ret w
  | None => raise (ERROR_NOT_FOUND "workspace_id" (default EmptyString workspace_id))
  end.

(** The condition a list of identifiers puts on a workspace; none when
    the caller passes no list. *)
Definition among (workspace_id : option (list (option string)))
    (w : Workspace.t) : Prop :=
  match workspace_id with
  | Some ids => Some (Workspace.workspace_id w) ∈ ids
  | None => True
  end.

#[global] Instance among_dec workspace_id w : Decision (among workspace_id w).
Proof. destruct workspace_id; simpl; apply _. Defined.

(** Modelled from the spec: WorkspaceManager.filter_workspaces and the
    Workspace document are not among the sources; WorkspaceStore.filter of
    spec 6. [workspace_state] reads the [state] field of a workspace. The
    result holds the workspaces of the domain in the given state, and only
    those whose identifier is in [workspace_id] when the caller passes that
    list. *)
Definition filter_workspaces (workspace_state : Workspace.t → string)
    (workspace_id : option (list (option string)))
    (domain_id state : string) : M (list Workspace.t) :=
  gets (λ s,
    filter (λ w, Workspace.domain_id w = domain_id ∧
                 workspace_state w = state ∧
                 among workspace_id w)
           (workspaces s)).
End WorkspaceManager.

Module RoleBindingManager.
(** The dictionary the binding is created from. *)
Record params : Type := mk_params {
  user_id : string;
  role_id : string;
  resource_group : string;
  workspace_id : option string;
  domain_id : string;
  role_type : string
}.

(** The scope of a lookup: the binding's own identifier and domain,
    and its workspace when the caller is bound to one. *)
Definition in_scope (role_binding_id domain_id : string)
    (workspace_id : option string) (rb : RoleBinding.t) : Prop :=
  RoleBinding.role_binding_id rb = role_binding_id ∧
  RoleBinding.domain_id rb = domain_id ∧
  (workspace_id = None ∨ RoleBinding.workspace_id rb = workspace_id).

#[global] Instance in_scope_dec role_binding_id domain_id workspace_id rb :
  Decision (in_scope role_binding_id domain_id workspace_id rb).
Proof. unfold in_scope. apply _. Defined.

(** Modelled from the spec: RoleBindingManager.get_role_binding is not
    among the sources; "resolve the existing binding scoped to
    (domain_id, workspace_scope); fails with NotFound if absent or out
    of scope" (spec 4.1). *)
Definition get_role_binding (role_binding_id domain_id : string)
    (workspace_id : option string) : M RoleBinding.t :=
  let* rbs := gets role_bindings in
  match get_document (in_scope role_binding_id domain_id workspace_id)
          rbs with
  | Some rb => ret rb
  | None => raise (ERROR_NOT_FOUND "role_binding_id" role_binding_id)
  end.

(** Modelled from the spec: RoleBindingManager.filter_role_bindings is
    not among the sources; "fetch all remaining bindings for the same
    user in the same domain" (spec 4.1, delete, step 2). *)
Definition filter_role_bindings (domain_id user_id : string)
    : M (list RoleBinding.t) :=
  gets (λ s,
    filter (λ rb, RoleBinding.domain_id rb = domain_id ∧
                  RoleBinding.user_id rb = user_id)
           (role_bindings s)).

(** Modelled from the spec: RoleBindingManager.create_role_binding and
    the binding document are not among the sources; "persist the new
    binding" under a [role_binding_id] that is "unique" (spec 3 and 4.1):
    the identifier is one no stored binding has, and the binding is stored
    after the ones there are. The document holds a [resource_group] that
    is "DOMAIN or WORKSPACE" (spec 3); one with another value is not
    saved, and the failed save is reported as ERROR_DB_QUERY (its reason
    text is the database layer's and is left out). *)
Definition create_role_binding (p : params) : M RoleBinding.t :=
  if decide (resource_group p ∈ ["DOMAIN"; "WORKSPACE"]) then
    let* rbs := gets role_bindings in
    let rb :=
      {| RoleBinding.role_binding_id :=
           fresh (RoleBinding.role_binding_id <$> rbs);
         RoleBinding.role_type := role_type p;
         RoleBinding.user_id := user_id p;
         RoleBinding.role_id := role_id p;
         RoleBinding.resource_group := resource_group p;
         RoleBinding.workspace_id := workspace_id p;
         RoleBinding.domain_id := domain_id p |} in
    let* _ := modify (λ s, with_role_bindings (role_bindings s ++ [rb]) s) in
    ret rb
  else raise ERROR_DB_QUERY.

Definition same_binding (rb_vo rb : RoleBinding.t) : Prop :=
  RoleBinding.role_binding_id rb = RoleBinding.role_binding_id rb_vo.

#[global] Instance same_binding_dec rb_vo rb : Decision (same_binding rb_vo rb).
Proof. unfold same_binding. apply _. Defined.

(** Modelled from the spec: RoleBindingManager.update_role_binding_by_vo
    is not among the sources; "update the binding's role_id/role_type in
    place" (spec 4.1, changeRole, step 5). *)
Definition update_role_binding_by_vo (role_id role_type : string)
    (rb_vo : RoleBinding.t) : M RoleBinding.t :=
  let* _ := modify (λ s,
    with_role_bindings
      (update_documents (same_binding rb_vo)
         (RoleBinding.set_role role_id role_type) (role_bindings s)) s) in
  ret (RoleBinding.set_role role_id role_type rb_vo).

(** Modelled from the spec: RoleBindingManager.delete_role_binding_by_vo
    is not among the sources; "then delete the binding" (spec 4.1,
    delete, step 4). *)
Definition delete_role_binding_by_vo (rb_vo : RoleBinding.t) : M unit :=
  modify (λ s,
    with_role_bindings
      (delete_documents (same_binding rb_vo) (role_bindings s)) s).

(** The condition a workspace identifier puts on a binding; none when the
    caller passes no identifier. *)
Definition on_workspace (workspace_id : option string)
    (rb : RoleBinding.t) : Prop :=
  match workspace_id with
  | Some w => RoleBinding.workspace_id rb = Some w
  | None => True
  end.

#[global] Instance on_workspace_dec workspace_id rb :
  Decision (on_workspace workspace_id rb).
Proof. destruct workspace_id; simpl; apply _. Defined.

(** Modelled from the spec: the calls of filter_role_bindings with a list
    of role types, and with a workspace identifier, as get_workspaces makes
    them; the manager "supports filter-by-attributes" (spec 2): a list
    selects the bindings whose attribute is in it, a value the ones whose
    attribute is that value, and [None] stands for an argument the caller
    leaves out. *)
Definition filter_role_bindings_by (user_id domain_id : string)
    (role_type : list string) (workspace_id : option string)
    : M (list RoleBinding.t) :=
  gets (λ s,
    filter (λ rb, RoleBinding.user_id rb = user_id ∧
                  RoleBinding.domain_id rb = domain_id ∧
                  RoleBinding.role_type rb ∈ role_type ∧
                  on_workspace workspace_id rb)
           (role_bindings s)).
End RoleBindingManager.

(** ** service/role_binding_service.py *)

Module RoleBindingCreateRequest.
Record t : Type := mk {
  user_id : string;
  role_id : string;
  resource_group : string;
  workspace_id : option string;
  domain_id : string
}.
End RoleBindingCreateRequest.

Module RoleBindingUpdateRoleRequest.
Record t : Type := mk {
  role_binding_id : string;
  role_id : string;
  workspace_id : option string;
  domain_id : string
}.
End RoleBindingUpdateRoleRequest.

Module RoleBindingDeleteRequest.
Record t : Type := mk {
  role_binding_id : string;
  workspace_id : option string;
  domain_id : string
}.
End RoleBindingDeleteRequest.

Module RoleBindingService.

(** The dictionary [priority] of [_get_latest_role_type]. *)
Definition priority : gmap string Z :=
  {[ "DOMAIN_ADMIN" := 1; "WORKSPACE_OWNER" := 2;
     "WORKSPACE_MEMBER" := 3; "USER" := 4 ]}.

Definition _get_latest_role_type (before after : string) : string :=
  let before_priority := default 4 (priority !! before) in
  let after_priority := default 4 (priority !! after) in
  if decide (before_priority < after_priority) then before
  else if decide (after ∈ ["WORKSPACE_OWNER"; "WORKSPACE_MEMBER"]) then "USER"
  else after.

Definition create_role_binding (params : RoleBindingCreateRequest.t)
    : M RoleBinding.t :=
  let user_id := RoleBindingCreateRequest.user_id params in
  let role_id := RoleBindingCreateRequest.role_id params in
  let resource_group := RoleBindingCreateRequest.resource_group params in
  let domain_id := RoleBindingCreateRequest.domain_id params in
  let workspace_id := RoleBindingCreateRequest.workspace_id params in
  (* Check user *)
  let* user_vo := UserManager.get_user user_id domain_id in
  (* Check workspace *)
  let* workspace_id :=
    if decide (resource_group = "WORKSPACE") then
      let* _ := WorkspaceManager.get_workspace workspace_id domain_id in
      ret workspace_id
    else ret (Some "*") in
  (* Check role *)
  let* role_vo := RoleManager.get_role role_id domain_id in
  let* _ :=
    if decide (resource_group = "DOMAIN") then
      if decide (Role.role_type role_vo ≠ "DOMAIN_ADMIN") then
        raise (ERROR_NOT_ALLOWED_ROLE_TYPE (Role.role_id role_vo)
                 (Role.role_type role_vo) ["DOMAIN_ADMIN"])
      else ret tt
    else
      if decide (Role.role_type role_vo ∉
                   ["WORKSPACE_OWNER"; "WORKSPACE_MEMBER"]) then
        raise (ERROR_NOT_ALLOWED_ROLE_TYPE (Role.role_id role_vo)
                 (Role.role_type role_vo)
                 ["WORKSPACE_OWNER"; "WORKSPACE_MEMBER"])
      else ret tt in
  (* Update user role type *)
  let latest_role_type :=
    _get_latest_role_type (User.role_type user_vo) (Role.role_type role_vo) in
  let* _ := UserManager.update_user_by_vo
              {| UserManager.role_type := Some latest_role_type;
                 UserManager.mfa := None |} user_vo in
  (* Create role binding *)
  RoleBindingManager.create_role_binding
    {| RoleBindingManager.user_id := user_id;
       RoleBindingManager.role_id := role_id;
       RoleBindingManager.resource_group := resource_group;
       RoleBindingManager.workspace_id := workspace_id;
       RoleBindingManager.domain_id := domain_id;
       RoleBindingManager.role_type := Role.role_type role_vo |}.

(** Modelled from the spec: the request class RoleBindingCreateRequest
    and the decorator [@convert_model] that builds it from the arguments of
    the call are not among the sources. Spec 3 gives [resource_group] two
    values, DOMAIN and WORKSPACE; a call with another one is answered with
    ERROR_INVALID_PARAMETER for that field before the body of the method
    runs. The other fields are strings, as they are here. *)
Definition convert_model (params : RoleBindingCreateRequest.t)
    : M RoleBindingCreateRequest.t :=
  if decide (RoleBindingCreateRequest.resource_group params ∈
               ["DOMAIN"; "WORKSPACE"])
  then ret params
  else raise (ERROR_INVALID_PARAMETER "resource_group").

(** [create], behind [@convert_model], answers with the binding
    [create_role_binding] returns. *)
Definition create (params : RoleBindingCreateRequest.t) : M RoleBinding.t :=
  let* params := convert_model params in
  create_role_binding params.

Definition update_role (params : RoleBindingUpdateRoleRequest.t)
    : M RoleBinding.t :=
  let* rb_vo := RoleBindingManager.get_role_binding
                  (RoleBindingUpdateRoleRequest.role_binding_id params)
                  (RoleBindingUpdateRoleRequest.domain_id params)
                  (RoleBindingUpdateRoleRequest.workspace_id params) in
  (* Check role *)
  let* new_role_vo := RoleManager.get_role
                        (RoleBindingUpdateRoleRequest.role_id params)
                        (RoleBindingUpdateRoleRequest.domain_id params) in
  let* _ :=
    if decide (RoleBinding.role_type rb_vo ∈
                 ["WORKSPACE_OWNER"; "WORKSPACE_MEMBER"]) then
      if decide (Role.role_type new_role_vo ∉
                   ["WORKSPACE_OWNER"; "WORKSPACE_MEMBER"]) then
        raise (ERROR_NOT_ALLOWED_ROLE_TYPE (Role.role_id new_role_vo)
                 (Role.role_type new_role_vo)
                 ["WORKSPACE_OWNER"; "WORKSPACE_MEMBER"])
      else ret tt
    else if decide (RoleBinding.role_type rb_vo ≠ Role.role_type new_role_vo)
    then
      raise (ERROR_NOT_ALLOWED_ROLE_TYPE (Role.role_id new_role_vo)
               (Role.role_type new_role_vo) [RoleBinding.role_type rb_vo])
    else ret tt in
  let* user_vo := UserManager.get_user (RoleBinding.user_id rb_vo)
                    (RoleBinding.domain_id rb_vo) in
  let latest_role_type :=
    _get_latest_role_type (User.role_type user_vo)
      (Role.role_type new_role_vo) in
  let* _ := UserManager.update_user_by_vo
              {| UserManager.role_type := Some latest_role_type;
                 UserManager.mfa := None |} user_vo in
  RoleBindingManager.update_role_binding_by_vo
    (RoleBindingUpdateRoleRequest.role_id params)
    (Role.role_type new_role_vo) rb_vo.

(** The loop of [delete]: [latest_role_type] starts as "USER" and takes
    in every fetched binding but the one being deleted. *)
Definition remaining_role_type (role_binding_id : string)
    (remain_rb_vos : list RoleBinding.t) : string :=
  fold_left
    (λ latest_role_type remain_rb_vo,
       if decide (RoleBinding.role_binding_id remain_rb_vo = role_binding_id)
       then latest_role_type
       else _get_latest_role_type latest_role_type
              (RoleBinding.role_type remain_rb_vo))
    remain_rb_vos "USER".

Definition delete (params : RoleBindingDeleteRequest.t) : M unit :=
  let* rb_vo := RoleBindingManager.get_role_binding
                  (RoleBindingDeleteRequest.role_binding_id params)
                  (RoleBindingDeleteRequest.domain_id params)
                  (RoleBindingDeleteRequest.workspace_id params) in
  (* Update user role type *)
  let* remain_rb_vos := RoleBindingManager.filter_role_bindings
                          (RoleBindingDeleteRequest.domain_id params)
                          (RoleBinding.user_id rb_vo) in
  let latest_role_type :=
    remaining_role_type (RoleBindingDeleteRequest.role_binding_id params)
      remain_rb_vos in
  let* user_vo := UserManager.get_user (RoleBinding.user_id rb_vo)
                    (RoleBinding.domain_id rb_vo) in
  let* _ := UserManager.update_user_by_vo
              {| UserManager.role_type := Some latest_role_type;
                 UserManager.mfa := None |} user_vo in
  RoleBindingManager.delete_role_binding_by_vo rb_vo.

End RoleBindingService.

(** ** service/user_profile_service.py, the MFA methods *)

Module UserProfileEnableMFARequest.
Record t : Type := mk {
  mfa_type : string;
  options : gmap string string;
  user_id : string;
  domain_id : string
}.
End UserProfileEnableMFARequest.

Module UserProfileDisableMFARequest.
Record t : Type := mk {
  user_id : string;
  domain_id : string
}.
End UserProfileDisableMFARequest.

Module UserProfileConfirmMFARequest.
Record t : Type := mk {
  verify_code : string;
  user_id : string;
  domain_id : string
}.
End UserProfileConfirmMFARequest.

Module UserProfileGetWorkspacesRequest.
Record t : Type := mk {
  user_id : string;
  domain_id : string
}.
End UserProfileGetWorkspacesRequest.

(** The error of [_check_last_admin], with its keyword argument. *)
Inductive LastAdminError : Type :=
  | ERROR_LAST_ADMIN_CANNOT_DISABLED_DELETED (user_id : string).

Module MFAManager.
(** What the services use of a manager: the type it is registered for and
    its verification of a code for the given credentials. Its [enable_mfa]
    and [disable_mfa] send a notice to the user and write nothing to the
    four collections. *)
Record t : Type := mk {
  mfa_type : string;
  confirm_mfa : gmap string string → string → bool
}.

(** Modelled from the spec: MFAManager.get_manager_by_mfa_type is not
    among the sources; the registry resolves a type to its strategy,
    "exactly one implementation (email-code) exists today", and "any other
    value fails with NotSupportedMfaType" (spec 4.3). *)
Definition get_manager_by_mfa_type (email_manager : t) (mfa_type : string)
    : M t :=
  if decide (mfa_type = "EMAIL") then ret email_manager
  else raise (ERROR_NOT_SUPPORTED_MFA_TYPE ["EMAIL"]).
End MFAManager.

Module UserProfileService.
Section Methods.

(** The email strategy, the one the registry holds. *)
Variable email_manager : MFAManager.t.

(** [user_vo.mfa.to_dict() if user_vo.mfa else {}] *)
Definition mfa_dict (user_vo : User.t) : gmap string PyVal :=
  match User.mfa user_vo with
  | Some m => MFA.to_dict m
  | None => ∅
  end.

(** [user_mfa.get("state", "DISABLED")] *)
Definition state_of (user_mfa : gmap string PyVal) : PyVal :=
  default (PyStr "DISABLED") (user_mfa !! "state").

Definition enable_mfa (params : UserProfileEnableMFARequest.t) : M User.t :=
  let user_id := UserProfileEnableMFARequest.user_id params in
  let mfa_type := UserProfileEnableMFARequest.mfa_type params in
  let options := UserProfileEnableMFARequest.options params in
  let domain_id := UserProfileEnableMFARequest.domain_id params in
  let* user_vo := UserManager.get_user user_id domain_id in
  let user_mfa := mfa_dict user_vo in
  if decide (options = ∅) then raise (ERROR_REQUIRED_PARAMETER "options")
  else if decide (state_of user_mfa = PyStr "ENABLED") then
    raise (ERROR_MFA_ALREADY_ENABLED user_id)
  else
    let* mfa_manager :=
      MFAManager.get_manager_by_mfa_type email_manager mfa_type in
    if decide (mfa_type = "EMAIL") then
      let user_mfa := <["mfa_type" := PyStr mfa_type]> user_mfa in
      let user_mfa := <["options" := PyDict options]> user_mfa in
      let user_mfa := <["state" := state_of user_mfa]> user_mfa in
      (* mfa_manager.enable_mfa sends the verification code *)
      UserManager.update_user_by_vo
        {| UserManager.role_type := None;
           UserManager.mfa := Some user_mfa |} user_vo
    else raise (ERROR_NOT_SUPPORTED_MFA_TYPE ["EMAIL"]).

Definition disable_mfa (params : UserProfileDisableMFARequest.t)
    : M User.t :=
  let user_id := UserProfileDisableMFARequest.user_id params in
  let domain_id := UserProfileDisableMFARequest.domain_id params in
  let* user_vo := UserManager.get_user user_id domain_id in
  let user_mfa := mfa_dict user_vo in
  let mfa_type := user_mfa !! "mfa_type" in
  if decide (state_of user_mfa = PyStr "DISABLED" ∨ mfa_type = None) then
    raise (ERROR_MFA_ALREADY_DISABLED user_id)
  else
    match mfa_type with
    | Some (PyStr mfa_type) =>
        let* mfa_manager :=
          MFAManager.get_manager_by_mfa_type email_manager mfa_type in
        (* mfa_manager.disable_mfa sends the notice *)
        ret user_vo
    | _ => ret user_vo
    end.

Definition confirm_mfa (params : UserProfileConfirmMFARequest.t)
    : M User.t :=
  let user_id := UserProfileConfirmMFARequest.user_id params in
  let domain_id := UserProfileConfirmMFARequest.domain_id params in
  let verify_code := UserProfileConfirmMFARequest.verify_code params in
  let* user_vo := UserManager.get_user user_id domain_id in
  (* mfa_type = user_vo.mfa.mfa_type *)
  let* mfa_type :=
    match User.mfa user_vo with
    | Some m => ret (MFA.mfa_type m)
    | None => raise (AttributeError "NoneType" "mfa_type")
    end in
  (* if not mfa_type *)
  match mfa_type with
  | None | Some EmptyString => raise (ERROR_MFA_NOT_ENABLED user_id)
  | Some mfa_type =>
      let* mfa_manager :=
        MFAManager.get_manager_by_mfa_type email_manager mfa_type in
      if decide (mfa_type = "EMAIL") then
        let credentials : gmap string string :=
          {[ "user_id" := user_id; "domain_id" := domain_id ]} in
        if MFAManager.confirm_mfa mfa_manager credentials verify_code then
          let user_mfa := mfa_dict user_vo in
          let user_mfa :=
            if decide (state_of user_mfa = PyStr "ENABLED") then
              {[ "state" := PyStr "DISABLED" ]}
            else if decide (state_of user_mfa = PyStr "DISABLED") then
              <["state" := PyStr "ENABLED"]> user_mfa
            else user_mfa in
          UserManager.update_user_by_vo
            {| UserManager.role_type := None;
               UserManager.mfa := Some user_mfa |} user_vo
        else raise (ERROR_INVALID_VERIFY_CODE verify_code)
      else ret user_vo
  end.


(** The Workspace document is not among the sources: [workspace_state]
    reads its [state] field. *)
Variable workspace_state : Workspace.t → string.

(** [get_workspaces] answers with the workspaces and their number
    ([total_count=len(workspaces_info)]). [list(set(...))] keeps one copy of
    each identifier; the identifiers are only tested for membership. *)
Definition get_workspaces (params : UserProfileGetWorkspacesRequest.t)
    : M (list Workspace.t * nat) :=
  let user_id := UserProfileGetWorkspacesRequest.user_id params in
  let domain_id := UserProfileGetWorkspacesRequest.domain_id params in
  let* user_vo := UserManager.get_user user_id domain_id in
  let* allow_all :=
    if decide (User.role_type user_vo = "DOMAIN_ADMIN") then ret true
    else
      let* rb_vos := RoleBindingManager.filter_role_bindings_by
                       user_id domain_id
                       ["WORKSPACE_OWNER"; "WORKSPACE_MEMBER"] (Some "*") in
      ret (bool_decide (0 < length rb_vos)%nat) in
  let* workspace_vos :=
    if allow_all then
      WorkspaceManager.filter_workspaces workspace_state None
        domain_id "ENABLED"
    else
      let* rb_vos := RoleBindingManager.filter_role_bindings_by
                       user_id domain_id
                       ["WORKSPACE_OWNER"; "WORKSPACE_MEMBER"] None in
      let workspace_ids :=
        remove_dups (RoleBinding.workspace_id <$> rb_vos) in
      WorkspaceManager.filter_workspaces workspace_state
        (Some workspace_ids) domain_id "ENABLED" in
  ret (workspace_vos, length workspace_vos).

(** [_check_last_admin]: the error it raises, [None] when it returns. *)
Definition _check_last_admin (domain_id : string) (user_vo : User.t)
    (s : Store) : option LastAdminError :=
  let user_vos :=
    UserManager.filter_users domain_id "ENABLED" (User.role_type user_vo) s in
  if decide (length user_vos = 1%nat) then
    match head user_vos with
    | Some first =>
        if decide (User.user_id first = User.user_id user_vo) then
          Some (ERROR_LAST_ADMIN_CANNOT_DISABLED_DELETED
                  (User.user_id user_vo))
        else None
    | None => None
    end
  else None.

Import Stdlib.Strings.Ascii.

(** [string.ascii_uppercase], [string.ascii_lowercase], [string.digits] *)
Definition ascii_uppercase : string := "ABCDEFGHIJKLMNOPQRSTUVWXYZ".
Definition ascii_lowercase : string := "abcdefghijklmnopqrstuvwxyz".
Definition digits : string := "0123456789".

(** [random.choice(seq)]: the character at the index the generator draws;
    the draw [r] is brought below the length of [seq]. *)
Definition choice (seq : string) (r : nat) : Ascii.ascii :=
  nth (r mod String.length seq)%nat (String.list_ascii_of_string seq)
    Ascii.zero.

(** [re.search("[a-z]", s)] and its like: some character of [s] lies
    between the two bounds. *)
Definition search_range (lo hi : Ascii.ascii) (s : string) : bool :=
  existsb (λ c, (Ascii.nat_of_ascii lo <=? Ascii.nat_of_ascii c)%nat &&
                (Ascii.nat_of_ascii c <=? Ascii.nat_of_ascii hi)%nat)
          (String.list_ascii_of_string s).

(** One pass of the loop of [_generate_temporary_password]: twelve draws,
    joined. [rand] lists the draws of the generator in the order they are
    made; the pass numbered [attempt] takes the twelve from
    [12 * attempt] on. *)
Definition random_password (rand : nat → nat) (attempt : nat) : string :=
  String.string_of_list_ascii
    ((λ k, choice (ascii_uppercase +:+ ascii_lowercase +:+ digits)
             (rand (12 * attempt + k)%nat)) <$> seq 0 12).

Local Open Scope char_scope.

(** The test that ends the loop. *)
Definition accepted (random_password : string) : bool :=
  search_range "a" "z" random_password &&
  search_range "A" "Z" random_password &&
  search_range "0" "9" random_password.

Local Close Scope char_scope.

(** [while True]: the passes from [attempt] on, at most [fuel] of them;
    [None] when none of them is accepted. *)
Fixpoint _generate_temporary_password (rand : nat → nat)
    (fuel attempt : nat) : option string :=
  match fuel with
  | O => None
  | S fuel =>
      let random_password := random_password rand attempt in
      if accepted random_password then Some random_password
      else _generate_temporary_password rand fuel (S attempt)
  end.
End Methods.
End UserProfileService.

(** ** The specification's words *)

Module Spec.
(** Spec 4.2: "DOMAIN_ADMIN (1) > WORKSPACE_OWNER (2) > WORKSPACE_MEMBER (3)
    > USER (4). Unrecognized values are treated as priority 4". *)
Definition priority (role_type : string) : Z :=
  if decide (role_type = "DOMAIN_ADMIN") then 1
  else if decide (role_type = "WORKSPACE_OWNER") then 2
  else if decide (role_type = "WORKSPACE_MEMBER") then 3
  else 4.

(** Spec 4.2, [combine(before, after)], its three rules in order. *)
Definition combine (before after : string) : string :=
  if decide (priority before < priority after) then before
  else if decide (after = "WORKSPACE_OWNER" ∨ after = "WORKSPACE_MEMBER")
  then "USER"
  else after.

(** Spec 4.1, delete, step 3: "fold Aggregator.combine starting from USER
    over every remaining binding's role_type". *)
Definition aggregate (role_types : list string) : string :=
  fold_left RoleBindingService._get_latest_role_type role_types "USER".

(** Spec 4.1, changeRole, step 3: the new role's type against the existing
    binding's. *)
Definition change_allowed (existing new : string) : Prop :=
  if decide (existing = "WORKSPACE_OWNER" ∨ existing = "WORKSPACE_MEMBER")
  then new = "WORKSPACE_OWNER" ∨ new = "WORKSPACE_MEMBER"
  else new = existing.

#[global] Instance change_allowed_dec existing new :
  Decision (change_allowed existing new).
Proof. unfold change_allowed. case_decide; apply _. Defined.

(** The role types a binding can carry (spec 3: "restricted in practice to
    DOMAIN_ADMIN, WORKSPACE_OWNER, WORKSPACE_MEMBER for assignable roles"). *)
Definition assignable (role_type : string) : Prop :=
  role_type ∈ ["DOMAIN_ADMIN"; "WORKSPACE_OWNER"; "WORKSPACE_MEMBER"].

(** The role types the aggregator's priority table knows. *)
Definition recognised (role_type : string) : Prop :=
  role_type ∈ ["DOMAIN_ADMIN"; "WORKSPACE_OWNER"; "WORKSPACE_MEMBER"; "USER"].
End Spec.

(** ** Reading the store *)

(** The bindings of a user in a domain, as [filter_role_bindings] fetches
    them. *)
Definition bindings_of (s : Store) (domain_id user_id : string)
    : list RoleBinding.t :=
  filter (λ rb, RoleBinding.domain_id rb = domain_id ∧
                RoleBinding.user_id rb = user_id)
         (role_bindings s).

Definition stored_user (s : Store) (user_id domain_id : string)
    : option User.t :=
  get_document
    (λ u, User.user_id u = user_id ∧ User.domain_id u = domain_id)
    (users s).

Definition stored_role_type (s : Store) (user_id domain_id : string)
    : option string :=
  User.role_type <$> stored_user s user_id domain_id.

Definition stored_mfa (s : Store) (user_id domain_id : string)
    : option (option MFA.t) :=
  User.mfa <$> stored_user s user_id domain_id.

(** What a role-type write leaves in the user collection. *)
Definition write_role_type (latest_role_type : string) (user_vo : User.t)
    (s : Store) : Store :=
  with_users
    (update_documents (UserManager.same_user user_vo)
       (UserManager.apply_params
          {| UserManager.role_type := Some latest_role_type;
             UserManager.mfa := None |})
       (users s)) s.

(** The binding [create_role_binding] hands to the manager, under the
    identifier the manager gives it. *)
Definition created_binding (params : RoleBindingCreateRequest.t)
    (role_type : string) (s : Store) : RoleBinding.t :=
  {| RoleBinding.role_binding_id :=
       fresh (RoleBinding.role_binding_id <$> role_bindings s);
     RoleBinding.role_type := role_type;
     RoleBinding.user_id := RoleBindingCreateRequest.user_id params;
     RoleBinding.role_id := RoleBindingCreateRequest.role_id params;
     RoleBinding.resource_group :=
       RoleBindingCreateRequest.resource_group params;
     RoleBinding.workspace_id :=
       if decide (RoleBindingCreateRequest.resource_group params
                  = "WORKSPACE")
       then RoleBindingCreateRequest.workspace_id params
       else Some "*";
     RoleBinding.domain_id := RoleBindingCreateRequest.domain_id params |}.

(** The request that deletes a binding of a domain, from a caller that is
    bound to no workspace. *)
Definition delete_request_of (domain_id : string) (rb : RoleBinding.t)
    : RoleBindingDeleteRequest.t :=
  {| RoleBindingDeleteRequest.role_binding_id :=
       RoleBinding.role_binding_id rb;
     RoleBindingDeleteRequest.workspace_id := None;
     RoleBindingDeleteRequest.domain_id := domain_id |}.

(** The user holds a workspace role (WORKSPACE_OWNER or WORKSPACE_MEMBER)
    through a binding of the domain with this workspace identifier. *)
Definition holds_workspace_role (s : Store) (user_id domain_id : string)
    (workspace_id : option string) : Prop :=
  ∃ rb, rb ∈ role_bindings s ∧
        RoleBinding.user_id rb = user_id ∧
        RoleBinding.domain_id rb = domain_id ∧
        RoleBinding.role_type rb ∈ ["WORKSPACE_OWNER"; "WORKSPACE_MEMBER"] ∧
        RoleBinding.workspace_id rb = workspace_id.

(** The key of the user collection: [user_id] is unique with
    [domain_id]. *)
Definition user_key (u : User.t) : string * string :=
  (User.user_id u, User.domain_id u).


(** The stored role type of a user is the aggregate of the user's
    bindings. *)
Definition aggregate_consistent (s : Store) (user_id domain_id : string)
    : Prop :=
  ∀ u, u ∈ users s →
    User.user_id u = user_id → User.domain_id u = domain_id →
    User.role_type u =
      Spec.aggregate
        (RoleBinding.role_type <$> bindings_of s domain_id user_id).

(** The three binding mutations. *)
Inductive Mutation : Type :=
  | Create (params : RoleBindingCreateRequest.t)
  | ChangeRole (params : RoleBindingUpdateRoleRequest.t)
  | Delete (params : RoleBindingDeleteRequest.t).

Definition run_mutation (m : Mutation) : M unit :=
  match m with
  | Create params =>
      let* _ := RoleBindingService.create params in ret tt
  | ChangeRole params =>
      let* _ := RoleBindingService.update_role params in ret tt
  | Delete params => RoleBindingService.delete params
  end.

(** The three MFA calls. *)
Inductive MfaCall : Type :=
  | Enable (params : UserProfileEnableMFARequest.t)
  | Disable (params : UserProfileDisableMFARequest.t)
  | Confirm (params : UserProfileConfirmMFARequest.t).

Definition run_mfa_call (email_manager : MFAManager.t) (c : MfaCall)
    : M User.t :=
  match c with
  | Enable params => UserProfileService.enable_mfa email_manager params
  | Disable params => UserProfileService.disable_mfa email_manager params
  | Confirm params => UserProfileService.confirm_mfa email_manager params
  end.

(** What a write of the MFA dictionary leaves in the user collection. *)
Definition write_mfa (user_mfa : gmap string PyVal) (user_vo : User.t)
    (s : Store) : Store :=
  with_users
    (update_documents (UserManager.same_user user_vo)
       (UserManager.apply_params
          {| UserManager.role_type := None;
             UserManager.mfa := Some user_mfa |})
       (users s)) s.

(** The dictionary [confirm_mfa] writes after an accepted code. *)
Definition toggled_mfa (user_mfa : gmap string PyVal) : gmap string PyVal :=
  if decide (UserProfileService.state_of user_mfa = PyStr "ENABLED") then
    {[ "state" := PyStr "DISABLED" ]}
  else if decide (UserProfileService.state_of user_mfa = PyStr "DISABLED")
  then <["state" := PyStr "ENABLED"]> user_mfa
  else user_mfa.

(** Whether an error is the one of a scope or role mismatch. *)
Definition is_not_allowed_role_type (e : Error) : bool :=
  match e with
  | ERROR_NOT_ALLOWED_ROLE_TYPE _ _ _ => true
  | _ => false
  end.

(** ** A small domain to run the services on *)

Module Example.
Definition user (user_id role_type : string) (mfa : option MFA.t) : User.t :=
  {| User.user_id := user_id; User.name := user_id;
     User.state := "ENABLED"; User.email := user_id +:+ "@example.com";
     User.role_type := role_type; User.mfa := mfa;
     User.language := "en"; User.domain_id := "domain-1" |}.

Definition email_mfa (state : string) : MFA.t :=
  {| MFA.state := state; MFA.mfa_type := Some "EMAIL";
     MFA.options := {[ "email" := "user@example.com" ]} |}.

Definition role (role_id role_type : string) : Role.t :=
  {| Role.role_id := role_id; Role.role_type := role_type;
     Role.domain_id := "domain-1" |}.

Definition binding (role_binding_id user_id role_id role_type
    resource_group workspace_id : string) : RoleBinding.t :=
  {| RoleBinding.role_binding_id := role_binding_id;
     RoleBinding.role_type := role_type;
     RoleBinding.user_id := user_id;
     RoleBinding.role_id := role_id;
     RoleBinding.resource_group := resource_group;
     RoleBinding.workspace_id := Some workspace_id;
     RoleBinding.domain_id := "domain-1" |}.

Definition the_roles : list Role.t :=
  [ role "role-admin" "DOMAIN_ADMIN"; role "role-owner" "WORKSPACE_OWNER";
    role "role-member" "WORKSPACE_MEMBER";
    role "role-admin-2" "DOMAIN_ADMIN" ].

Definition the_workspaces : list Workspace.t :=
  [ {| Workspace.workspace_id := "ws-1"; Workspace.domain_id := "domain-1" |} ].

(** Users without bindings: [alice] and [bob] are plain users, [root]
    carries a type that no binding gives, [carol] and [dave] have an MFA
    record (enabled, disabled), [erin] has one without a type. *)
Definition store0 : Store :=
  {| users :=
       [ user "alice" "USER" None; user "bob" "USER" None;
         user "root" "SYSTEM_ADMIN" None;
         user "carol" "USER" (Some (email_mfa "ENABLED"));
         user "dave" "USER" (Some (email_mfa "DISABLED"));
         user "erin" "USER"
           (Some {| MFA.state := "DISABLED"; MFA.mfa_type := None;
                    MFA.options := ∅ |}) ];
     roles := the_roles;
     workspaces := the_workspaces;
     role_bindings := [] |}.

(** [alice] holds a domain binding and a workspace binding, [bob] one
    workspace binding. *)
Definition store1 : Store :=
  with_role_bindings
    [ binding "rb-1" "alice" "role-admin" "DOMAIN_ADMIN" "DOMAIN" "*";
      binding "rb-2" "alice" "role-member" "WORKSPACE_MEMBER"
        "WORKSPACE" "ws-1";
      binding "rb-3" "bob" "role-owner" "WORKSPACE_OWNER"
        "WORKSPACE" "ws-1" ]
    (with_users
       [ user "alice" "DOMAIN_ADMIN" None; user "bob" "USER" None ]
       store0).


(** An email strategy that accepts the code "123456". *)
Definition email_manager : MFAManager.t :=
  {| MFAManager.mfa_type := "EMAIL";
     MFAManager.confirm_mfa := λ _ verify_code,
       bool_decide (verify_code = "123456") |}.

Definition create_request (user_id role_id resource_group : string)
    (workspace_id : option string) : RoleBindingCreateRequest.t :=
  {| RoleBindingCreateRequest.user_id := user_id;
     RoleBindingCreateRequest.role_id := role_id;
     RoleBindingCreateRequest.resource_group := resource_group;
     RoleBindingCreateRequest.workspace_id := workspace_id;
     RoleBindingCreateRequest.domain_id := "domain-1" |}.

Definition update_role_request (role_binding_id role_id : string)
    : RoleBindingUpdateRoleRequest.t :=
  {| RoleBindingUpdateRoleRequest.role_binding_id := role_binding_id;
     RoleBindingUpdateRoleRequest.role_id := role_id;
     RoleBindingUpdateRoleRequest.workspace_id := None;
     RoleBindingUpdateRoleRequest.domain_id := "domain-1" |}.

Definition delete_request (role_binding_id : string)
    : RoleBindingDeleteRequest.t :=
  {| RoleBindingDeleteRequest.role_binding_id := role_binding_id;
     RoleBindingDeleteRequest.workspace_id := None;
     RoleBindingDeleteRequest.domain_id := "domain-1" |}.

Definition enable_request (user_id mfa_type : string)
    (options : gmap string string) : UserProfileEnableMFARequest.t :=
  {| UserProfileEnableMFARequest.mfa_type := mfa_type;
     UserProfileEnableMFARequest.options := options;
     UserProfileEnableMFARequest.user_id := user_id;
     UserProfileEnableMFARequest.domain_id := "domain-1" |}.

Definition confirm_request (user_id verify_code : string)
    : UserProfileConfirmMFARequest.t :=
  {| UserProfileConfirmMFARequest.verify_code := verify_code;
     UserProfileConfirmMFARequest.user_id := user_id;
     UserProfileConfirmMFARequest.domain_id := "domain-1" |}.
End Example.

(** * Properties *)

(** ** The aggregator *)

Section Aggregator.
Import RoleBindingService.

Lemma priority_lookup (role_type : string) :
  default 4 (priority !! role_type) = Spec.priority role_type.
Proof.
  unfold Spec.priority.
  repeat case_decide; subst; try reflexivity.
  unfold priority.
  rewrite !lookup_insert_ne by congruence.
  destruct (decide (role_type = "USER")) as [->|Hne]; [reflexivity|].
  rewrite lookup_singleton_ne by congruence.
  reflexivity.
Qed.

Lemma elem_of_workspace_roles (role_type : string) :
  role_type ∈ ["WORKSPACE_OWNER"; "WORKSPACE_MEMBER"] ↔
  role_type = "WORKSPACE_OWNER" ∨ role_type = "WORKSPACE_MEMBER".
Proof. rewrite !elem_of_cons, elem_of_nil. tauto. Qed.

(** The source's aggregator computes the specification's [combine]. *)
Lemma latest_role_type_combine (before after : string) :
  _get_latest_role_type before after = Spec.combine before after.
Proof.
  unfold _get_latest_role_type, Spec.combine.
  rewrite !priority_lookup.
  case_decide; [reflexivity|].
  repeat case_decide; try reflexivity; exfalso;
    rewrite elem_of_workspace_roles in *; tauto.
Qed.

Lemma priority_range (role_type : string) : 1 ≤ Spec.priority role_type ≤ 4.
Proof. unfold Spec.priority. repeat case_decide; lia. Qed.

Lemma priority_admin (role_type : string) :
  Spec.priority role_type = 1 ↔ role_type = "DOMAIN_ADMIN".
Proof.
  unfold Spec.priority. split.
  - repeat case_decide; (done || lia).
  - intros ->. reflexivity.
Qed.

Lemma latest_admin_l (after : string) :
  _get_latest_role_type "DOMAIN_ADMIN" after = "DOMAIN_ADMIN".
Proof.
  rewrite latest_role_type_combine. unfold Spec.combine.
  case_decide as Hlt; [reflexivity|].
  assert (Spec.priority after = 1) as Hp.
  { pose proof (priority_range after). change (Spec.priority "DOMAIN_ADMIN") with 1 in Hlt. lia. }
  apply priority_admin in Hp as ->.
  reflexivity.
Qed.

Lemma latest_admin_r (before : string) :
  _get_latest_role_type before "DOMAIN_ADMIN" = "DOMAIN_ADMIN".
Proof.
  rewrite latest_role_type_combine. unfold Spec.combine.
  case_decide as Hlt.
  - pose proof (priority_range before).
    change (Spec.priority "DOMAIN_ADMIN") with 1 in Hlt. lia.
  - reflexivity.
Qed.

Lemma latest_user_recognised (after : string) :
  Spec.recognised after → after ≠ "DOMAIN_ADMIN" →
  _get_latest_role_type "USER" after = "USER".
Proof.
  unfold Spec.recognised. intros Hrec Hne.
  repeat (apply elem_of_cons in Hrec as [->|Hrec]); try done.
  all: try by apply elem_of_nil in Hrec.
Qed.

Lemma fold_latest_admin (role_types : list string) :
  fold_left _get_latest_role_type role_types "DOMAIN_ADMIN" = "DOMAIN_ADMIN".
Proof.
  induction role_types as [|after rest IH]; simpl; [done|].
  by rewrite latest_admin_l.
Qed.

Lemma fold_latest_with_admin (role_types : list string) (seed : string) :
  "DOMAIN_ADMIN" ∈ role_types →
  fold_left _get_latest_role_type role_types seed = "DOMAIN_ADMIN".
Proof.
  revert seed. induction role_types as [|after rest IH]; intros seed Hin.
  - by apply elem_of_nil in Hin.
  - simpl. destruct (decide (after = "DOMAIN_ADMIN")) as [->|Hne].
    + rewrite latest_admin_r. apply fold_latest_admin.
    + apply IH. apply elem_of_cons in Hin as [Heq|Hin]; [congruence|done].
Qed.

Lemma fold_latest_without_admin (role_types : list string) :
  Forall Spec.recognised role_types → "DOMAIN_ADMIN" ∉ role_types →
  fold_left _get_latest_role_type role_types "USER" = "USER".
Proof.
  induction 1 as [|after rest Hrec _ IH]; intros Hnin; simpl; [done|].
  rewrite latest_user_recognised; [|done|].
  - apply IH. intros Hin. apply Hnin. by right.
  - intros ->. apply Hnin. by left.
Qed.

(** The aggregate of recognised role types: DOMAIN_ADMIN when one of them
    is, USER otherwise. *)
Lemma aggregate_recognised (role_types : list string) :
  Forall Spec.recognised role_types →
  Spec.aggregate role_types =
    if decide ("DOMAIN_ADMIN" ∈ role_types) then "DOMAIN_ADMIN" else "USER".
Proof.
  intros Hrec. unfold Spec.aggregate. case_decide.
  - by apply fold_latest_with_admin.
  - by apply fold_latest_without_admin.
Qed.

Lemma assignable_recognised (role_type : string) :
  Spec.assignable role_type → Spec.recognised role_type.
Proof.
  unfold Spec.assignable, Spec.recognised.
  rewrite !elem_of_cons, elem_of_nil. tauto.
Qed.

(** The loop of [delete] is the fold of the aggregator over the role types
    of the fetched bindings other than the deleted one. *)
Lemma remaining_role_type_aggregate (role_binding_id : string)
    (remain_rb_vos : list RoleBinding.t) :
  remaining_role_type role_binding_id remain_rb_vos =
    Spec.aggregate
      (RoleBinding.role_type <$>
         filter (λ rb, RoleBinding.role_binding_id rb ≠ role_binding_id)
                remain_rb_vos).
Proof.
  unfold remaining_role_type, Spec.aggregate.
  generalize "USER" as seed.
  induction remain_rb_vos as [|rb rest IH]; intros seed; simpl; [done|].
  rewrite filter_cons. rewrite IH.
  destruct (decide (RoleBinding.role_binding_id rb = role_binding_id));
    case_decide; try done.
Qed.

(** C1: for every pair of role-type strings, [_get_latest_role_type]
    returns [before] when [before] has the strictly smaller priority number
    under DOMAIN_ADMIN (1), WORKSPACE_OWNER (2), WORKSPACE_MEMBER (3),
    USER (4); otherwise "USER" when [after] is WORKSPACE_OWNER or
    WORKSPACE_MEMBER; otherwise [after]. The priorities are the ones the
    source's dictionary gives, 4 for a string it does not hold. *)
Theorem get_latest_role_type_rules (before after : string) :
  let before_priority := default 4 (priority !! before) in
  let after_priority := default 4 (priority !! after) in
  before_priority = Spec.priority before ∧
  after_priority = Spec.priority after ∧
  (before_priority < after_priority →
     _get_latest_role_type before after = before) ∧
  (¬ before_priority < after_priority →
     after = "WORKSPACE_OWNER" ∨ after = "WORKSPACE_MEMBER" →
     _get_latest_role_type before after = "USER") ∧
  (¬ before_priority < after_priority →
     ¬ (after = "WORKSPACE_OWNER" ∨ after = "WORKSPACE_MEMBER") →
     _get_latest_role_type before after = after).
Proof.
  cbv zeta. rewrite !priority_lookup.
  split; [reflexivity|]. split; [reflexivity|].
  rewrite latest_role_type_combine. unfold Spec.combine.
  repeat split; intros; repeat case_decide; tauto.
Qed.

(** The loop of [delete] on bindings with assignable role types:
    DOMAIN_ADMIN if one of those it takes in carries DOMAIN_ADMIN, "USER"
    otherwise. *)
Lemma remaining_role_type_assignable (role_binding_id : string)
    (remain_rb_vos : list RoleBinding.t) :
  (∀ rb, rb ∈ remain_rb_vos →
     RoleBinding.role_binding_id rb ≠ role_binding_id →
     Spec.assignable (RoleBinding.role_type rb)) →
  remaining_role_type role_binding_id remain_rb_vos =
    (if decide (Exists (λ rb, RoleBinding.role_binding_id rb ≠ role_binding_id ∧
                              RoleBinding.role_type rb = "DOMAIN_ADMIN")
                       remain_rb_vos)
     then "DOMAIN_ADMIN" else "USER") ∧
  remaining_role_type role_binding_id remain_rb_vos ≠ "WORKSPACE_OWNER" ∧
  remaining_role_type role_binding_id remain_rb_vos ≠ "WORKSPACE_MEMBER".
Proof.
  intros Hassignable.
  assert (remaining_role_type role_binding_id remain_rb_vos =
    if decide (Exists (λ rb, RoleBinding.role_binding_id rb ≠ role_binding_id ∧
                             RoleBinding.role_type rb = "DOMAIN_ADMIN")
                      remain_rb_vos)
    then "DOMAIN_ADMIN" else "USER") as Heq.
  { rewrite remaining_role_type_aggregate, aggregate_recognised.
    - destruct (decide ("DOMAIN_ADMIN" ∈ _)) as [Hin|Hnin];
        case_decide as Hex; try reflexivity; exfalso.
      + apply Hex. apply list_elem_of_fmap in Hin as (rb & Hty & Hin).
        apply list_elem_of_filter in Hin as [Hid Hin].
        apply Exists_exists. eauto.
      + apply Hnin. apply Exists_exists in Hex as (rb & Hin & Hid & Hty).
        apply list_elem_of_fmap. exists rb. split; [done|].
        by apply list_elem_of_filter.
    - apply Forall_fmap, Forall_forall. intros rb Hin.
      apply list_elem_of_filter in Hin as [Hid Hin].
      apply assignable_recognised. by apply Hassignable. }
  split; [exact Heq|].
  rewrite Heq. case_decide; done.
Qed.

(** The fold of the aggregator from "USER" does not depend on the order of
    a list of role types the priority table knows, or of one that holds
    DOMAIN_ADMIN. *)
Lemma aggregate_permutation (role_types role_types' : list string) :
  Forall Spec.recognised role_types ∨ "DOMAIN_ADMIN" ∈ role_types →
  role_types ≡ₚ role_types' →
  Spec.aggregate role_types = Spec.aggregate role_types'.
Proof.
  intros Hcond Hperm.
  destruct (decide ("DOMAIN_ADMIN" ∈ role_types)) as [Hin|Hnin].
  - unfold Spec.aggregate.
    rewrite !fold_latest_with_admin; [done| |done].
    by rewrite <- Hperm.
  - destruct Hcond as [Hrec|Hin]; [|done].
    rewrite !aggregate_recognised; [|by rewrite <- Hperm|done].
    rewrite decide_False by done.
    rewrite decide_False; [done|]. by rewrite <- Hperm.
Qed.

End Aggregator.

(** ** Collections *)

Section Collections.
Context {A : Type}.
Implicit Types (c : list A) (f : A → A).

Lemma get_document_Some (P : A → Prop) `{∀ x, Decision (P x)} c x :
  get_document P c = Some x → x ∈ c ∧ P x.
Proof.
  unfold get_document. intros Hfind.
  apply find_some in Hfind as [Hin HP].
  apply bool_decide_eq_true in HP.
  split; [by apply list_elem_of_In | done].
Qed.

(** A lookup after an update of the documents it selects. *)
Lemma get_document_update (K Q : A → Prop)
    `{∀ x, Decision (K x)} `{∀ x, Decision (Q x)} f c :
  (∀ x, K (f x) ↔ K x) → (∀ x, K x → Q x) →
  get_document K (update_documents Q f c) = f <$> get_document K c.
Proof.
  intros Hkey Hsel. unfold get_document, update_documents.
  induction c as [|x c IH]; simpl; [done|].
  destruct (decide (K x)) as [HK|HK].
  - rewrite decide_True by auto.
    rewrite (bool_decide_eq_true_2 (K (f x))) by (by apply Hkey).
    by rewrite (bool_decide_eq_true_2 (K x)).
  - rewrite (bool_decide_eq_false_2 (K x)) by done.
    case_decide.
    + rewrite (bool_decide_eq_false_2 (K (f x))); [done|]. by rewrite Hkey.
    + by rewrite (bool_decide_eq_false_2 (K x)).
Qed.

(** An update reaches every document it selects and no other. *)
Lemma elem_of_update_documents (Q : A → Prop) `{∀ x, Decision (Q x)} f c y :
  y ∈ update_documents Q f c ↔
  ∃ x, x ∈ c ∧ y = if decide (Q x) then f x else x.
Proof.
  unfold update_documents. rewrite list_elem_of_fmap.
  split; intros (x & H1 & H2); exists x; by split.
Qed.


Lemma filter_delete_documents (B Q : A → Prop)
    `{∀ x, Decision (B x)} `{∀ x, Decision (Q x)} c :
  filter B (delete_documents Q c) = filter (λ x, ¬ Q x) (filter B c).
Proof.
  unfold delete_documents.
  induction c as [|x c IH]; [done|].
  rewrite !filter_cons.
  destruct (decide (¬ Q x)), (decide (B x));
    rewrite ?filter_cons, ?IH; repeat case_decide; done.
Qed.

End Collections.

(** ** Role bindings *)

Section RoleBindings.
Import RoleBindingService.

(** Unfolds a service method down to the lookups and writes it makes. *)
Ltac unfold_service :=
  unfold run_mutation, create, convert_model, create_role_binding,
    update_role, delete,
    UserManager.get_user, UserManager.update_user_by_vo,
    RoleManager.get_role, WorkspaceManager.get_workspace,
    RoleBindingManager.get_role_binding,
    RoleBindingManager.filter_role_bindings,
    RoleBindingManager.create_role_binding,
    RoleBindingManager.update_role_binding_by_vo,
    RoleBindingManager.delete_role_binding_by_vo,
    stored_role_type, stored_user in *;
  cbv beta iota zeta delta [bind ret raise gets modify] in *.

(** [create] on the two resource groups of the data model is
    [create_role_binding]; on any other it is turned away unread. *)
Lemma create_valid (params : RoleBindingCreateRequest.t) (s : Store) :
  RoleBindingCreateRequest.resource_group params ∈ ["DOMAIN"; "WORKSPACE"] →
  create params s = create_role_binding params s.
Proof.
  intros Hgroup. unfold create, convert_model, bind, ret.
  by rewrite decide_True.
Qed.

Lemma create_invalid (params : RoleBindingCreateRequest.t) (s : Store) :
  RoleBindingCreateRequest.resource_group params ∉ ["DOMAIN"; "WORKSPACE"] →
  create params s = (Raise (ERROR_INVALID_PARAMETER "resource_group"), s).
Proof.
  intros Hgroup. unfold create, convert_model, bind, raise.
  by rewrite decide_False.
Qed.

(** A successful [create] is a successful [create_role_binding]. *)
Lemma create_Ok_valid (params : RoleBindingCreateRequest.t) (s s' : Store)
    (rb : RoleBinding.t) :
  create params s = (Ok rb, s') →
  RoleBindingCreateRequest.resource_group params ∈ ["DOMAIN"; "WORKSPACE"] ∧
  create_role_binding params s = (Ok rb, s').
Proof.
  intros Hrun.
  destruct (decide (RoleBindingCreateRequest.resource_group params ∈
                      ["DOMAIN"; "WORKSPACE"])) as [Hvalid|Hinvalid].
  - split; [done|]. by rewrite <- create_valid.
  - by rewrite create_invalid in Hrun.
Qed.

Lemma valid_domain (resource_group : string) :
  resource_group = "DOMAIN" → resource_group ∈ ["DOMAIN"; "WORKSPACE"].
Proof. intros ->. by left. Qed.

Lemma valid_workspace (resource_group : string) :
  resource_group = "WORKSPACE" → resource_group ∈ ["DOMAIN"; "WORKSPACE"].
Proof. intros ->. right. by left. Qed.

(** C5: a create call with resource_group DOMAIN whose resolved role is not
    of type DOMAIN_ADMIN fails with NotAllowedRoleType, and leaves the
    store, the user's role_type with it, as it was. *)
Theorem create_domain_binding_rejected
    (params : RoleBindingCreateRequest.t) (s : Store)
    (user_vo : User.t) (role_vo : Role.t) :
  RoleBindingCreateRequest.resource_group params = "DOMAIN" →
  stored_user s (RoleBindingCreateRequest.user_id params)
    (RoleBindingCreateRequest.domain_id params) = Some user_vo →
  get_document
    (λ r, Role.role_id r = RoleBindingCreateRequest.role_id params ∧
          Role.domain_id r = RoleBindingCreateRequest.domain_id params)
    (roles s) = Some role_vo →
  Role.role_type role_vo ≠ "DOMAIN_ADMIN" →
  create params s =
    (Raise (ERROR_NOT_ALLOWED_ROLE_TYPE (Role.role_id role_vo)
              (Role.role_type role_vo) ["DOMAIN_ADMIN"]), s) ∧
  stored_role_type (create params s).2
    (RoleBindingCreateRequest.user_id params)
    (RoleBindingCreateRequest.domain_id params) =
    Some (User.role_type user_vo).
Proof.
  intros Hgroup Huser Hrole Htype.
  assert (create params s =
    (Raise (ERROR_NOT_ALLOWED_ROLE_TYPE (Role.role_id role_vo)
              (Role.role_type role_vo) ["DOMAIN_ADMIN"]), s)) as Hrun.
  { rewrite create_valid by by apply valid_domain.
    unfold_service. rewrite Huser, Hgroup.
    rewrite decide_False by done.
    rewrite Hrole.
    rewrite decide_True by done.
    by rewrite decide_True. }
  split; [exact Hrun|].
  rewrite Hrun. unfold stored_role_type. simpl. by rewrite Huser.
Qed.

Lemma create_domain_binding_rejected_witness :
  create (Example.create_request "alice" "role-owner" "DOMAIN" None)
    Example.store0 =
    (Raise (ERROR_NOT_ALLOWED_ROLE_TYPE "role-owner" "WORKSPACE_OWNER"
              ["DOMAIN_ADMIN"]), Example.store0) ∧
  stored_role_type
    (create (Example.create_request "alice" "role-owner" "DOMAIN" None)
       Example.store0).2 "alice" "domain-1" = Some "USER".
Proof.
  apply (create_domain_binding_rejected
           (Example.create_request "alice" "role-owner" "DOMAIN" None)
           Example.store0 (Example.user "alice" "USER" None)
           (Example.role "role-owner" "WORKSPACE_OWNER")).
  - reflexivity.
  - reflexivity.
  - reflexivity.
  - discriminate.
Defined.

(** C7: in a changeRole call, if the existing binding's role type is
    WORKSPACE_OWNER or WORKSPACE_MEMBER the new role's type must be one of
    those two, otherwise it must equal the existing binding's role type;
    any other combination fails with NotAllowedRoleType (and writes
    nothing), and an allowed one does not: the call then succeeds, or fails
    with NotFound when the bound user is missing. *)
Theorem update_role_validation
    (params : RoleBindingUpdateRoleRequest.t) (s : Store)
    (rb_vo : RoleBinding.t) (new_role_vo : Role.t) :
  get_document
    (RoleBindingManager.in_scope
       (RoleBindingUpdateRoleRequest.role_binding_id params)
       (RoleBindingUpdateRoleRequest.domain_id params)
       (RoleBindingUpdateRoleRequest.workspace_id params))
    (role_bindings s) = Some rb_vo →
  get_document
    (λ r, Role.role_id r = RoleBindingUpdateRoleRequest.role_id params ∧
          Role.domain_id r = RoleBindingUpdateRoleRequest.domain_id params)
    (roles s) = Some new_role_vo →
  (¬ Spec.change_allowed (RoleBinding.role_type rb_vo)
       (Role.role_type new_role_vo) →
   update_role params s =
     (Raise (ERROR_NOT_ALLOWED_ROLE_TYPE (Role.role_id new_role_vo)
               (Role.role_type new_role_vo)
               (if decide (RoleBinding.role_type rb_vo = "WORKSPACE_OWNER" ∨
                           RoleBinding.role_type rb_vo = "WORKSPACE_MEMBER")
                then ["WORKSPACE_OWNER"; "WORKSPACE_MEMBER"]
                else [RoleBinding.role_type rb_vo])), s)) ∧
  (Spec.change_allowed (RoleBinding.role_type rb_vo)
     (Role.role_type new_role_vo) →
   match stored_user s (RoleBinding.user_id rb_vo)
           (RoleBinding.domain_id rb_vo) with
   | Some user_vo =>
       ∃ s', update_role params s =
               (Ok (RoleBinding.set_role
                      (RoleBindingUpdateRoleRequest.role_id params)
                      (Role.role_type new_role_vo) rb_vo), s')
   | None =>
       update_role params s =
         (Raise (ERROR_NOT_FOUND "user_id" (RoleBinding.user_id rb_vo)), s)
   end).
Proof.
  intros Hrb Hrole. unfold Spec.change_allowed.
  split; intros Hallowed.
  - unfold_service. rewrite Hrb, Hrole.
    destruct (decide (_ ∨ _)) as [Hws|Hws].
    + rewrite decide_True by (by apply elem_of_workspace_roles).
      rewrite decide_True; [done|]. by rewrite elem_of_workspace_roles.
    + rewrite decide_False by (by rewrite elem_of_workspace_roles).
      rewrite decide_True; [done|]. congruence.
  - unfold_service. rewrite Hrb, Hrole.
    destruct (decide (_ ∨ _)) as [Hws|Hws].
    + rewrite decide_True by (by apply elem_of_workspace_roles).
      rewrite decide_False
        by (rewrite elem_of_workspace_roles; by intros []).
      destruct (get_document _ (users s)); eauto.
    + rewrite decide_False by (by rewrite elem_of_workspace_roles).
      rewrite decide_False by (intros Hne; by apply Hne).
      destruct (get_document _ (users s)); eauto.
Qed.

Lemma update_role_validation_witness :
  update_role (Example.update_role_request "rb-1" "role-owner")
    Example.store1 =
    (Raise (ERROR_NOT_ALLOWED_ROLE_TYPE "role-owner" "WORKSPACE_OWNER"
              ["DOMAIN_ADMIN"]), Example.store1) ∧
  ∃ s', update_role (Example.update_role_request "rb-2" "role-owner")
          Example.store1 =
          (Ok (Example.binding "rb-2" "alice" "role-owner" "WORKSPACE_OWNER"
                 "WORKSPACE" "ws-1"), s').
Proof.
  split.
  - apply (proj1 (update_role_validation
                    (Example.update_role_request "rb-1" "role-owner")
                    Example.store1
                    (Example.binding "rb-1" "alice" "role-admin"
                       "DOMAIN_ADMIN" "DOMAIN" "*")
                    (Example.role "role-owner" "WORKSPACE_OWNER")
                    eq_refl eq_refl)).
    vm_compute. discriminate.
  - apply (proj2 (update_role_validation
                    (Example.update_role_request "rb-2" "role-owner")
                    Example.store1
                    (Example.binding "rb-2" "alice" "role-member"
                       "WORKSPACE_MEMBER" "WORKSPACE" "ws-1")
                    (Example.role "role-owner" "WORKSPACE_OWNER")
                    eq_refl eq_refl)).
    vm_compute. by left.
Defined.

Lemma stored_user_key (s : Store) (user_id domain_id : string)
    (user_vo : User.t) :
  stored_user s user_id domain_id = Some user_vo →
  user_vo ∈ users s ∧
  User.user_id user_vo = user_id ∧ User.domain_id user_vo = domain_id.
Proof.
  intros Hget. apply get_document_Some in Hget. tauto.
Qed.

Lemma stored_role_type_write (s : Store) (user_id domain_id r : string)
    (user_vo : User.t) :
  stored_user s user_id domain_id = Some user_vo →
  stored_role_type (write_role_type r user_vo s) user_id domain_id = Some r.
Proof.
  intros Hget.
  destruct (stored_user_key _ _ _ _ Hget) as (_ & Huid & Hdid).
  unfold stored_role_type, stored_user, write_role_type in *. simpl.
  rewrite get_document_update.
  - by rewrite Hget.
  - by intros [].
  - unfold UserManager.same_user. intros u. by rewrite Huid, Hdid.
Qed.

(** The run of [delete] once its two lookups succeed. *)
Lemma delete_run (params : RoleBindingDeleteRequest.t) (s : Store)
    (rb_vo : RoleBinding.t) (user_vo : User.t) :
  get_document
    (RoleBindingManager.in_scope
       (RoleBindingDeleteRequest.role_binding_id params)
       (RoleBindingDeleteRequest.domain_id params)
       (RoleBindingDeleteRequest.workspace_id params))
    (role_bindings s) = Some rb_vo →
  stored_user s (RoleBinding.user_id rb_vo) (RoleBinding.domain_id rb_vo)
    = Some user_vo →
  delete params s =
    (Ok tt,
     with_role_bindings
       (delete_documents (RoleBindingManager.same_binding rb_vo)
          (role_bindings s))
       (write_role_type
          (remaining_role_type
             (RoleBindingDeleteRequest.role_binding_id params)
             (bindings_of s (RoleBindingDeleteRequest.domain_id params)
                (RoleBinding.user_id rb_vo)))
          user_vo s)).
Proof.
  intros Hrb Huser. unfold_service. by rewrite Hrb, Huser.
Qed.

Lemma delete_Ok (params : RoleBindingDeleteRequest.t) (s s' : Store) :
  delete params s = (Ok tt, s') →
  ∃ rb_vo user_vo,
    get_document
      (RoleBindingManager.in_scope
         (RoleBindingDeleteRequest.role_binding_id params)
         (RoleBindingDeleteRequest.domain_id params)
         (RoleBindingDeleteRequest.workspace_id params))
      (role_bindings s) = Some rb_vo ∧
    stored_user s (RoleBinding.user_id rb_vo) (RoleBinding.domain_id rb_vo)
      = Some user_vo.
Proof.
  intros Hrun.
  destruct (get_document
    (RoleBindingManager.in_scope
       (RoleBindingDeleteRequest.role_binding_id params)
       (RoleBindingDeleteRequest.domain_id params)
       (RoleBindingDeleteRequest.workspace_id params))
    (role_bindings s)) as [rb_vo|] eqn:Hrb.
  - destruct (stored_user s (RoleBinding.user_id rb_vo)
                (RoleBinding.domain_id rb_vo)) as [user_vo|] eqn:Huser.
    + eauto.
    + unfold_service. by rewrite Hrb, Huser in Hrun.
  - unfold_service. by rewrite Hrb in Hrun.
Qed.

Lemma bindings_of_delete (s : Store) (rb_vo : RoleBinding.t)
    (role_binding_id domain_id user_id : string) :
  RoleBinding.role_binding_id rb_vo = role_binding_id →
  bindings_of
    (with_role_bindings
       (delete_documents (RoleBindingManager.same_binding rb_vo)
          (role_bindings s)) s) domain_id user_id =
  filter (λ rb, RoleBinding.role_binding_id rb ≠ role_binding_id)
    (bindings_of s domain_id user_id).
Proof.
  intros Hid. unfold bindings_of. simpl. rewrite filter_delete_documents.
  apply list_filter_iff. intros rb.
  unfold RoleBindingManager.same_binding. by rewrite Hid.
Qed.

(** C3: [delete] recomputes the user's role type as the left fold of the
    aggregator from "USER" over the role types of the user's bindings
    other than the deleted one, stores it on the user, and leaves exactly
    those bindings; when no binding remains the stored role type is
    "USER". *)
Theorem delete_recomputes_role_type
    (params : RoleBindingDeleteRequest.t) (s : Store)
    (rb_vo : RoleBinding.t) (user_vo : User.t) :
  get_document
    (RoleBindingManager.in_scope
       (RoleBindingDeleteRequest.role_binding_id params)
       (RoleBindingDeleteRequest.domain_id params)
       (RoleBindingDeleteRequest.workspace_id params))
    (role_bindings s) = Some rb_vo →
  stored_user s (RoleBinding.user_id rb_vo) (RoleBinding.domain_id rb_vo)
    = Some user_vo →
  let remaining :=
    filter (λ rb, RoleBinding.role_binding_id rb ≠
                  RoleBindingDeleteRequest.role_binding_id params)
      (bindings_of s (RoleBinding.domain_id rb_vo)
         (RoleBinding.user_id rb_vo)) in
  ∃ s',
    delete params s = (Ok tt, s') ∧
    stored_role_type s' (RoleBinding.user_id rb_vo)
      (RoleBinding.domain_id rb_vo) =
      Some (fold_left _get_latest_role_type
              (RoleBinding.role_type <$> remaining) "USER") ∧
    bindings_of s' (RoleBinding.domain_id rb_vo)
      (RoleBinding.user_id rb_vo) = remaining ∧
    (remaining = [] →
     stored_role_type s' (RoleBinding.user_id rb_vo)
       (RoleBinding.domain_id rb_vo) = Some "USER").
Proof.
  intros Hrb Huser remaining.
  destruct (get_document_Some _ _ _ Hrb) as (_ & Hid & Hdom & _).
  eexists. split; [by apply delete_run|].
  assert (stored_role_type
    (with_role_bindings
       (delete_documents (RoleBindingManager.same_binding rb_vo)
          (role_bindings s))
       (write_role_type
          (remaining_role_type
             (RoleBindingDeleteRequest.role_binding_id params)
             (bindings_of s (RoleBindingDeleteRequest.domain_id params)
                (RoleBinding.user_id rb_vo)))
          user_vo s))
    (RoleBinding.user_id rb_vo) (RoleBinding.domain_id rb_vo) =
    Some (fold_left _get_latest_role_type
            (RoleBinding.role_type <$> remaining) "USER")) as Hstored.
  { change (stored_role_type (with_role_bindings ?rbs ?s0))
      with (stored_role_type s0).
    rewrite (stored_role_type_write _ _ _ _ _ Huser).
    rewrite remaining_role_type_aggregate, <- Hdom. done. }
  split; [exact Hstored|]. split.
  - change (bindings_of (with_role_bindings ?rbs (write_role_type ?r ?u s)))
      with (bindings_of (with_role_bindings rbs s)).
    by apply bindings_of_delete.
  - intros Hnone. rewrite Hstored, Hnone. done.
Qed.

Lemma delete_recomputes_role_type_witness :
  ∃ s', delete (Example.delete_request "rb-3") Example.store1 = (Ok tt, s') ∧
        stored_role_type s' "bob" "domain-1" = Some "USER" ∧
        bindings_of s' "domain-1" "bob" = [].
Proof.
  destruct (delete_recomputes_role_type
              (Example.delete_request "rb-3") Example.store1
              (Example.binding "rb-3" "bob" "role-owner" "WORKSPACE_OWNER"
                 "WORKSPACE" "ws-1")
              (Example.user "bob" "USER" None) eq_refl eq_refl)
    as (s' & Hrun & _ & Hremaining & Hlast).
  exists s'. split; [exact Hrun|]. split.
  - apply Hlast. reflexivity.
  - exact Hremaining.
Defined.

(** What a successful [create] has found and written. *)
Lemma create_Ok (params : RoleBindingCreateRequest.t) (s s' : Store)
    (rb : RoleBinding.t) :
  create params s = (Ok rb, s') →
  ∃ user_vo role_vo,
    stored_user s (RoleBindingCreateRequest.user_id params)
      (RoleBindingCreateRequest.domain_id params) = Some user_vo ∧
    Spec.assignable (Role.role_type role_vo) ∧
    RoleBinding.role_binding_id rb =
      fresh (RoleBinding.role_binding_id <$> role_bindings s) ∧
    RoleBinding.role_type rb = Role.role_type role_vo ∧
    RoleBinding.user_id rb = RoleBindingCreateRequest.user_id params ∧
    RoleBinding.domain_id rb = RoleBindingCreateRequest.domain_id params ∧
    s' = with_role_bindings (role_bindings s ++ [rb])
           (write_role_type
              (_get_latest_role_type (User.role_type user_vo)
                 (Role.role_type role_vo))
              user_vo s).
Proof.
  intros Hrun. apply create_Ok_valid in Hrun as [Hvalid Hrun].
  unfold_service. cbn [RoleBindingManager.resource_group] in Hrun.
  destruct (decide (RoleBindingCreateRequest.resource_group params ∈
                      ["DOMAIN"; "WORKSPACE"])) as [_|]; [|done].
  destruct (get_document _ (users s)) as [user_vo|]; [|discriminate].
  exists user_vo.
  destruct (decide (RoleBindingCreateRequest.resource_group params
                    = "WORKSPACE")) as [Hws|Hws].
  - destruct (get_document _ (workspaces s)); [|discriminate].
    destruct (get_document _ (roles s)) as [role_vo|]; [|discriminate].
    exists role_vo.
    rewrite decide_False in Hrun by (rewrite Hws; discriminate).
    destruct (decide (Role.role_type role_vo ∉ _)) as [|Hin];
      [discriminate|].
    apply dec_stable in Hin.
    injection Hrun as <- <-.
    repeat split; try done.
    unfold Spec.assignable. apply elem_of_workspace_roles in Hin.
    rewrite !elem_of_cons. tauto.
  - destruct (get_document _ (roles s)) as [role_vo|]; [|discriminate].
    exists role_vo.
    destruct (decide (RoleBindingCreateRequest.resource_group params
                      = "DOMAIN")).
    + destruct (decide (Role.role_type role_vo ≠ _)) as [|Hadmin];
        [discriminate|].
      apply dec_stable in Hadmin.
      injection Hrun as <- <-.
      repeat split; try done.
      unfold Spec.assignable. rewrite Hadmin. by left.
    + destruct (decide (Role.role_type role_vo ∉ _)) as [|Hin];
        [discriminate|].
      apply dec_stable in Hin.
      injection Hrun as <- <-.
      repeat split; try done.
      unfold Spec.assignable. apply elem_of_workspace_roles in Hin.
      rewrite !elem_of_cons. tauto.
Qed.

(** What a successful [update_role] has found and written. *)
Lemma update_role_Ok (params : RoleBindingUpdateRoleRequest.t)
    (s s' : Store) (rb : RoleBinding.t) :
  update_role params s = (Ok rb, s') →
  ∃ rb_vo new_role_vo user_vo,
    rb_vo ∈ role_bindings s ∧
    Spec.change_allowed (RoleBinding.role_type rb_vo)
      (Role.role_type new_role_vo) ∧
    stored_user s (RoleBinding.user_id rb_vo) (RoleBinding.domain_id rb_vo)
      = Some user_vo ∧
    s' = with_role_bindings
           (update_documents (RoleBindingManager.same_binding rb_vo)
              (RoleBinding.set_role
                 (RoleBindingUpdateRoleRequest.role_id params)
                 (Role.role_type new_role_vo))
              (role_bindings s))
           (write_role_type
              (_get_latest_role_type (User.role_type user_vo)
                 (Role.role_type new_role_vo))
              user_vo s).
Proof.
  intros Hrun. unfold_service.
  destruct (get_document _ (role_bindings s)) as [rb_vo|] eqn:Hrb;
    [|discriminate].
  destruct (get_document _ (roles s)) as [new_role_vo|]; [|discriminate].
  exists rb_vo, new_role_vo.
  apply get_document_Some in Hrb as [Hin _].
  unfold Spec.change_allowed.
  destruct (decide (RoleBinding.role_type rb_vo ∈ _)) as [Hws|Hws].
  - destruct (decide (Role.role_type new_role_vo ∉ _)) as [|Hnew];
      [discriminate|].
    apply dec_stable in Hnew.
    destruct (get_document _ (users s)) as [user_vo|] eqn:Huser;
      [|discriminate].
    exists user_vo. injection Hrun as <- <-.
    rewrite decide_True by (by apply elem_of_workspace_roles).
    by rewrite <- elem_of_workspace_roles.
  - destruct (decide (RoleBinding.role_type rb_vo ≠ _)) as [|Hsame];
      [discriminate|].
    apply dec_stable in Hsame.
    destruct (get_document _ (users s)) as [user_vo|] eqn:Huser;
      [|discriminate].
    exists user_vo. injection Hrun as <- <-.
    by rewrite decide_False by (by rewrite <- elem_of_workspace_roles).
Qed.

(** Identifiers are unique: a stored binding with the identifier of
    another one is that one. *)
Lemma unique_binding (rbs : list RoleBinding.t) (rb_vo rb : RoleBinding.t) :
  NoDup (RoleBinding.role_binding_id <$> rbs) →
  rb_vo ∈ rbs → rb ∈ rbs →
  RoleBinding.role_binding_id rb = RoleBinding.role_binding_id rb_vo →
  rb = rb_vo.
Proof.
  induction rbs as [|x rbs IH]; intros Hnodup Hvo Hrb Hid.
  - by apply elem_of_nil in Hvo.
  - rewrite fmap_cons in Hnodup. apply NoDup_cons in Hnodup as [Hx Hnodup].
    apply elem_of_cons in Hvo as [->|Hvo];
      apply elem_of_cons in Hrb as [->|Hrb]; try done.
    + exfalso. apply Hx. rewrite <- Hid. by apply list_elem_of_fmap_2.
    + exfalso. apply Hx. rewrite Hid. by apply list_elem_of_fmap_2.
    + by apply IH.
Qed.

Lemma get_document_None {A} (P : A → Prop) `{∀ x, Decision (P x)}
    (c : list A) (x : A) :
  get_document P c = None → x ∈ c → ¬ P x.
Proof.
  unfold get_document. intros Hfind Hin HP.
  apply list_elem_of_In in Hin.
  pose proof (find_none _ _ Hfind x Hin) as Hfalse. simpl in Hfalse.
  by apply bool_decide_eq_false in Hfalse.
Qed.

(** A lookup by a key that at most one document has does not depend on
    the order of the collection. *)
Lemma get_document_perm {A} (P : A → Prop) `{∀ x, Decision (P x)}
    (c c' : list A) :
  (∀ x y, x ∈ c → y ∈ c → P x → P y → x = y) → c ≡ₚ c' →
  get_document P c' = get_document P c.
Proof.
  intros Hunique Hperm.
  destruct (get_document P c) as [x|] eqn:Hc;
    destruct (get_document P c') as [y|] eqn:Hc'; [| | |done].
  - apply get_document_Some in Hc as [Hx HPx].
    apply get_document_Some in Hc' as [Hy HPy].
    rewrite <- Hperm in Hy. f_equal. by apply Hunique.
  - apply get_document_Some in Hc as [Hx HPx]. rewrite Hperm in Hx.
    by destruct (get_document_None P c' x Hc' Hx).
  - apply get_document_Some in Hc' as [Hy HPy]. rewrite <- Hperm in Hy.
    by destruct (get_document_None P c y Hc Hy).
Qed.

(** [delete], by the outcome of its two lookups. *)
Lemma delete_cases (params : RoleBindingDeleteRequest.t) (s : Store) :
  delete params s =
    match get_document
            (RoleBindingManager.in_scope
               (RoleBindingDeleteRequest.role_binding_id params)
               (RoleBindingDeleteRequest.domain_id params)
               (RoleBindingDeleteRequest.workspace_id params))
            (role_bindings s) with
    | None =>
        (Raise (ERROR_NOT_FOUND "role_binding_id"
                  (RoleBindingDeleteRequest.role_binding_id params)), s)
    | Some rb_vo =>
        match stored_user s (RoleBinding.user_id rb_vo)
                (RoleBinding.domain_id rb_vo) with
        | None =>
            (Raise (ERROR_NOT_FOUND "user_id" (RoleBinding.user_id rb_vo)),
             s)
        | Some user_vo =>
            (Ok tt,
             with_role_bindings
               (delete_documents (RoleBindingManager.same_binding rb_vo)
                  (role_bindings s))
               (write_role_type
                  (remaining_role_type
                     (RoleBindingDeleteRequest.role_binding_id params)
                     (bindings_of s
                        (RoleBindingDeleteRequest.domain_id params)
                        (RoleBinding.user_id rb_vo)))
                  user_vo s))
        end
    end.
Proof.
  destruct (get_document _ (role_bindings s)) as [rb_vo|] eqn:Hrb.
  - destruct (stored_user s _ _) as [user_vo|] eqn:Huser.
    + by apply delete_run.
    + unfold_service. by rewrite Hrb, Huser.
  - unfold_service. by rewrite Hrb.
Qed.

(** The loop of [delete] gives the same role type on every order of a list
    of bindings with assignable role types. *)
Lemma remaining_role_type_perm (role_binding_id : string)
    (rbs rbs' : list RoleBinding.t) :
  Forall (λ rb, Spec.assignable (RoleBinding.role_type rb)) rbs →
  rbs ≡ₚ rbs' →
  remaining_role_type role_binding_id rbs =
    remaining_role_type role_binding_id rbs'.
Proof.
  intros Hassignable Hperm. rewrite !remaining_role_type_aggregate.
  apply aggregate_permutation.
  - left. apply Forall_fmap, Forall_forall. intros rb Hin.
    apply list_elem_of_filter in Hin as [_ Hin].
    apply assignable_recognised.
    rewrite Forall_forall in Hassignable. by apply Hassignable.
  - by rewrite Hperm.
Qed.

(** C6: the bindings [delete] fetches carry the role types [create] and
    [update_role] store, DOMAIN_ADMIN, WORKSPACE_OWNER and
    WORKSPACE_MEMBER (lemma [mutation_keeps_assignable]). For every list of such bindings and every
    permutation of it, the left fold of the aggregator from "USER" over
    their role types gives the same result, and so does the loop of
    [delete], which leaves the deleted binding out. With it [delete]
    itself does not depend on the order in which the bindings are stored:
    on a collection with unique identifiers it gives the same result and
    leaves the same users, the recomputed role type with them. *)
Theorem recomputation_order_independent (rbs rbs' : list RoleBinding.t) :
  Forall (λ rb, RoleBinding.role_type rb ∈
                  ["DOMAIN_ADMIN"; "WORKSPACE_OWNER"; "WORKSPACE_MEMBER"])
         rbs →
  rbs ≡ₚ rbs' →
  fold_left _get_latest_role_type (RoleBinding.role_type <$> rbs) "USER" =
    fold_left _get_latest_role_type (RoleBinding.role_type <$> rbs') "USER" ∧
  (∀ role_binding_id,
     remaining_role_type role_binding_id rbs =
       remaining_role_type role_binding_id rbs') ∧
  (∀ params s,
     role_bindings s = rbs →
     NoDup (RoleBinding.role_binding_id <$> rbs) →
     (delete params (with_role_bindings rbs' s)).1 = (delete params s).1 ∧
     users (delete params (with_role_bindings rbs' s)).2 =
       users (delete params s).2).
Proof.
  intros Hassignable Hperm. split; [|split].
  - apply aggregate_permutation; [|by rewrite Hperm].
    left. apply Forall_fmap. eapply Forall_impl; [exact Hassignable|].
    intros rb. apply assignable_recognised.
  - intros role_binding_id. by apply remaining_role_type_perm.
  - intros params s Hs Hnodup.
    assert (get_document
              (RoleBindingManager.in_scope
                 (RoleBindingDeleteRequest.role_binding_id params)
                 (RoleBindingDeleteRequest.domain_id params)
                 (RoleBindingDeleteRequest.workspace_id params)) rbs' =
            get_document
              (RoleBindingManager.in_scope
                 (RoleBindingDeleteRequest.role_binding_id params)
                 (RoleBindingDeleteRequest.domain_id params)
                 (RoleBindingDeleteRequest.workspace_id params)) rbs)
      as Hget.
    { apply get_document_perm; [|done].
      intros x y Hx Hy (Hidx & _) (Hidy & _).
      apply (unique_binding rbs); try done. congruence. }
    rewrite !delete_cases.
    change (stored_user (with_role_bindings rbs' s)) with (stored_user s).
    change (role_bindings (with_role_bindings rbs' s)) with rbs'.
    rewrite Hs, Hget.
    destruct (get_document _ rbs) as [rb_vo|]; [|done].
    destruct (stored_user s _ _) as [user_vo|]; [|done].
    split; [done|].
    assert (∀ role_binding_id domain_id user_id,
              remaining_role_type role_binding_id
                (filter (λ rb, RoleBinding.domain_id rb = domain_id ∧
                               RoleBinding.user_id rb = user_id) rbs') =
              remaining_role_type role_binding_id
                (filter (λ rb, RoleBinding.domain_id rb = domain_id ∧
                               RoleBinding.user_id rb = user_id) rbs))
      as Hloop.
    { intros role_binding_id domain_id user_id. symmetry.
      apply remaining_role_type_perm; [|by rewrite Hperm].
      apply Forall_forall. intros rb Hin.
      apply list_elem_of_filter in Hin as [_ Hin].
      rewrite Forall_forall in Hassignable. by apply Hassignable. }
    unfold write_role_type, bindings_of. simpl. by rewrite Hs, Hloop.
Qed.

Lemma recomputation_order_independent_witness :
  remaining_role_type "rb-1" (role_bindings Example.store1) =
    remaining_role_type "rb-1" (reverse (role_bindings Example.store1)) ∧
  users (delete (Example.delete_request "rb-1")
           (with_role_bindings (reverse (role_bindings Example.store1))
              Example.store1)).2 =
    users (delete (Example.delete_request "rb-1") Example.store1).2.
Proof.
  destruct (recomputation_order_independent
              (role_bindings Example.store1)
              (reverse (role_bindings Example.store1)))
    as (_ & Hloop & Hdelete).
  - apply (bool_decide_unpack _). vm_compute. exact I.
  - symmetry. apply reverse_Permutation.
  - split; [apply Hloop|].
    apply Hdelete; [reflexivity|].
    apply (bool_decide_unpack _). vm_compute. exact I.
Defined.

(** C9: when the bindings that remain to the user (the fetched ones other
    than the deleted one) all carry DOMAIN_ADMIN, WORKSPACE_OWNER or
    WORKSPACE_MEMBER, [delete] succeeds and the role type it stores on the
    user is DOMAIN_ADMIN if one of them carries DOMAIN_ADMIN and "USER"
    otherwise; it is never WORKSPACE_OWNER or WORKSPACE_MEMBER. *)
Theorem delete_aggregate_assignable
    (params : RoleBindingDeleteRequest.t) (s : Store)
    (rb_vo : RoleBinding.t) (user_vo : User.t) :
  get_document
    (RoleBindingManager.in_scope
       (RoleBindingDeleteRequest.role_binding_id params)
       (RoleBindingDeleteRequest.domain_id params)
       (RoleBindingDeleteRequest.workspace_id params))
    (role_bindings s) = Some rb_vo →
  stored_user s (RoleBinding.user_id rb_vo) (RoleBinding.domain_id rb_vo)
    = Some user_vo →
  let remaining :=
    filter (λ rb, RoleBinding.role_binding_id rb ≠
                  RoleBindingDeleteRequest.role_binding_id params)
      (bindings_of s (RoleBinding.domain_id rb_vo)
         (RoleBinding.user_id rb_vo)) in
  Forall (λ rb, RoleBinding.role_type rb ∈
                  ["DOMAIN_ADMIN"; "WORKSPACE_OWNER"; "WORKSPACE_MEMBER"])
         remaining →
  ∃ s',
    delete params s = (Ok tt, s') ∧
    stored_role_type s' (RoleBinding.user_id rb_vo)
      (RoleBinding.domain_id rb_vo) =
      Some (if decide (Exists (λ rb, RoleBinding.role_type rb = "DOMAIN_ADMIN")
                              remaining)
            then "DOMAIN_ADMIN" else "USER") ∧
    stored_role_type s' (RoleBinding.user_id rb_vo)
      (RoleBinding.domain_id rb_vo) ≠ Some "WORKSPACE_OWNER" ∧
    stored_role_type s' (RoleBinding.user_id rb_vo)
      (RoleBinding.domain_id rb_vo) ≠ Some "WORKSPACE_MEMBER".
Proof.
  intros Hrb Huser remaining Hassignable.
  destruct (get_document_Some _ _ _ Hrb) as (_ & Hid & Hdom & _).
  assert (remaining_role_type
            (RoleBindingDeleteRequest.role_binding_id params)
            (bindings_of s (RoleBindingDeleteRequest.domain_id params)
               (RoleBinding.user_id rb_vo)) =
          if decide (Exists (λ rb, RoleBinding.role_type rb = "DOMAIN_ADMIN")
                            remaining)
          then "DOMAIN_ADMIN" else "USER") as Hloop.
  { rewrite remaining_role_type_aggregate, <- Hdom. fold remaining.
    rewrite aggregate_recognised.
    - destruct (decide ("DOMAIN_ADMIN" ∈ _)) as [Hin|Hnin];
        case_decide as Hex; try reflexivity; exfalso.
      + apply Hex. apply list_elem_of_fmap in Hin as (rb & Hty & Hin).
        apply Exists_exists. eauto.
      + apply Hnin. apply Exists_exists in Hex as (rb & Hin & Hty).
        apply list_elem_of_fmap. eauto.
    - apply Forall_fmap. eapply Forall_impl; [exact Hassignable|].
      intros rb. apply assignable_recognised. }
  eexists. split; [by apply delete_run|].
  assert (stored_role_type
    (with_role_bindings
       (delete_documents (RoleBindingManager.same_binding rb_vo)
          (role_bindings s))
       (write_role_type
          (remaining_role_type
             (RoleBindingDeleteRequest.role_binding_id params)
             (bindings_of s (RoleBindingDeleteRequest.domain_id params)
                (RoleBinding.user_id rb_vo)))
          user_vo s))
    (RoleBinding.user_id rb_vo) (RoleBinding.domain_id rb_vo) =
    Some (if decide (Exists (λ rb, RoleBinding.role_type rb = "DOMAIN_ADMIN")
                            remaining)
          then "DOMAIN_ADMIN" else "USER")) as Hstored.
  { change (stored_role_type (with_role_bindings ?rbs ?s0))
      with (stored_role_type s0).
    rewrite (stored_role_type_write _ _ _ _ _ Huser). by rewrite Hloop. }
  split; [exact Hstored|].
  rewrite Hstored. split; case_decide; discriminate.
Qed.

Lemma delete_aggregate_assignable_witness :
  (∃ s', delete (Example.delete_request "rb-1") Example.store1 = (Ok tt, s') ∧
         stored_role_type s' "alice" "domain-1" = Some "USER") ∧
  (∃ s', delete (Example.delete_request "rb-2") Example.store1 = (Ok tt, s') ∧
         stored_role_type s' "alice" "domain-1" = Some "DOMAIN_ADMIN").
Proof.
  split.
  - destruct (delete_aggregate_assignable
                (Example.delete_request "rb-1") Example.store1
                (Example.binding "rb-1" "alice" "role-admin" "DOMAIN_ADMIN"
                   "DOMAIN" "*")
                (Example.user "alice" "DOMAIN_ADMIN" None) eq_refl eq_refl)
      as (s' & Hrun & Hstored & _).
    + apply (bool_decide_unpack _). vm_compute. exact I.
    + exists s'. split; [exact Hrun|].
      etrans; [exact Hstored|]. vm_compute. reflexivity.
  - destruct (delete_aggregate_assignable
                (Example.delete_request "rb-2") Example.store1
                (Example.binding "rb-2" "alice" "role-member"
                   "WORKSPACE_MEMBER" "WORKSPACE" "ws-1")
                (Example.user "alice" "DOMAIN_ADMIN" None) eq_refl eq_refl)
      as (s' & Hrun & Hstored & _).
    + apply (bool_decide_unpack _). vm_compute. exact I.
    + exists s'. split; [exact Hrun|].
      etrans; [exact Hstored|]. vm_compute. reflexivity.
Defined.

Lemma change_allowed_assignable (existing new : string) :
  Spec.assignable existing → Spec.change_allowed existing new →
  Spec.assignable new ∧ (new = "DOMAIN_ADMIN" ↔ existing = "DOMAIN_ADMIN").
Proof.
  unfold Spec.assignable, Spec.change_allowed.
  rewrite !elem_of_cons, elem_of_nil.
  intros Hexisting Hallowed. case_decide as Hws.
  - split; [tauto|]. destruct Hws as [->| ->], Hallowed as [->| ->]; done.
  - subst new. tauto.
Qed.







Lemma filter_all {A} (P : A → Prop) `{∀ x, Decision (P x)} (l : list A) :
  (∀ x, x ∈ l → P x) → filter P l = l.
Proof.
  induction l as [|x l IH]; intros Hall; [done|].
  rewrite filter_cons_True by (apply Hall; by left).
  f_equal. apply IH. intros y Hy. apply Hall. by right.
Qed.


(** Every successful binding mutation leaves only assignable role types
    in the binding collection: [create] stores the type it has checked
    against the resource group, [update_role] one that is allowed for the
    binding's own, [delete] stores none. *)
Lemma mutation_keeps_assignable (m : Mutation) (s s' : Store) :
  Forall (λ rb, Spec.assignable (RoleBinding.role_type rb))
         (role_bindings s) →
  run_mutation m s = (Ok tt, s') →
  Forall (λ rb, Spec.assignable (RoleBinding.role_type rb))
         (role_bindings s').
Proof.
  intros Hassignable Hrun. destruct m as [params|params|params].
  - unfold run_mutation, bind, ret in Hrun.
    destruct (create params s) as [[rb|e] s1] eqn:Hcreate; [|discriminate].
    injection Hrun as <-.
    apply create_Ok in Hcreate
      as (user_vo & role_vo & _ & Hrole & _ & Hty & _ & _ & ->).
    simpl. apply Forall_app. split; [done|].
    apply Forall_cons. split; [|done]. by rewrite Hty.
  - unfold run_mutation, bind, ret in Hrun.
    destruct (update_role params s) as [[rb|e] s1] eqn:Hupdate;
      [|discriminate].
    injection Hrun as <-.
    apply update_role_Ok in Hupdate
      as (rb_vo & new_role_vo & user_vo & Hvo & Hallowed & _ & ->).
    simpl. apply Forall_forall. intros y Hy.
    apply elem_of_update_documents in Hy as (x & Hx & ->).
    rewrite Forall_forall in Hassignable.
    case_decide; [|by apply Hassignable].
    by apply (change_allowed_assignable (RoleBinding.role_type rb_vo));
      [apply Hassignable|].
  - simpl in Hrun.
    destruct (delete_Ok _ _ _ Hrun) as (rb_vo & user_vo & Hrb & Huser).
    rewrite (delete_run _ _ _ _ Hrb Huser) in Hrun. injection Hrun as <-.
    simpl. apply Forall_forall. intros x Hx.
    apply list_elem_of_filter in Hx as [_ Hx].
    rewrite Forall_forall in Hassignable. by apply Hassignable.
Qed.


Lemma aggregate_consistent_Forall (s : Store) (user_id domain_id : string) :
  Forall (λ u, User.user_id u = user_id → User.domain_id u = domain_id →
               User.role_type u =
                 Spec.aggregate
                   (RoleBinding.role_type <$>
                      bindings_of s domain_id user_id))
         (users s) →
  aggregate_consistent s user_id domain_id.
Proof. intros Hall u Hin. by apply (proj1 (Forall_forall _ _) Hall). Qed.



(** X1: a binding mutation that fails has written nothing: every error is
    raised before the first write. *)
Theorem failed_mutation_writes_nothing (m : Mutation) (s s' : Store)
    (e : Error) :
  run_mutation m s = (Raise e, s') → s' = s.
Proof.
  intros Hrun. destruct m as [params|params|params]; unfold_service;
    repeat case_match; by simplify_eq.
Qed.

Lemma failed_mutation_writes_nothing_witness :
  (run_mutation
     (Create (Example.create_request "alice" "role-owner" "DOMAIN" None))
     Example.store0).2 = Example.store0.
Proof.
  apply (failed_mutation_writes_nothing
           (Create (Example.create_request "alice" "role-owner" "DOMAIN"
                      None))
           Example.store0 _
           (ERROR_NOT_ALLOWED_ROLE_TYPE "role-owner" "WORKSPACE_OWNER"
              ["DOMAIN_ADMIN"])).
  vm_compute. reflexivity.
Defined.

End RoleBindings.

(** ** MFA enrolment *)

Section Mfa.
Import UserProfileService.

Variable email_manager : MFAManager.t.

Ltac unfold_profile :=
  unfold enable_mfa, disable_mfa, confirm_mfa,
    MFAManager.get_manager_by_mfa_type,
    UserManager.get_user, UserManager.update_user_by_vo,
    stored_user in *;
  cbv beta iota zeta delta [bind ret raise gets modify] in *.

Lemma to_dict_state (m : MFA.t) :
  state_of (MFA.to_dict m) = PyStr (MFA.state m).
Proof. destruct m as [state [ty|] options]; reflexivity. Qed.

Lemma of_dict_to_dict (m : MFA.t) : MFA.of_dict (MFA.to_dict m) = m.
Proof. destruct m as [state [ty|] options]; reflexivity. Qed.

Lemma of_dict_set_state (state : string) (m : MFA.t) :
  MFA.of_dict (<["state" := PyStr state]> (MFA.to_dict m)) =
  MFA.set_state state m.
Proof. destruct m as [state' [ty|] options]; reflexivity. Qed.

Lemma stored_mfa_write (s : Store) (user_id domain_id : string)
    (user_vo : User.t) (user_mfa : gmap string PyVal) :
  stored_user s user_id domain_id = Some user_vo →
  stored_mfa
    (with_users
       (update_documents (UserManager.same_user user_vo)
          (UserManager.apply_params
             {| UserManager.role_type := None;
                UserManager.mfa := Some user_mfa |})
          (users s)) s) user_id domain_id =
  Some (Some (MFA.of_dict user_mfa)).
Proof.
  intros Hget.
  destruct (stored_user_key _ _ _ _ Hget) as (_ & Huid & Hdid).
  unfold stored_mfa, stored_user in *. simpl.
  rewrite get_document_update.
  - by rewrite Hget.
  - by intros [].
  - unfold UserManager.same_user. intros u. by rewrite Huid, Hdid.
Qed.

(** A user whose MFA record has no [mfa_type] (none, or the empty string)
    gets MfaNotEnabled from confirm. *)
Lemma confirm_mfa_without_mfa_type
    (params : UserProfileConfirmMFARequest.t) (s : Store)
    (user_vo : User.t) (m : MFA.t) :
  stored_user s (UserProfileConfirmMFARequest.user_id params)
    (UserProfileConfirmMFARequest.domain_id params) = Some user_vo →
  User.mfa user_vo = Some m →
  MFA.mfa_type m = None ∨ MFA.mfa_type m = Some EmptyString →
  confirm_mfa email_manager params s =
    (Raise (ERROR_MFA_NOT_ENABLED (UserProfileConfirmMFARequest.user_id params)),
     s).
Proof.
  intros Huser Hmfa Hty. unfold_profile. rewrite Huser, Hmfa.
  by destruct Hty as [-> | ->].
Qed.

(** For a user without an MFA record [user_vo.mfa.mfa_type] reads an
    attribute of [None], and confirm ends in Python's AttributeError before
    the check that raises MfaNotEnabled. *)
Lemma confirm_mfa_without_mfa_record
    (params : UserProfileConfirmMFARequest.t) (s : Store)
    (user_vo : User.t) :
  stored_user s (UserProfileConfirmMFARequest.user_id params)
    (UserProfileConfirmMFARequest.domain_id params) = Some user_vo →
  User.mfa user_vo = None →
  confirm_mfa email_manager params s =
    (Raise (AttributeError "NoneType" "mfa_type"), s).
Proof.
  intros Huser Hmfa. unfold_profile. by rewrite Huser, Hmfa.
Qed.

(** C4, where the code departs from the claim: [alice] has no MFA record,
    and confirm ends in AttributeError, not in MfaNotEnabled; [erin], whose
    record has no type, gets MfaNotEnabled. *)
Theorem confirm_mfa_missing_record_attribute_error :
  stored_mfa Example.store0 "alice" "domain-1" = Some None ∧
  confirm_mfa Example.email_manager
    (Example.confirm_request "alice" "123456") Example.store0 =
    (Raise (AttributeError "NoneType" "mfa_type"), Example.store0) ∧
  confirm_mfa Example.email_manager
    (Example.confirm_request "erin" "123456") Example.store0 =
    (Raise (ERROR_MFA_NOT_ENABLED "erin"), Example.store0).
Proof. repeat split; reflexivity. Qed.

(** C8, as amended: a call of enable with empty options fails with
    RequiredParameter, the check that comes first, whatever the user's
    MFA state, and writes nothing. With non-empty options: for a user
    whose MFA state is ENABLED the call fails with MfaAlreadyEnabled and
    leaves the store, the MFA record with it, untouched; a user without an
    MFA record counts as DISABLED and passes the check: the call goes on
    to enrol the EMAIL type (state DISABLED until confirmed) or to reject
    another type. *)
Theorem enable_mfa_state_check
    (params : UserProfileEnableMFARequest.t) (s : Store) (user_vo : User.t) :
  stored_user s (UserProfileEnableMFARequest.user_id params)
    (UserProfileEnableMFARequest.domain_id params) = Some user_vo →
  (UserProfileEnableMFARequest.options params = ∅ →
     enable_mfa email_manager params s =
       (Raise (ERROR_REQUIRED_PARAMETER "options"), s)) ∧
  (UserProfileEnableMFARequest.options params ≠ ∅ →
   ∀ m, User.mfa user_vo = Some m → MFA.state m = "ENABLED" →
     enable_mfa email_manager params s =
       (Raise (ERROR_MFA_ALREADY_ENABLED
                 (UserProfileEnableMFARequest.user_id params)), s)) ∧
  (UserProfileEnableMFARequest.options params ≠ ∅ →
   User.mfa user_vo = None →
     if decide (UserProfileEnableMFARequest.mfa_type params = "EMAIL") then
       ∃ user_vo' s',
         enable_mfa email_manager params s = (Ok user_vo', s') ∧
         stored_mfa s' (UserProfileEnableMFARequest.user_id params)
           (UserProfileEnableMFARequest.domain_id params) =
           Some (Some {| MFA.state := "DISABLED";
                         MFA.mfa_type := Some "EMAIL";
                         MFA.options :=
                           UserProfileEnableMFARequest.options params |})
     else
       enable_mfa email_manager params s =
         (Raise (ERROR_NOT_SUPPORTED_MFA_TYPE ["EMAIL"]), s)).
Proof.
  intros Huser. split; [|split].
  - intros Hoptions. unfold_profile. rewrite Huser.
    by rewrite decide_True.
  - intros Hoptions m Hmfa Hstate. unfold_profile. rewrite Huser.
    rewrite decide_False by done.
    unfold mfa_dict. rewrite Hmfa, to_dict_state, Hstate.
    by rewrite decide_True.
  - intros Hoptions Hmfa. pose proof Huser as Huser'.
    destruct (decide (UserProfileEnableMFARequest.mfa_type params = "EMAIL"))
      as [Hty|Hty].
    + eexists _, _. split.
      * unfold_profile.
        rewrite Huser. rewrite decide_False by done.
        unfold mfa_dict. rewrite Hmfa.
        rewrite decide_False by discriminate.
        rewrite !decide_True by done.
        reflexivity.
      * rewrite (stored_mfa_write _ _ _ _ _ Huser'). rewrite Hty.
        reflexivity.
    + unfold_profile.
      rewrite Huser. rewrite decide_False by done.
      unfold mfa_dict. rewrite Hmfa.
      rewrite decide_False by discriminate.
      by rewrite decide_False.
Qed.

(** Counterexample to C8 as stated: [carol]'s MFA is ENABLED, and a call
    of enable with empty options fails with RequiredParameter, the check
    that comes first, not with MfaAlreadyEnabled. *)
Lemma enable_mfa_enabled_empty_options :
  stored_mfa Example.store0 "carol" "domain-1" =
    Some (Some (Example.email_mfa "ENABLED")) ∧
  enable_mfa Example.email_manager (Example.enable_request "carol" "EMAIL" ∅)
    Example.store0 =
    (Raise (ERROR_REQUIRED_PARAMETER "options"), Example.store0).
Proof. split; reflexivity. Qed.

(** C10: when confirm succeeds on a user whose MFA state is ENABLED, the
    stored MFA record becomes the one of the dictionary {state: DISABLED}
    alone, without the stored mfa_type and options; when it succeeds on
    state DISABLED, the state becomes ENABLED and mfa_type and options stay
    as they were. *)
Theorem confirm_mfa_stored_record
    (params : UserProfileConfirmMFARequest.t) (s s' : Store)
    (user_vo response : User.t) (m : MFA.t) :
  stored_user s (UserProfileConfirmMFARequest.user_id params)
    (UserProfileConfirmMFARequest.domain_id params) = Some user_vo →
  User.mfa user_vo = Some m →
  confirm_mfa email_manager params s = (Ok response, s') →
  (MFA.state m = "ENABLED" →
   stored_mfa s' (UserProfileConfirmMFARequest.user_id params)
     (UserProfileConfirmMFARequest.domain_id params) =
     Some (Some (MFA.of_dict {[ "state" := PyStr "DISABLED" ]})) ∧
   MFA.of_dict {[ "state" := PyStr "DISABLED" ]} =
     {| MFA.state := "DISABLED"; MFA.mfa_type := None; MFA.options := ∅ |}) ∧
  (MFA.state m = "DISABLED" →
   stored_mfa s' (UserProfileConfirmMFARequest.user_id params)
     (UserProfileConfirmMFARequest.domain_id params) =
     Some (Some {| MFA.state := "ENABLED"; MFA.mfa_type := MFA.mfa_type m;
                   MFA.options := MFA.options m |})).
Proof.
  intros Huser Hmfa Hrun. pose proof Huser as Huser'.
  unfold_profile. rewrite Huser, Hmfa in Hrun.
  destruct (MFA.mfa_type m) as [[|a ty]|] eqn:Hty; try discriminate.
  destruct (decide (String a ty = "EMAIL")) as [Hemail|]; [|discriminate].
  destruct (MFAManager.confirm_mfa email_manager _ _); [|discriminate].
  unfold mfa_dict in Hrun. rewrite Hmfa, to_dict_state in Hrun.
  split; intros Hstate; rewrite Hstate in Hrun.
  - rewrite decide_True in Hrun by done. injection Hrun as _ <-.
    by rewrite (stored_mfa_write _ _ _ _ _ Huser').
  - rewrite decide_False in Hrun by discriminate.
    rewrite decide_True in Hrun by done. injection Hrun as _ <-.
    rewrite (stored_mfa_write _ _ _ _ _ Huser'), of_dict_set_state.
    by rewrite <- Hty.
Qed.

(** X3: a confirm whose code the email strategy rejects fails with
    InvalidVerifyCode and writes nothing. *)
Theorem confirm_mfa_invalid_code
    (params : UserProfileConfirmMFARequest.t) (s : Store)
    (user_vo : User.t) (m : MFA.t) :
  stored_user s (UserProfileConfirmMFARequest.user_id params)
    (UserProfileConfirmMFARequest.domain_id params) = Some user_vo →
  User.mfa user_vo = Some m →
  MFA.mfa_type m = Some "EMAIL" →
  MFAManager.confirm_mfa email_manager
    {[ "user_id" := UserProfileConfirmMFARequest.user_id params;
       "domain_id" := UserProfileConfirmMFARequest.domain_id params ]}
    (UserProfileConfirmMFARequest.verify_code params) = false →
  confirm_mfa email_manager params s =
    (Raise (ERROR_INVALID_VERIFY_CODE
              (UserProfileConfirmMFARequest.verify_code params)), s).
Proof.
  intros Huser Hmfa Hty Hcode. unfold_profile.
  rewrite Huser, Hmfa, Hty. cbv beta iota.
  rewrite !decide_True by done.
  by rewrite Hcode.
Qed.

End Mfa.

Lemma enable_mfa_state_check_witness :
  UserProfileService.enable_mfa Example.email_manager
    (Example.enable_request "carol" "EMAIL" ∅) Example.store0 =
    (Raise (ERROR_REQUIRED_PARAMETER "options"), Example.store0) ∧
  UserProfileService.enable_mfa Example.email_manager
    (Example.enable_request "carol" "EMAIL" {[ "email" := "c@example.com" ]})
    Example.store0 =
    (Raise (ERROR_MFA_ALREADY_ENABLED "carol"), Example.store0) ∧
  ∃ user_vo' s',
    UserProfileService.enable_mfa Example.email_manager
      (Example.enable_request "alice" "EMAIL"
         {[ "email" := "a@example.com" ]}) Example.store0 =
      (Ok user_vo', s') ∧
    stored_mfa s' "alice" "domain-1" =
      Some (Some {| MFA.state := "DISABLED"; MFA.mfa_type := Some "EMAIL";
                    MFA.options := {[ "email" := "a@example.com" ]} |}).
Proof.
  split; [|split].
  - exact (proj1 (enable_mfa_state_check Example.email_manager
                    (Example.enable_request "carol" "EMAIL" ∅)
                    Example.store0
                    (Example.user "carol" "USER"
                       (Some (Example.email_mfa "ENABLED")))
                    eq_refl) eq_refl).
  - refine (proj1 (proj2 (enable_mfa_state_check Example.email_manager
                     (Example.enable_request "carol" "EMAIL"
                        {[ "email" := "c@example.com" ]})
                     Example.store0
                     (Example.user "carol" "USER"
                        (Some (Example.email_mfa "ENABLED")))
                     eq_refl)) _ (Example.email_mfa "ENABLED")
                  eq_refl eq_refl).
    vm_compute. discriminate.
  - refine (proj2 (proj2 (enable_mfa_state_check Example.email_manager
                     (Example.enable_request "alice" "EMAIL"
                        {[ "email" := "a@example.com" ]})
                     Example.store0 (Example.user "alice" "USER" None)
                     eq_refl)) _ eq_refl).
    vm_compute. discriminate.
Defined.

Lemma confirm_mfa_stored_record_witness :
  stored_mfa
    (UserProfileService.confirm_mfa Example.email_manager
       (Example.confirm_request "carol" "123456") Example.store0).2
    "carol" "domain-1" =
    Some (Some {| MFA.state := "DISABLED"; MFA.mfa_type := None;
                  MFA.options := ∅ |}) ∧
  stored_mfa
    (UserProfileService.confirm_mfa Example.email_manager
       (Example.confirm_request "dave" "123456") Example.store0).2
    "dave" "domain-1" =
    Some (Some {| MFA.state := "ENABLED"; MFA.mfa_type := Some "EMAIL";
                  MFA.options := {[ "email" := "user@example.com" ]} |}).
Proof.
  split.
  - refine (proj1 (proj1 (confirm_mfa_stored_record Example.email_manager
                     (Example.confirm_request "carol" "123456")
                     Example.store0 _
                     (Example.user "carol" "USER"
                        (Some (Example.email_mfa "ENABLED")))
                     (Example.user "carol" "USER"
                        (Some (MFA.of_dict {[ "state" := PyStr "DISABLED" ]})))
                     (Example.email_mfa "ENABLED")
                     eq_refl eq_refl _) eq_refl)).
    vm_compute. reflexivity.
  - refine (proj2 (confirm_mfa_stored_record Example.email_manager
                     (Example.confirm_request "dave" "123456")
                     Example.store0 _
                     (Example.user "dave" "USER"
                        (Some (Example.email_mfa "DISABLED")))
                     (Example.user "dave" "USER"
                        (Some (Example.email_mfa "ENABLED")))
                     (Example.email_mfa "DISABLED")
                     eq_refl eq_refl _) eq_refl).
    vm_compute. reflexivity.
Defined.

Lemma confirm_mfa_invalid_code_witness :
  UserProfileService.confirm_mfa Example.email_manager
    (Example.confirm_request "carol" "000000") Example.store0 =
    (Raise (ERROR_INVALID_VERIFY_CODE "000000"), Example.store0).
Proof.
  apply (confirm_mfa_invalid_code Example.email_manager
           (Example.confirm_request "carol" "000000") Example.store0
           (Example.user "carol" "USER" (Some (Example.email_mfa "ENABLED")))
           (Example.email_mfa "ENABLED")); reflexivity.
Defined.

(** * Further properties of the two services *)

(** ** The aggregator and the binding mutations *)

Section MoreRoleBindings.
Import RoleBindingService.

Ltac unfold_service :=
  unfold run_mutation, create, convert_model, create_role_binding,
    update_role, delete,
    UserManager.get_user, UserManager.update_user_by_vo,
    RoleManager.get_role, WorkspaceManager.get_workspace,
    RoleBindingManager.get_role_binding,
    RoleBindingManager.filter_role_bindings,
    RoleBindingManager.create_role_binding,
    RoleBindingManager.update_role_binding_by_vo,
    RoleBindingManager.delete_role_binding_by_vo,
    stored_user in *;
  cbv beta iota zeta delta [bind ret raise gets modify] in *.

(** X4: DOMAIN_ADMIN absorbs on both sides of the aggregator: whatever the
    other role type is, known to the priority table or not, the result is
    DOMAIN_ADMIN. *)
Theorem domain_admin_absorbing (role_type : string) :
  _get_latest_role_type "DOMAIN_ADMIN" role_type = "DOMAIN_ADMIN" ∧
  _get_latest_role_type role_type "DOMAIN_ADMIN" = "DOMAIN_ADMIN".
Proof. split; [apply latest_admin_l | apply latest_admin_r]. Qed.

(** X5: the aggregator returns one of [before], "USER" and [after], and
    it returns a workspace role only by keeping a [before] that is one and
    has the strictly smaller priority number: it never raises the
    aggregate to WORKSPACE_OWNER or WORKSPACE_MEMBER. *)
Theorem latest_role_type_closed (before after : string) :
  (_get_latest_role_type before after = before ∨
   _get_latest_role_type before after = "USER" ∨
   _get_latest_role_type before after = after) ∧
  (_get_latest_role_type before after = "WORKSPACE_OWNER" ∨
   _get_latest_role_type before after = "WORKSPACE_MEMBER" →
   _get_latest_role_type before after = before ∧
   default 4 (priority !! before) < default 4 (priority !! after)).
Proof.
  rewrite !priority_lookup, latest_role_type_combine. unfold Spec.combine.
  destruct (decide (Spec.priority before < Spec.priority after)).
  - split; [by left|]. done.
  - destruct (decide (after = "WORKSPACE_OWNER" ∨ after = "WORKSPACE_MEMBER"))
      as [Hws|Hws].
    + split; [right; by left|]. by intros [|].
    + split; [right; by right|]. intros []; tauto.
Qed.

Lemma get_document_update_other {A} (K Q : A → Prop)
    `{∀ x, Decision (K x)} `{∀ x, Decision (Q x)} (f : A → A) (c : list A) :
  (∀ x, K (f x) ↔ K x) → (∀ x, K x → ¬ Q x) →
  get_document K (update_documents Q f c) = get_document K c.
Proof.
  intros Hkey Hother. unfold get_document, update_documents.
  induction c as [|x c IH]; simpl; [done|].
  destruct (decide (K x)) as [HK|HK].
  - rewrite decide_False by auto.
    by rewrite (bool_decide_eq_true_2 (K x)).
  - rewrite (bool_decide_eq_false_2 (K x)) by done.
    case_decide.
    + rewrite (bool_decide_eq_false_2 (K (f x))); [done|]. by rewrite Hkey.
    + by rewrite (bool_decide_eq_false_2 (K x)).
Qed.

Lemma stored_user_write_same (s : Store) (user_id domain_id r : string)
    (user_vo : User.t) :
  stored_user s user_id domain_id = Some user_vo →
  stored_user (write_role_type r user_vo s) user_id domain_id =
    Some (User.set_role_type r user_vo).
Proof.
  intros Hget.
  destruct (stored_user_key _ _ _ _ Hget) as (_ & Huid & Hdid).
  unfold stored_user, write_role_type in *. simpl.
  rewrite get_document_update.
  - by rewrite Hget.
  - by intros [].
  - unfold UserManager.same_user. intros u. by rewrite Huid, Hdid.
Qed.

Lemma stored_user_write_other (s : Store) (user_id domain_id r : string)
    (user_vo : User.t) :
  ¬ (User.user_id user_vo = user_id ∧ User.domain_id user_vo = domain_id) →
  stored_user (write_role_type r user_vo s) user_id domain_id =
    stored_user s user_id domain_id.
Proof.
  intros Hne. unfold stored_user, write_role_type. simpl.
  apply get_document_update_other.
  - by intros [].
  - unfold UserManager.same_user. intros u [Hu Hd] [Hu' Hd'].
    apply Hne. split; congruence.
Qed.

(** The run of [create] on a resource group of the data model, once its
    lookups succeed and the role type fits the resource group. *)
Lemma create_run (params : RoleBindingCreateRequest.t) (s : Store)
    (user_vo : User.t) (role_vo : Role.t) :
  RoleBindingCreateRequest.resource_group params ∈ ["DOMAIN"; "WORKSPACE"] →
  stored_user s (RoleBindingCreateRequest.user_id params)
    (RoleBindingCreateRequest.domain_id params) = Some user_vo →
  (RoleBindingCreateRequest.resource_group params = "WORKSPACE" →
   is_Some (get_document
      (λ w, Some (Workspace.workspace_id w) =
              RoleBindingCreateRequest.workspace_id params ∧
            Workspace.domain_id w = RoleBindingCreateRequest.domain_id params)
      (workspaces s))) →
  get_document
    (λ r, Role.role_id r = RoleBindingCreateRequest.role_id params ∧
          Role.domain_id r = RoleBindingCreateRequest.domain_id params)
    (roles s) = Some role_vo →
  (if decide (RoleBindingCreateRequest.resource_group params = "DOMAIN")
   then Role.role_type role_vo = "DOMAIN_ADMIN"
   else Role.role_type role_vo ∈ ["WORKSPACE_OWNER"; "WORKSPACE_MEMBER"]) →
  create params s =
    (Ok (created_binding params (Role.role_type role_vo) s),
     with_role_bindings
       (role_bindings s ++
          [created_binding params (Role.role_type role_vo) s])
       (write_role_type
          (_get_latest_role_type (User.role_type user_vo)
             (Role.role_type role_vo))
          user_vo s)).
Proof.
  intros Hvalid Huser Hworkspace Hrole Hfits.
  rewrite create_valid by done. unfold_service. rewrite Huser.
  unfold created_binding. cbn [RoleBindingManager.resource_group].
  destruct (decide (RoleBindingCreateRequest.resource_group params ∈
                      ["DOMAIN"; "WORKSPACE"])) as [_|]; [|done].
  destruct (decide (RoleBindingCreateRequest.resource_group params
                    = "WORKSPACE")) as [Hws|Hws].
  - destruct (Hworkspace Hws) as [w ->]. rewrite Hrole.
    rewrite decide_False in Hfits by (rewrite Hws; discriminate).
    rewrite decide_False by (rewrite Hws; discriminate).
    by rewrite decide_False by (by intros Hnot).
  - rewrite Hrole. case_decide.
    + by rewrite decide_False by (by intros Hnot).
    + by rewrite decide_False by (by intros Hnot).
Qed.

(** X6: for a resource_group of the data model (DOMAIN or WORKSPACE),
    when the user, the workspace (for WORKSPACE) and the role resolve and
    the role type fits the resource group, create succeeds; the new binding
    is stored after the ones there were, under an identifier none of them
    has, with the role's type as a snapshot, the resource group asked for
    and the workspace "*" for DOMAIN; the user's stored role type becomes
    the aggregator's result on the old one and the role's. *)
Theorem create_stores_binding (params : RoleBindingCreateRequest.t)
    (s : Store) (user_vo : User.t) (role_vo : Role.t) :
  RoleBindingCreateRequest.resource_group params ∈ ["DOMAIN"; "WORKSPACE"] →
  stored_user s (RoleBindingCreateRequest.user_id params)
    (RoleBindingCreateRequest.domain_id params) = Some user_vo →
  (RoleBindingCreateRequest.resource_group params = "WORKSPACE" →
   is_Some (get_document
      (λ w, Some (Workspace.workspace_id w) =
              RoleBindingCreateRequest.workspace_id params ∧
            Workspace.domain_id w = RoleBindingCreateRequest.domain_id params)
      (workspaces s))) →
  get_document
    (λ r, Role.role_id r = RoleBindingCreateRequest.role_id params ∧
          Role.domain_id r = RoleBindingCreateRequest.domain_id params)
    (roles s) = Some role_vo →
  (if decide (RoleBindingCreateRequest.resource_group params = "DOMAIN")
   then Role.role_type role_vo = "DOMAIN_ADMIN"
   else Role.role_type role_vo ∈ ["WORKSPACE_OWNER"; "WORKSPACE_MEMBER"]) →
  ∃ rb s',
    create params s = (Ok rb, s') ∧
    role_bindings s' = (role_bindings s ++ [rb]) ∧
    (RoleBinding.role_binding_id rb ∉
       (RoleBinding.role_binding_id <$> role_bindings s)) ∧
    RoleBinding.role_type rb = Role.role_type role_vo ∧
    RoleBinding.resource_group rb =
      RoleBindingCreateRequest.resource_group params ∧
    RoleBinding.workspace_id rb =
      (if decide (RoleBindingCreateRequest.resource_group params
                  = "WORKSPACE")
       then RoleBindingCreateRequest.workspace_id params
       else Some "*") ∧
    stored_role_type s' (RoleBindingCreateRequest.user_id params)
      (RoleBindingCreateRequest.domain_id params) =
      Some (_get_latest_role_type (User.role_type user_vo)
              (Role.role_type role_vo)) ∧
    roles s' = roles s ∧ workspaces s' = workspaces s.
Proof.
  intros Hvalid Huser Hworkspace Hrole Hfits.
  eexists _, _. split; [by apply create_run|].
  split; [done|]. split; [apply infinite_is_fresh|].
  split; [done|]. split; [done|]. split; [done|]. split; [|done].
  change (stored_role_type (with_role_bindings ?rbs ?s0))
    with (stored_role_type s0).
  by apply stored_role_type_write.
Qed.

Lemma create_stores_binding_witness :
  ∃ rb s',
    create (Example.create_request "bob" "role-admin" "DOMAIN" (Some "ws-1"))
      Example.store1 = (Ok rb, s') ∧
    role_bindings s' = (role_bindings Example.store1 ++ [rb]) ∧
    (RoleBinding.role_binding_id rb ∉ ["rb-1"; "rb-2"; "rb-3"]) ∧
    RoleBinding.role_type rb = "DOMAIN_ADMIN" ∧
    RoleBinding.resource_group rb = "DOMAIN" ∧
    RoleBinding.workspace_id rb = Some "*" ∧
    stored_role_type s' "bob" "domain-1" = Some "DOMAIN_ADMIN" ∧
    roles s' = roles Example.store1 ∧
    workspaces s' = workspaces Example.store1.
Proof.
  apply (create_stores_binding
           (Example.create_request "bob" "role-admin" "DOMAIN" (Some "ws-1"))
           Example.store1 (Example.user "bob" "USER" None)
           (Example.role "role-admin" "DOMAIN_ADMIN")).
  - by left.
  - reflexivity.
  - discriminate.
  - reflexivity.
  - reflexivity.
Defined.



(** X8: the lookups of create_role_binding, and with it of create on a
    resource_group of the data model (DOMAIN or WORKSPACE), fail in the
    order they are made and write nothing: a missing user gives NotFound
    for the user whatever else is wrong; with the user there, a missing
    workspace (resource_group WORKSPACE) gives NotFound for the workspace,
    a missing role included; with both there, a missing role gives
    NotFound for the role. *)
Theorem create_not_found_order (params : RoleBindingCreateRequest.t)
    (s : Store) :
  (stored_user s (RoleBindingCreateRequest.user_id params)
     (RoleBindingCreateRequest.domain_id params) = None →
   create_role_binding params s =
     (Raise (ERROR_NOT_FOUND "user_id"
               (RoleBindingCreateRequest.user_id params)), s) ∧
   (RoleBindingCreateRequest.resource_group params ∈
      ["DOMAIN"; "WORKSPACE"] →
    create params s =
      (Raise (ERROR_NOT_FOUND "user_id"
                (RoleBindingCreateRequest.user_id params)), s))) ∧
  (is_Some (stored_user s (RoleBindingCreateRequest.user_id params)
              (RoleBindingCreateRequest.domain_id params)) →
   RoleBindingCreateRequest.resource_group params = "WORKSPACE" →
   get_document
     (λ w, Some (Workspace.workspace_id w) =
             RoleBindingCreateRequest.workspace_id params ∧
           Workspace.domain_id w = RoleBindingCreateRequest.domain_id params)
     (workspaces s) = None →
   create_role_binding params s =
     (Raise (ERROR_NOT_FOUND "workspace_id"
               (default EmptyString
                  (RoleBindingCreateRequest.workspace_id params))), s) ∧
   create params s =
     (Raise (ERROR_NOT_FOUND "workspace_id"
               (default EmptyString
                  (RoleBindingCreateRequest.workspace_id params))), s)) ∧
  (is_Some (stored_user s (RoleBindingCreateRequest.user_id params)
              (RoleBindingCreateRequest.domain_id params)) →
   (RoleBindingCreateRequest.resource_group params = "WORKSPACE" →
    is_Some (get_document
       (λ w, Some (Workspace.workspace_id w) =
               RoleBindingCreateRequest.workspace_id params ∧
             Workspace.domain_id w =
               RoleBindingCreateRequest.domain_id params)
       (workspaces s))) →
   get_document
     (λ r, Role.role_id r = RoleBindingCreateRequest.role_id params ∧
           Role.domain_id r = RoleBindingCreateRequest.domain_id params)
     (roles s) = None →
   create_role_binding params s =
     (Raise (ERROR_NOT_FOUND "role_id"
               (RoleBindingCreateRequest.role_id params)), s) ∧
   (RoleBindingCreateRequest.resource_group params ∈
      ["DOMAIN"; "WORKSPACE"] →
    create params s =
      (Raise (ERROR_NOT_FOUND "role_id"
                (RoleBindingCreateRequest.role_id params)), s))).
Proof.
  split; [|split].
  - intros Huser.
    assert (create_role_binding params s =
      (Raise (ERROR_NOT_FOUND "user_id"
                (RoleBindingCreateRequest.user_id params)), s)) as Hrun.
    { unfold_service. by rewrite Huser. }
    split; [exact Hrun|]. intros Hvalid. by rewrite create_valid.
  - intros [user_vo Huser] Hgroup Hworkspace.
    assert (create_role_binding params s =
      (Raise (ERROR_NOT_FOUND "workspace_id"
                (default EmptyString
                   (RoleBindingCreateRequest.workspace_id params))), s))
      as Hrun.
    { unfold_service. rewrite Huser. rewrite decide_True by done.
      by rewrite Hworkspace. }
    split; [exact Hrun|].
    by rewrite create_valid by by apply valid_workspace.
  - intros [user_vo Huser] Hworkspace Hrole.
    assert (create_role_binding params s =
      (Raise (ERROR_NOT_FOUND "role_id"
                (RoleBindingCreateRequest.role_id params)), s)) as Hrun.
    { unfold_service. rewrite Huser.
      destruct (decide (RoleBindingCreateRequest.resource_group params
                        = "WORKSPACE")) as [Hws|Hws].
      - destruct (Hworkspace Hws) as [w ->]. by rewrite Hrole.
      - by rewrite Hrole. }
    split; [exact Hrun|]. intros Hvalid. by rewrite create_valid.
Qed.

Lemma create_not_found_order_witness :
  create (Example.create_request "zoe" "no-role" "WORKSPACE" (Some "ws-9"))
    Example.store0 =
    (Raise (ERROR_NOT_FOUND "user_id" "zoe"), Example.store0) ∧
  create (Example.create_request "alice" "no-role" "WORKSPACE" (Some "ws-9"))
    Example.store0 =
    (Raise (ERROR_NOT_FOUND "workspace_id" "ws-9"), Example.store0) ∧
  create (Example.create_request "alice" "no-role" "WORKSPACE" (Some "ws-1"))
    Example.store0 =
    (Raise (ERROR_NOT_FOUND "role_id" "no-role"), Example.store0) ∧
  create_role_binding
    (Example.create_request "zoe" "role-admin" "PROJECT" None)
    Example.store0 =
    (Raise (ERROR_NOT_FOUND "user_id" "zoe"), Example.store0).
Proof.
  split; [|split; [|split]].
  - refine (proj2 (proj1 (create_not_found_order
             (Example.create_request "zoe" "no-role" "WORKSPACE"
                (Some "ws-9")) Example.store0) eq_refl) _).
    right. by left.
  - refine (proj2 (proj1 (proj2 (create_not_found_order
             (Example.create_request "alice" "no-role" "WORKSPACE"
                (Some "ws-9")) Example.store0)) _ eq_refl eq_refl)).
    vm_compute. eauto.
  - refine (proj2 (proj2 (proj2 (create_not_found_order
             (Example.create_request "alice" "no-role" "WORKSPACE"
                (Some "ws-1")) Example.store0)) _ _ eq_refl) _).
    + vm_compute. eauto.
    + intros _. vm_compute. eauto.
    + right. by left.
  - exact (proj1 (proj1 (create_not_found_order
             (Example.create_request "zoe" "role-admin" "PROJECT" None)
             Example.store0) eq_refl)).
Defined.

Lemma write_keeps_admin (s : Store) (user_vo : User.t)
    (target_id target_domain after user_id domain_id : string) :
  stored_user s target_id target_domain = Some user_vo →
  stored_role_type s user_id domain_id = Some "DOMAIN_ADMIN" →
  stored_role_type
    (write_role_type
       (_get_latest_role_type (User.role_type user_vo) after) user_vo s)
    user_id domain_id = Some "DOMAIN_ADMIN".
Proof.
  intros Htarget Hadmin.
  destruct (stored_user_key _ _ _ _ Htarget) as (_ & Huid & Hdid).
  destruct (decide (User.user_id user_vo = user_id ∧
                    User.domain_id user_vo = domain_id)) as [[Hu Hd]|Hne].
  - subst target_id target_domain user_id domain_id.
    rewrite (stored_role_type_write _ _ _ _ _ Htarget).
    unfold stored_role_type in Hadmin. rewrite Htarget in Hadmin.
    injection Hadmin as ->. by rewrite latest_admin_l.
  - unfold stored_role_type in *. by rewrite stored_user_write_other.
Qed.

(** X9: create and changeRole never demote a domain administrator: after
    a successful one, every user whose stored role type was DOMAIN_ADMIN,
    the bound user or another, still has DOMAIN_ADMIN. (Only delete can
    take it away.) *)
Theorem domain_admin_not_demoted (m : Mutation) (s s' : Store)
    (user_id domain_id : string) :
  (match m with Delete _ => False | _ => True end) →
  run_mutation m s = (Ok tt, s') →
  stored_role_type s user_id domain_id = Some "DOMAIN_ADMIN" →
  stored_role_type s' user_id domain_id = Some "DOMAIN_ADMIN".
Proof.
  intros Hkind Hrun Hadmin. destruct m as [params|params|params]; [| |done].
  - unfold run_mutation, bind, ret in Hrun.
    destruct (create params s) as [[rb|e] s1] eqn:Hcreate; [|discriminate].
    injection Hrun as <-.
    apply create_Ok in Hcreate
      as (user_vo & role_vo & Huser & _ & _ & _ & _ & _ & ->).
    change (stored_role_type (with_role_bindings ?rbs ?s0))
      with (stored_role_type s0).
    by eapply write_keeps_admin.
  - unfold run_mutation, bind, ret in Hrun.
    destruct (update_role params s) as [[rb|e] s1] eqn:Hupdate;
      [|discriminate].
    injection Hrun as <-.
    apply update_role_Ok in Hupdate
      as (rb_vo & new_role_vo & user_vo & _ & _ & Huser & ->).
    change (stored_role_type (with_role_bindings ?rbs ?s0))
      with (stored_role_type s0).
    by eapply write_keeps_admin.
Qed.

Lemma domain_admin_not_demoted_witness :
  stored_role_type
    (run_mutation
       (Create (Example.create_request "alice" "role-owner" "WORKSPACE"
                  (Some "ws-1"))) Example.store1).2
    "alice" "domain-1" = Some "DOMAIN_ADMIN" ∧
  stored_role_type
    (run_mutation
       (ChangeRole (Example.update_role_request "rb-2" "role-owner"))
       Example.store1).2
    "alice" "domain-1" = Some "DOMAIN_ADMIN".
Proof.
  split.
  - apply (domain_admin_not_demoted
             (Create (Example.create_request "alice" "role-owner" "WORKSPACE"
                        (Some "ws-1"))) Example.store1).
    + exact I.
    + vm_compute. reflexivity.
    + reflexivity.
  - apply (domain_admin_not_demoted
             (ChangeRole (Example.update_role_request "rb-2" "role-owner"))
             Example.store1).
    + exact I.
    + vm_compute. reflexivity.
    + reflexivity.
Defined.

(** The run of [update_role] once its lookups succeed and the new role
    type is allowed. *)
Lemma update_role_run (params : RoleBindingUpdateRoleRequest.t) (s : Store)
    (rb_vo : RoleBinding.t) (new_role_vo : Role.t) (user_vo : User.t) :
  get_document
    (RoleBindingManager.in_scope
       (RoleBindingUpdateRoleRequest.role_binding_id params)
       (RoleBindingUpdateRoleRequest.domain_id params)
       (RoleBindingUpdateRoleRequest.workspace_id params))
    (role_bindings s) = Some rb_vo →
  get_document
    (λ r, Role.role_id r = RoleBindingUpdateRoleRequest.role_id params ∧
          Role.domain_id r = RoleBindingUpdateRoleRequest.domain_id params)
    (roles s) = Some new_role_vo →
  Spec.change_allowed (RoleBinding.role_type rb_vo)
    (Role.role_type new_role_vo) →
  stored_user s (RoleBinding.user_id rb_vo) (RoleBinding.domain_id rb_vo)
    = Some user_vo →
  update_role params s =
    (Ok (RoleBinding.set_role (RoleBindingUpdateRoleRequest.role_id params)
           (Role.role_type new_role_vo) rb_vo),
     with_role_bindings
       (update_documents (RoleBindingManager.same_binding rb_vo)
          (RoleBinding.set_role (RoleBindingUpdateRoleRequest.role_id params)
             (Role.role_type new_role_vo))
          (role_bindings s))
       (write_role_type
          (_get_latest_role_type (User.role_type user_vo)
             (Role.role_type new_role_vo))
          user_vo s)).
Proof.
  intros Hrb Hrole Hallowed Huser. unfold Spec.change_allowed in Hallowed.
  unfold_service. rewrite Hrb, Hrole.
  destruct (decide (_ ∨ _)) as [Hws|Hws].
  - rewrite decide_True by (by apply elem_of_workspace_roles).
    rewrite decide_False
      by (rewrite elem_of_workspace_roles; by intros []).
    by rewrite Huser.
  - rewrite decide_False by (by rewrite elem_of_workspace_roles).
    rewrite decide_False by (intros Hne; by apply Hne).
    by rewrite Huser.
Qed.

(** X10: after a successful changeRole, looking the binding up in the same
    scope gives the binding the call returned: the one found before with
    the new role_id and the new role's type, and its identifier, user,
    workspace, resource group and domain as they were; the identifiers of
    the stored bindings, in order, are unchanged. *)
Theorem update_role_then_get (params : RoleBindingUpdateRoleRequest.t)
    (s : Store) (rb_vo : RoleBinding.t) (new_role_vo : Role.t)
    (user_vo : User.t) :
  get_document
    (RoleBindingManager.in_scope
       (RoleBindingUpdateRoleRequest.role_binding_id params)
       (RoleBindingUpdateRoleRequest.domain_id params)
       (RoleBindingUpdateRoleRequest.workspace_id params))
    (role_bindings s) = Some rb_vo →
  get_document
    (λ r, Role.role_id r = RoleBindingUpdateRoleRequest.role_id params ∧
          Role.domain_id r = RoleBindingUpdateRoleRequest.domain_id params)
    (roles s) = Some new_role_vo →
  Spec.change_allowed (RoleBinding.role_type rb_vo)
    (Role.role_type new_role_vo) →
  stored_user s (RoleBinding.user_id rb_vo) (RoleBinding.domain_id rb_vo)
    = Some user_vo →
  ∃ rb s',
    update_role params s = (Ok rb, s') ∧
    RoleBindingManager.get_role_binding
      (RoleBindingUpdateRoleRequest.role_binding_id params)
      (RoleBindingUpdateRoleRequest.domain_id params)
      (RoleBindingUpdateRoleRequest.workspace_id params) s' = (Ok rb, s') ∧
    rb = {| RoleBinding.role_binding_id := RoleBinding.role_binding_id rb_vo;
            RoleBinding.role_type := Role.role_type new_role_vo;
            RoleBinding.user_id := RoleBinding.user_id rb_vo;
            RoleBinding.role_id :=
              RoleBindingUpdateRoleRequest.role_id params;
            RoleBinding.resource_group := RoleBinding.resource_group rb_vo;
            RoleBinding.workspace_id := RoleBinding.workspace_id rb_vo;
            RoleBinding.domain_id := RoleBinding.domain_id rb_vo |} ∧
    RoleBinding.role_binding_id <$> role_bindings s' =
      RoleBinding.role_binding_id <$> role_bindings s.
Proof.
  intros Hrb Hrole Hallowed Huser.
  eexists _, _. split; [by apply update_role_run|].
  destruct (get_document_Some _ _ _ Hrb) as (_ & Hid & _).
  split; [|split; [done|]].
  - unfold RoleBindingManager.get_role_binding.
    cbv beta iota zeta delta [bind ret raise gets]. simpl.
    rewrite get_document_update.
    + by rewrite Hrb.
    + by intros [].
    + intros x (Hx & _). unfold RoleBindingManager.same_binding. congruence.
  - simpl. unfold update_documents. rewrite <- list_fmap_compose.
    apply list_fmap_ext. intros i x _. simpl. by case_decide.
Qed.

Lemma update_role_then_get_witness :
  ∃ rb s',
    update_role (Example.update_role_request "rb-2" "role-owner")
      Example.store1 = (Ok rb, s') ∧
    RoleBindingManager.get_role_binding "rb-2" "domain-1" None s' =
      (Ok rb, s') ∧
    rb = Example.binding "rb-2" "alice" "role-owner" "WORKSPACE_OWNER"
           "WORKSPACE" "ws-1" ∧
    RoleBinding.role_binding_id <$> role_bindings s' =
      ["rb-1"; "rb-2"; "rb-3"].
Proof.
  apply (update_role_then_get
           (Example.update_role_request "rb-2" "role-owner") Example.store1
           (Example.binding "rb-2" "alice" "role-member" "WORKSPACE_MEMBER"
              "WORKSPACE" "ws-1")
           (Example.role "role-owner" "WORKSPACE_OWNER")
           (Example.user "alice" "DOMAIN_ADMIN" None)).
  - reflexivity.
  - reflexivity.
  - vm_compute. by left.
  - reflexivity.
Defined.

Lemma get_document_none {A} (P : A → Prop) `{∀ x, Decision (P x)}
    (c : list A) :
  (∀ x, x ∈ c → ¬ P x) → get_document P c = None.
Proof.
  unfold get_document. induction c as [|x c IH]; intros Hnone; [done|].
  simpl. rewrite (bool_decide_eq_false_2 (P x)) by (apply Hnone; by left).
  apply IH. intros y Hy. apply Hnone. by right.
Qed.

Lemma get_document_app_last {A} (P : A → Prop) `{∀ x, Decision (P x)}
    (c : list A) (y : A) :
  (∀ x, x ∈ c → ¬ P x) → P y → get_document P (c ++ [y]) = Some y.
Proof.
  unfold get_document. induction c as [|x c IH]; intros Hnone Hy; simpl.
  - by rewrite (bool_decide_eq_true_2 (P y)).
  - rewrite (bool_decide_eq_false_2 (P x)) by (apply Hnone; by left).
    apply IH; [|done]. intros z Hz. apply Hnone. by right.
Qed.

Lemma fmap_fixed {A} (h : A → A) (l : list A) :
  (∀ x, x ∈ l → h x = x) → h <$> l = l.
Proof.
  induction l as [|x l IH]; intros Hfix; [done|].
  rewrite fmap_cons, Hfix by (by left).
  f_equal. apply IH. intros y Hy. apply Hfix. by right.
Qed.

(** X11: after a successful delete the binding is gone: a lookup of its
    identifier fails with NotFound in every scope, a second delete of it
    fails with NotFound and writes nothing, and the stored bindings are
    the ones there were with another identifier. *)
Theorem delete_then_lookup (params : RoleBindingDeleteRequest.t)
    (s s' : Store) :
  delete params s = (Ok tt, s') →
  (∀ domain_id workspace_id,
     RoleBindingManager.get_role_binding
       (RoleBindingDeleteRequest.role_binding_id params)
       domain_id workspace_id s' =
       (Raise (ERROR_NOT_FOUND "role_binding_id"
                 (RoleBindingDeleteRequest.role_binding_id params)), s')) ∧
  delete params s' =
    (Raise (ERROR_NOT_FOUND "role_binding_id"
              (RoleBindingDeleteRequest.role_binding_id params)), s') ∧
  (∀ rb, rb ∈ role_bindings s' ↔
         rb ∈ role_bindings s ∧
         RoleBinding.role_binding_id rb ≠
           RoleBindingDeleteRequest.role_binding_id params).
Proof.
  intros Hrun.
  destruct (delete_Ok _ _ _ Hrun) as (rb_vo & user_vo & Hrb & Huser).
  rewrite (delete_run _ _ _ _ Hrb Huser) in Hrun. injection Hrun as <-.
  destruct (get_document_Some _ _ _ Hrb) as (_ & Hid & _).
  assert (∀ rb,
    rb ∈ delete_documents (RoleBindingManager.same_binding rb_vo)
           (role_bindings s) ↔
    rb ∈ role_bindings s ∧
    RoleBinding.role_binding_id rb ≠
      RoleBindingDeleteRequest.role_binding_id params) as Hleft.
  { intros rb. unfold delete_documents. rewrite list_elem_of_filter.
    unfold RoleBindingManager.same_binding. rewrite Hid. tauto. }
  assert (∀ domain_id workspace_id,
    get_document
      (RoleBindingManager.in_scope
         (RoleBindingDeleteRequest.role_binding_id params)
         domain_id workspace_id)
      (delete_documents (RoleBindingManager.same_binding rb_vo)
         (role_bindings s)) = None) as Hgone.
  { intros domain_id workspace_id. apply get_document_none.
    intros rb Hin (Hsame & _). apply Hleft in Hin as [_ Hne]. done. }
  split; [|split; [|exact Hleft]].
  - intros domain_id workspace_id.
    unfold RoleBindingManager.get_role_binding.
    cbv beta iota zeta delta [bind ret raise gets]. simpl.
    by rewrite Hgone.
  - unfold_service. simpl. by rewrite Hgone.
Qed.

Lemma delete_then_lookup_witness :
  RoleBindingManager.get_role_binding "rb-2" "domain-1" None
    (delete (Example.delete_request "rb-2") Example.store1).2 =
    (Raise (ERROR_NOT_FOUND "role_binding_id" "rb-2"),
     (delete (Example.delete_request "rb-2") Example.store1).2) ∧
  delete (Example.delete_request "rb-2")
    (delete (Example.delete_request "rb-2") Example.store1).2 =
    (Raise (ERROR_NOT_FOUND "role_binding_id" "rb-2"),
     (delete (Example.delete_request "rb-2") Example.store1).2) ∧
  RoleBinding.role_binding_id <$>
    role_bindings (delete (Example.delete_request "rb-2") Example.store1).2 =
    ["rb-1"; "rb-3"].
Proof.
  destruct (delete_then_lookup (Example.delete_request "rb-2") Example.store1
              (delete (Example.delete_request "rb-2") Example.store1).2)
    as (Hlookup & Hagain & _).
  - vm_compute. reflexivity.
  - split; [apply Hlookup|]. split; [exact Hagain|].
    vm_compute. reflexivity.
Defined.

(** X12: on a store where the user's stored role type is the aggregate of
    the user's bindings, a successful create followed by the delete of the
    binding it returned gives back the store as it was before the create:
    the bindings, and every user with the role type it had. *)
Theorem create_then_delete_restores (params : RoleBindingCreateRequest.t)
    (s s1 : Store) (rb : RoleBinding.t) :
  aggregate_consistent s (RoleBindingCreateRequest.user_id params)
    (RoleBindingCreateRequest.domain_id params) →
  create params s = (Ok rb, s1) →
  delete (delete_request_of (RoleBindingCreateRequest.domain_id params) rb)
    s1 = (Ok tt, s).
Proof.
  intros Hconsistent Hcreate.
  apply create_Ok in Hcreate
    as (user_vo & role_vo & Huser & _ & Hid & Hty & Hu & Hd & ->).
  destruct (stored_user_key _ _ _ _ Huser) as (Hin & Huid & Hdid).
  assert (∀ x, x ∈ role_bindings s →
               RoleBinding.role_binding_id x ≠ RoleBinding.role_binding_id rb)
    as Hfresh.
  { intros x Hx Heq. apply (infinite_is_fresh
      (RoleBinding.role_binding_id <$> role_bindings s)).
    rewrite <- Hid, <- Heq. by apply list_elem_of_fmap_2. }
  set (r1 := _get_latest_role_type (User.role_type user_vo)
               (Role.role_type role_vo)).
  rewrite (delete_run _ _ rb (User.set_role_type r1 user_vo)).
  - f_equal. unfold delete_request_of.
    cbn [RoleBindingDeleteRequest.role_binding_id
         RoleBindingDeleteRequest.domain_id].
    assert (remaining_role_type (RoleBinding.role_binding_id rb)
              (bindings_of
                 (with_role_bindings (role_bindings s ++ [rb])
                    (write_role_type r1 user_vo s))
                 (RoleBindingCreateRequest.domain_id params)
                 (RoleBinding.user_id rb)) =
            Spec.aggregate
              (RoleBinding.role_type <$>
                 bindings_of s (RoleBindingCreateRequest.domain_id params)
                   (RoleBindingCreateRequest.user_id params))) as ->.
    { rewrite remaining_role_type_aggregate. unfold bindings_of. simpl.
      rewrite Hu, filter_app, filter_app.
      rewrite filter_cons_True by done. rewrite filter_nil.
      rewrite (filter_cons_False _ rb) by (by intros Hne).
      rewrite filter_nil, app_nil_r.
      rewrite filter_all; [done|].
      intros x Hx. apply list_elem_of_filter in Hx as [_ Hx].
      by apply Hfresh. }
    destruct s as [us rs ws rbs].
    unfold with_role_bindings, write_role_type, with_users. simpl in *.
    f_equal.
    + unfold update_documents. rewrite <- list_fmap_compose.
      apply fmap_fixed. intros u Hin_u. simpl.
      unfold UserManager.same_user. simpl.
      destruct (decide (User.user_id u = User.user_id user_vo ∧
                        User.domain_id u = User.domain_id user_vo))
        as [[Hsame_u Hsame_d]|Hother].
      * rewrite decide_True by done.
        unfold UserManager.apply_params. simpl.
        rewrite <- (Hconsistent u Hin_u) by congruence.
        by destruct u.
      * by rewrite decide_False.
    + unfold delete_documents. rewrite filter_app.
      rewrite filter_all.
      * rewrite filter_cons_False; [by rewrite filter_nil, app_nil_r|].
        intros Hne. by apply Hne.
      * intros x Hx. by apply Hfresh.
  - unfold delete_request_of. simpl.
    apply get_document_app_last.
    + intros x Hx (Hsame & _). by apply (Hfresh x Hx).
    + split; [done|]. split; [done|]. by left.
  - rewrite Hu, Hd.
    change (stored_user (with_role_bindings ?rbs ?s0))
      with (stored_user s0).
    by apply stored_user_write_same.
Qed.

Lemma create_then_delete_restores_witness :
  ∃ rb s1,
    create (Example.create_request "bob" "role-admin" "DOMAIN" None)
      Example.store1 = (Ok rb, s1) ∧
    stored_role_type s1 "bob" "domain-1" = Some "DOMAIN_ADMIN" ∧
    delete (delete_request_of "domain-1" rb) s1 = (Ok tt, Example.store1).
Proof.
  exists (created_binding
            (Example.create_request "bob" "role-admin" "DOMAIN" None)
            "DOMAIN_ADMIN" Example.store1),
         (create (Example.create_request "bob" "role-admin" "DOMAIN" None)
            Example.store1).2.
  split; [vm_compute; reflexivity|]. split; [vm_compute; reflexivity|].
  apply (create_then_delete_restores
           (Example.create_request "bob" "role-admin" "DOMAIN" None)).
  - apply aggregate_consistent_Forall.
    repeat constructor; intros; try discriminate; reflexivity.
  - vm_compute. reflexivity.
Defined.

Lemma get_document_app_l {A} (P : A → Prop) `{∀ x, Decision (P x)}
    (c c' : list A) (x : A) :
  get_document P c = Some x → get_document P (c ++ c') = Some x.
Proof.
  unfold get_document. induction c as [|y c IH]; simpl; [done|].
  destruct (bool_decide (P y)); [done|]. apply IH.
Qed.

Lemma filter_singleton_True {A} (P : A → Prop) `{∀ x, Decision (P x)}
    (x : A) :
  P x → filter P [x] = [x].
Proof. intros HP. by rewrite filter_cons_True, filter_nil. Qed.

Lemma filter_singleton_False {A} (P : A → Prop) `{∀ x, Decision (P x)}
    (x : A) :
  ¬ P x → filter P [x] = [].
Proof. intros HP. by rewrite filter_cons_False, filter_nil. Qed.

Lemma fresh_binding_id (rbs : list RoleBinding.t) (rb : RoleBinding.t) :
  rb ∈ rbs →
  RoleBinding.role_binding_id rb ≠
    fresh (RoleBinding.role_binding_id <$> rbs).
Proof.
  intros Hin Heq.
  apply (infinite_is_fresh (RoleBinding.role_binding_id <$> rbs)).
  rewrite <- Heq. by apply list_elem_of_fmap_2.
Qed.

(** X2, the scenario of the specification, on every store: a user U whose
    bindings so far, if any, carry workspace roles (so a user with role
    type USER and no binding) gets a DOMAIN binding with a role of type
    DOMAIN_ADMIN and becomes a DOMAIN_ADMIN; U then gets a WORKSPACE
    binding with a workspace role and stays a DOMAIN_ADMIN; deleting the
    DOMAIN binding recomputes over what remains and makes U a USER, not a
    WORKSPACE_OWNER or WORKSPACE_MEMBER. The three calls succeed. *)
Theorem scenario_create_create_delete
    (user_id domain_id role_id1 role_id2 workspace_id : string)
    (any_workspace_id : option string) (s : Store) (user_vo : User.t)
    (role_vo1 role_vo2 : Role.t) (workspace_vo : Workspace.t) :
  stored_user s user_id domain_id = Some user_vo →
  Forall (λ rb, RoleBinding.role_type rb ∈
                  ["WORKSPACE_OWNER"; "WORKSPACE_MEMBER"])
         (bindings_of s domain_id user_id) →
  get_document
    (λ r, Role.role_id r = role_id1 ∧ Role.domain_id r = domain_id)
    (roles s) = Some role_vo1 →
  Role.role_type role_vo1 = "DOMAIN_ADMIN" →
  get_document
    (λ r, Role.role_id r = role_id2 ∧ Role.domain_id r = domain_id)
    (roles s) = Some role_vo2 →
  Role.role_type role_vo2 ∈ ["WORKSPACE_OWNER"; "WORKSPACE_MEMBER"] →
  get_document
    (λ w, Some (Workspace.workspace_id w) = Some workspace_id ∧
          Workspace.domain_id w = domain_id)
    (workspaces s) = Some workspace_vo →
  ∃ rb1 s1 rb2 s2 s3,
    create
      {| RoleBindingCreateRequest.user_id := user_id;
         RoleBindingCreateRequest.role_id := role_id1;
         RoleBindingCreateRequest.resource_group := "DOMAIN";
         RoleBindingCreateRequest.workspace_id := any_workspace_id;
         RoleBindingCreateRequest.domain_id := domain_id |} s =
      (Ok rb1, s1) ∧
    stored_role_type s1 user_id domain_id = Some "DOMAIN_ADMIN" ∧
    create
      {| RoleBindingCreateRequest.user_id := user_id;
         RoleBindingCreateRequest.role_id := role_id2;
         RoleBindingCreateRequest.resource_group := "WORKSPACE";
         RoleBindingCreateRequest.workspace_id := Some workspace_id;
         RoleBindingCreateRequest.domain_id := domain_id |} s1 =
      (Ok rb2, s2) ∧
    stored_role_type s2 user_id domain_id = Some "DOMAIN_ADMIN" ∧
    delete (delete_request_of domain_id rb1) s2 = (Ok tt, s3) ∧
    stored_role_type s3 user_id domain_id = Some "USER" ∧
    bindings_of s3 domain_id user_id =
      bindings_of s domain_id user_id ++ [rb2] ∧
    RoleBinding.role_type rb2 = Role.role_type role_vo2.
Proof.
  intros Huser Hbindings Hrole1 Hty1 Hrole2 Hty2 Hworkspace.
  set (p1 := {| RoleBindingCreateRequest.user_id := user_id;
                RoleBindingCreateRequest.role_id := role_id1;
                RoleBindingCreateRequest.resource_group := "DOMAIN";
                RoleBindingCreateRequest.workspace_id := any_workspace_id;
                RoleBindingCreateRequest.domain_id := domain_id |}).
  set (p2 := {| RoleBindingCreateRequest.user_id := user_id;
                RoleBindingCreateRequest.role_id := role_id2;
                RoleBindingCreateRequest.resource_group := "WORKSPACE";
                RoleBindingCreateRequest.workspace_id := Some workspace_id;
                RoleBindingCreateRequest.domain_id := domain_id |}).
  (* the domain binding *)
  pose proof (create_run p1 s user_vo role_vo1) as Hrun1.
  rewrite Hty1, latest_admin_r in Hrun1.
  specialize (Hrun1 ltac:(by left) Huser ltac:(discriminate) Hrole1 eq_refl).
  set (rb1 := created_binding p1 "DOMAIN_ADMIN" s) in *.
  set (s1 := with_role_bindings (role_bindings s ++ [rb1])
               (write_role_type "DOMAIN_ADMIN" user_vo s)) in *.
  set (user_vo1 := User.set_role_type "DOMAIN_ADMIN" user_vo).
  assert (stored_user s1 user_id domain_id = Some user_vo1) as Huser1.
  { by apply stored_user_write_same. }
  (* the workspace binding *)
  pose proof (create_run p2 s1 user_vo1 role_vo2) as Hrun2.
  rewrite latest_admin_l in Hrun2.
  specialize (Hrun2 ltac:(right; by left) Huser1
                ltac:(intros _; by exists workspace_vo) Hrole2 Hty2).
  set (rb2 := created_binding p2 (Role.role_type role_vo2) s1) in *.
  set (s2 := with_role_bindings (role_bindings s1 ++ [rb2])
               (write_role_type "DOMAIN_ADMIN" user_vo1 s1)) in *.
  set (user_vo2 := User.set_role_type "DOMAIN_ADMIN" user_vo1).
  assert (stored_user s2 user_id domain_id = Some user_vo2) as Huser2.
  { by apply stored_user_write_same. }
  (* the deletion of the domain binding *)
  assert (RoleBinding.role_binding_id rb2 ≠ RoleBinding.role_binding_id rb1)
    as Hids.
  { intros Heq. apply (fresh_binding_id (role_bindings s1) rb1).
    - apply elem_of_app. right. by left.
    - by rewrite <- Heq. }
  pose proof (delete_run (delete_request_of domain_id rb1) s2 rb1 user_vo2)
    as Hrun3.
  specialize (Hrun3
    ltac:(apply get_document_app_l, get_document_app_last;
          [intros x Hx (Hsame & _); by apply (fresh_binding_id _ _ Hx)
          |split; [done|]; split; [done|]; by left])
    Huser2).
  assert (filter (λ rb, RoleBinding.role_binding_id rb ≠
                        RoleBinding.role_binding_id rb1)
            (bindings_of s2 domain_id user_id) =
          bindings_of s domain_id user_id ++ [rb2]) as Hremaining.
  { unfold bindings_of. simpl. rewrite !filter_app.
    rewrite (filter_singleton_True _ rb1) by done.
    rewrite (filter_singleton_False _ rb1) by (by intros Hne).
    rewrite (filter_singleton_True _ rb2) by done.
    rewrite (filter_singleton_True _ rb2) by done.
    rewrite app_nil_r. f_equal.
    apply filter_all. intros x Hx.
    apply list_elem_of_filter in Hx as [_ Hx].
    by apply fresh_binding_id. }
  eexists rb1, s1, rb2, s2, _.
  split; [exact Hrun1|]. split; [by apply stored_role_type_write|].
  split; [exact Hrun2|]. split; [by apply stored_role_type_write|].
  split; [exact Hrun3|]. split; [|split; [|done]].
  - change (stored_role_type (with_role_bindings ?rbs ?s0))
      with (stored_role_type s0).
    rewrite (stored_role_type_write _ _ _ _ _ Huser2). f_equal.
    rewrite remaining_role_type_aggregate.
    change (RoleBindingDeleteRequest.role_binding_id
              (delete_request_of domain_id rb1))
      with (RoleBinding.role_binding_id rb1).
    change (RoleBindingDeleteRequest.domain_id
              (delete_request_of domain_id rb1)) with domain_id.
    change (RoleBinding.user_id rb1) with user_id.
    match goal with
    | |- Spec.aggregate (_ <$> ?l) = _ =>
        replace l with (bindings_of s domain_id user_id ++ [rb2])
          by (symmetry; exact Hremaining)
    end.
    rewrite aggregate_recognised.
    + rewrite decide_False; [done|].
      rewrite fmap_app. intros [Hin|Hin]%elem_of_app.
      * apply list_elem_of_fmap in Hin as (rb & Hty & Hin).
        rewrite Forall_forall in Hbindings.
        specialize (Hbindings rb Hin). rewrite <- Hty in Hbindings.
        revert Hbindings. rewrite !elem_of_cons, elem_of_nil.
        intros [|[|[]]]; discriminate.
      * apply elem_of_cons in Hin as [Hin|Hin]; [|by apply elem_of_nil in Hin].
        simpl in Hin. rewrite <- Hin in Hty2.
        revert Hty2. rewrite !elem_of_cons, elem_of_nil.
        intros [|[|[]]]; discriminate.
    + rewrite fmap_app. apply Forall_app. split.
      * apply Forall_fmap. eapply Forall_impl; [exact Hbindings|].
        intros rb. unfold Spec.recognised. simpl.
        rewrite !elem_of_cons, !elem_of_nil. tauto.
      * apply Forall_cons. split; [|done]. simpl.
        revert Hty2. unfold Spec.recognised.
        rewrite !elem_of_cons, !elem_of_nil. tauto.
  - change (bindings_of (with_role_bindings ?rbs (write_role_type ?r ?u s2)))
      with (bindings_of (with_role_bindings rbs s2)).
    rewrite (bindings_of_delete s2 rb1 _ domain_id user_id eq_refl).
    exact Hremaining.
Qed.

Lemma scenario_create_create_delete_witness :
  ∃ rb1 s1 rb2 s2 s3,
    create (Example.create_request "alice" "role-admin" "DOMAIN" None)
      Example.store0 = (Ok rb1, s1) ∧
    stored_role_type s1 "alice" "domain-1" = Some "DOMAIN_ADMIN" ∧
    create (Example.create_request "alice" "role-member" "WORKSPACE"
              (Some "ws-1")) s1 = (Ok rb2, s2) ∧
    stored_role_type s2 "alice" "domain-1" = Some "DOMAIN_ADMIN" ∧
    delete (delete_request_of "domain-1" rb1) s2 = (Ok tt, s3) ∧
    stored_role_type s3 "alice" "domain-1" = Some "USER" ∧
    bindings_of s3 "domain-1" "alice" =
      bindings_of Example.store0 "domain-1" "alice" ++ [rb2] ∧
    RoleBinding.role_type rb2 = "WORKSPACE_MEMBER".
Proof.
  refine (scenario_create_create_delete
            "alice" "domain-1" "role-admin" "role-member" "ws-1" None
            Example.store0 (Example.user "alice" "USER" None)
            (Example.role "role-admin" "DOMAIN_ADMIN")
            (Example.role "role-member" "WORKSPACE_MEMBER")
            {| Workspace.workspace_id := "ws-1";
               Workspace.domain_id := "domain-1" |}
            eq_refl _ eq_refl eq_refl eq_refl _ eq_refl).
  - constructor.
  - right. by left.
Defined.

End MoreRoleBindings.

(** ** The MFA calls *)

Section MoreMfa.
Import UserProfileService.

Variable email_manager : MFAManager.t.

Ltac unfold_profile :=
  unfold run_mfa_call, enable_mfa, disable_mfa, confirm_mfa,
    MFAManager.get_manager_by_mfa_type,
    UserManager.get_user, UserManager.update_user_by_vo,
    stored_user in *;
  cbv beta iota zeta delta [bind ret raise gets modify] in *.

(** A lookup after an update, whichever documents the update selects. *)
Lemma get_document_update_map {A} (K Q : A → Prop)
    `{∀ x, Decision (K x)} `{∀ x, Decision (Q x)} (f : A → A) (c : list A) :
  (∀ x, K (f x) ↔ K x) →
  get_document K (update_documents Q f c) =
    (λ x, if decide (Q x) then f x else x) <$> get_document K c.
Proof.
  intros Hkey. unfold get_document, update_documents.
  induction c as [|x c IH]; simpl; [done|].
  destruct (decide (K x)) as [HK|HK].
  - rewrite (bool_decide_eq_true_2 (K x)) by done.
    rewrite bool_decide_eq_true_2; [done|]. case_decide; [by apply Hkey|done].
  - rewrite (bool_decide_eq_false_2 (K x)) by done.
    rewrite bool_decide_eq_false_2; [done|].
    case_decide; [by rewrite Hkey|done].
Qed.

Lemma to_dict_mfa_type (m : MFA.t) :
  MFA.to_dict m !! "mfa_type" = PyStr <$> MFA.mfa_type m.
Proof. destruct m as [state [ty|] options]; reflexivity. Qed.

Lemma stored_user_write_mfa (s : Store) (user_id domain_id : string)
    (user_vo : User.t) (user_mfa : gmap string PyVal) :
  stored_user s user_id domain_id = Some user_vo →
  stored_user (write_mfa user_mfa user_vo s) user_id domain_id =
    Some (User.set_mfa (Some (MFA.of_dict user_mfa)) user_vo).
Proof.
  intros Hget.
  destruct (stored_user_key _ _ _ _ Hget) as (_ & Huid & Hdid).
  unfold stored_user, write_mfa in *. simpl.
  rewrite get_document_update.
  - by rewrite Hget.
  - by intros [].
  - unfold UserManager.same_user. intros u. by rewrite Huid, Hdid.
Qed.

(** A write of the MFA dictionary changes no stored role type. *)
Lemma stored_role_type_write_mfa (s : Store) (user_id domain_id : string)
    (user_vo : User.t) (user_mfa : gmap string PyVal) :
  stored_role_type (write_mfa user_mfa user_vo s) user_id domain_id =
    stored_role_type s user_id domain_id.
Proof.
  unfold stored_role_type, stored_user, write_mfa. simpl.
  rewrite get_document_update_map by (by intros []).
  destruct (get_document _ (users s)) as [u|]; [|done].
  simpl. by case_decide.
Qed.

(** A write of a role type changes no stored MFA record. *)
Lemma stored_mfa_write_role_type (s : Store) (user_id domain_id r : string)
    (user_vo : User.t) :
  stored_mfa (write_role_type r user_vo s) user_id domain_id =
    stored_mfa s user_id domain_id.
Proof.
  unfold stored_mfa, stored_user, write_role_type. simpl.
  rewrite get_document_update_map by (by intros []).
  destruct (get_document _ (users s)) as [u|]; [|done].
  simpl. by case_decide.
Qed.

(** X13: disable never writes, whatever its outcome: it does not flip the
    MFA state (confirm does). For a stored user it fails with
    MfaAlreadyDisabled exactly when the MFA record is missing, its state is
    DISABLED or it has no mfa_type; otherwise it returns the user as
    stored when the type is EMAIL and fails with NotSupportedMfaType when
    it is another one. *)
Theorem disable_mfa_outcome (params : UserProfileDisableMFARequest.t)
    (s : Store) (user_vo : User.t) :
  stored_user s (UserProfileDisableMFARequest.user_id params)
    (UserProfileDisableMFARequest.domain_id params) = Some user_vo →
  disable_mfa email_manager params s =
    (match User.mfa user_vo with
     | None =>
         Raise (ERROR_MFA_ALREADY_DISABLED
                  (UserProfileDisableMFARequest.user_id params))
     | Some m =>
         if decide (MFA.state m = "DISABLED" ∨ MFA.mfa_type m = None) then
           Raise (ERROR_MFA_ALREADY_DISABLED
                    (UserProfileDisableMFARequest.user_id params))
         else if decide (MFA.mfa_type m = Some "EMAIL") then Ok user_vo
         else Raise (ERROR_NOT_SUPPORTED_MFA_TYPE ["EMAIL"])
     end, s).
Proof.
  intros Huser. unfold_profile. rewrite Huser. unfold mfa_dict.
  destruct (User.mfa user_vo) as [m|]; [|done].
  rewrite to_dict_state, to_dict_mfa_type.
  destruct (MFA.mfa_type m) as [ty|] eqn:Hty; simpl.
  - destruct (decide (MFA.state m = "DISABLED")) as [Hstate|Hstate].
    + rewrite decide_True by (left; by rewrite Hstate).
      by rewrite decide_True by (by left).
    + destruct (decide (PyStr (MFA.state m) = PyStr "DISABLED" ∨
                        Some (PyStr ty) = None)) as [[Heq|Heq]|_];
        [by injection Heq|discriminate|].
      destruct (decide (MFA.state m = "DISABLED" ∨ Some ty = None))
        as [[Heq|Heq]|_]; [done|discriminate|].
      destruct (decide (ty = "EMAIL")) as [->|Hne].
      * by rewrite decide_True.
      * rewrite decide_False; [done|]. intros Heq. by injection Heq.
  - rewrite decide_True by (by right). by rewrite decide_True by (by right).
Qed.

(** The dictionary [enable_mfa] writes, and the record it is stored as. *)
Lemma enable_dict (user_vo : User.t) (options : gmap string string) :
  MFA.of_dict
    (<["state" := state_of (mfa_dict user_vo)]>
       (<["options" := PyDict options]>
          (<["mfa_type" := PyStr "EMAIL"]> (mfa_dict user_vo)))) =
  {| MFA.state := match User.mfa user_vo with
                  | Some m => MFA.state m
                  | None => "DISABLED"
                  end;
     MFA.mfa_type := Some "EMAIL";
     MFA.options := options |}.
Proof.
  unfold mfa_dict.
  destruct (User.mfa user_vo) as [[state [ty|] options']|]; reflexivity.
Qed.

(** The run of [enable_mfa] once its checks pass. *)
Lemma enable_run (params : UserProfileEnableMFARequest.t) (s : Store)
    (user_vo : User.t) :
  stored_user s (UserProfileEnableMFARequest.user_id params)
    (UserProfileEnableMFARequest.domain_id params) = Some user_vo →
  UserProfileEnableMFARequest.options params ≠ ∅ →
  state_of (mfa_dict user_vo) ≠ PyStr "ENABLED" →
  UserProfileEnableMFARequest.mfa_type params = "EMAIL" →
  ∃ user_vo',
    enable_mfa email_manager params s =
      (Ok user_vo',
       write_mfa
         (<["state" := state_of (mfa_dict user_vo)]>
            (<["options" :=
                 PyDict (UserProfileEnableMFARequest.options params)]>
               (<["mfa_type" := PyStr "EMAIL"]> (mfa_dict user_vo))))
         user_vo s).
Proof.
  intros Huser Hoptions Hstate Hty. unfold_profile. rewrite Huser, Hty.
  destruct (decide (UserProfileEnableMFARequest.options params = ∅));
    [done|].
  destruct (decide (state_of (mfa_dict user_vo) = PyStr "ENABLED")); [done|].
  destruct (decide ("EMAIL" = "EMAIL")); [|done].
  eexists. unfold write_mfa. do 4 f_equal.
  unfold state_of. by rewrite !lookup_insert_ne.
Qed.

(** X14: enable on a stored user whose MFA record is not ENABLED, with
    non-empty options: for the type EMAIL it succeeds and stores the
    requested type and options in place of the old ones, with the state
    the record had (so never ENABLED: MFA is not on until confirmed); for
    any other type it fails with NotSupportedMfaType and writes nothing. *)
Theorem enable_mfa_reenrol (params : UserProfileEnableMFARequest.t)
    (s : Store) (user_vo : User.t) (m : MFA.t) :
  stored_user s (UserProfileEnableMFARequest.user_id params)
    (UserProfileEnableMFARequest.domain_id params) = Some user_vo →
  User.mfa user_vo = Some m →
  MFA.state m ≠ "ENABLED" →
  UserProfileEnableMFARequest.options params ≠ ∅ →
  if decide (UserProfileEnableMFARequest.mfa_type params = "EMAIL") then
    ∃ user_vo' s',
      enable_mfa email_manager params s = (Ok user_vo', s') ∧
      stored_mfa s' (UserProfileEnableMFARequest.user_id params)
        (UserProfileEnableMFARequest.domain_id params) =
        Some (Some {| MFA.state := MFA.state m;
                      MFA.mfa_type := Some "EMAIL";
                      MFA.options :=
                        UserProfileEnableMFARequest.options params |})
  else
    enable_mfa email_manager params s =
      (Raise (ERROR_NOT_SUPPORTED_MFA_TYPE ["EMAIL"]), s).
Proof.
  intros Huser Hmfa Hstate Hoptions.
  assert (state_of (mfa_dict user_vo) ≠ PyStr "ENABLED") as Hstate'.
  { unfold mfa_dict. rewrite Hmfa, to_dict_state. intros Heq.
    by injection Heq. }
  destruct (decide (UserProfileEnableMFARequest.mfa_type params = "EMAIL"))
    as [Hty|Hty].
  - destruct (enable_run params s user_vo Huser Hoptions Hstate' Hty)
      as [user_vo' Hrun].
    eexists _, _. split; [exact Hrun|].
    unfold stored_mfa. rewrite (stored_user_write_mfa _ _ _ _ _ Huser).
    simpl. by rewrite enable_dict, Hmfa.
  - unfold_profile. rewrite Huser.
    destruct (decide (UserProfileEnableMFARequest.options params = ∅));
      [done|].
    destruct (decide (state_of (mfa_dict user_vo) = PyStr "ENABLED"));
      [done|].
    by destruct (decide (UserProfileEnableMFARequest.mfa_type params
                         = "EMAIL")).
Qed.

Lemma toggled_disabled (m : MFA.t) :
  MFA.state m = "DISABLED" →
  MFA.of_dict (toggled_mfa (MFA.to_dict m)) = MFA.set_state "ENABLED" m.
Proof.
  intros Hstate. unfold toggled_mfa. rewrite to_dict_state, Hstate.
  rewrite decide_False by discriminate. rewrite decide_True by done.
  apply of_dict_set_state.
Qed.

Lemma toggled_enabled (m : MFA.t) :
  MFA.state m = "ENABLED" →
  MFA.of_dict (toggled_mfa (MFA.to_dict m)) =
    {| MFA.state := "DISABLED"; MFA.mfa_type := None; MFA.options := ∅ |}.
Proof.
  intros Hstate. unfold toggled_mfa. rewrite to_dict_state, Hstate.
  by rewrite decide_True by done.
Qed.

(** The run of [confirm_mfa] on an accepted code. *)
Lemma confirm_run (params : UserProfileConfirmMFARequest.t) (s : Store)
    (user_vo : User.t) (m : MFA.t) :
  stored_user s (UserProfileConfirmMFARequest.user_id params)
    (UserProfileConfirmMFARequest.domain_id params) = Some user_vo →
  User.mfa user_vo = Some m →
  MFA.mfa_type m = Some "EMAIL" →
  MFAManager.confirm_mfa email_manager
    {[ "user_id" := UserProfileConfirmMFARequest.user_id params;
       "domain_id" := UserProfileConfirmMFARequest.domain_id params ]}
    (UserProfileConfirmMFARequest.verify_code params) = true →
  ∃ user_vo',
    confirm_mfa email_manager params s =
      (Ok user_vo', write_mfa (toggled_mfa (MFA.to_dict m)) user_vo s).
Proof.
  intros Huser Hmfa Hty Hcode. unfold_profile.
  rewrite Huser, Hmfa, Hty. cbv beta iota.
  rewrite !decide_True by done. rewrite Hcode.
  unfold mfa_dict. rewrite Hmfa. eexists. reflexivity.
Qed.

(** What a successful [confirm_mfa] has found and written. *)
Lemma confirm_Ok (params : UserProfileConfirmMFARequest.t) (s s' : Store)
    (user_vo response : User.t) (m : MFA.t) :
  stored_user s (UserProfileConfirmMFARequest.user_id params)
    (UserProfileConfirmMFARequest.domain_id params) = Some user_vo →
  User.mfa user_vo = Some m →
  confirm_mfa email_manager params s = (Ok response, s') →
  MFA.mfa_type m = Some "EMAIL" ∧
  s' = write_mfa (toggled_mfa (MFA.to_dict m)) user_vo s.
Proof.
  intros Huser Hmfa Hrun. unfold_profile. rewrite Huser, Hmfa in Hrun.
  destruct (MFA.mfa_type m) as [[|a ty]|] eqn:Hty; try discriminate.
  destruct (decide (String a ty = "EMAIL")) as [Hemail|]; [|discriminate].
  destruct (MFAManager.confirm_mfa email_manager _ _); [|discriminate].
  unfold mfa_dict in Hrun. rewrite Hmfa in Hrun.
  injection Hrun as _ <-. by rewrite Hemail.
Qed.

(** X15: enable and confirm compose: for a stored user with no MFA record
    or a DISABLED one, enable for EMAIL with non-empty options followed by
    a confirm whose code the strategy accepts leaves the record ENABLED,
    with the type EMAIL and the options of the enable call. *)
Theorem enable_then_confirm (params : UserProfileEnableMFARequest.t)
    (verify_code : string) (s : Store) (user_vo : User.t) :
  stored_user s (UserProfileEnableMFARequest.user_id params)
    (UserProfileEnableMFARequest.domain_id params) = Some user_vo →
  match User.mfa user_vo with
  | Some m => MFA.state m = "DISABLED"
  | None => True
  end →
  UserProfileEnableMFARequest.options params ≠ ∅ →
  UserProfileEnableMFARequest.mfa_type params = "EMAIL" →
  MFAManager.confirm_mfa email_manager
    {[ "user_id" := UserProfileEnableMFARequest.user_id params;
       "domain_id" := UserProfileEnableMFARequest.domain_id params ]}
    verify_code = true →
  ∃ user_vo1 s1 user_vo2 s2,
    enable_mfa email_manager params s = (Ok user_vo1, s1) ∧
    confirm_mfa email_manager
      {| UserProfileConfirmMFARequest.verify_code := verify_code;
         UserProfileConfirmMFARequest.user_id :=
           UserProfileEnableMFARequest.user_id params;
         UserProfileConfirmMFARequest.domain_id :=
           UserProfileEnableMFARequest.domain_id params |} s1 =
      (Ok user_vo2, s2) ∧
    stored_mfa s2 (UserProfileEnableMFARequest.user_id params)
      (UserProfileEnableMFARequest.domain_id params) =
      Some (Some {| MFA.state := "ENABLED";
                    MFA.mfa_type := Some "EMAIL";
                    MFA.options :=
                      UserProfileEnableMFARequest.options params |}).
Proof.
  intros Huser Hdisabled Hoptions Hty Hcode.
  assert (match User.mfa user_vo with
          | Some m => MFA.state m
          | None => "DISABLED"
          end = "DISABLED") as Hstate0.
  { by destruct (User.mfa user_vo). }
  assert (state_of (mfa_dict user_vo) ≠ PyStr "ENABLED") as Hstate.
  { unfold mfa_dict. destruct (User.mfa user_vo) as [m|].
    - rewrite to_dict_state, Hdisabled. discriminate.
    - discriminate. }
  destruct (enable_run params s user_vo Huser Hoptions Hstate Hty)
    as [user_vo1 Hrun1].
  pose proof (stored_user_write_mfa _ _ _ _
    (<["state" := state_of (mfa_dict user_vo)]>
       (<["options" := PyDict (UserProfileEnableMFARequest.options params)]>
          (<["mfa_type" := PyStr "EMAIL"]> (mfa_dict user_vo))))
    Huser) as Huser1.
  rewrite enable_dict, Hstate0 in Huser1.
  destruct (confirm_run
    {| UserProfileConfirmMFARequest.verify_code := verify_code;
       UserProfileConfirmMFARequest.user_id :=
         UserProfileEnableMFARequest.user_id params;
       UserProfileConfirmMFARequest.domain_id :=
         UserProfileEnableMFARequest.domain_id params |}
    _ _ _ Huser1 eq_refl eq_refl Hcode) as [user_vo2 Hrun2].
  eexists _, _, _, _. split; [exact Hrun1|]. split; [exact Hrun2|].
  unfold stored_mfa. rewrite (stored_user_write_mfa _ _ _ _ _ Huser1).
  simpl. by rewrite toggled_disabled.
Qed.

(** X16: a confirm that turns MFA off also drops the stored type and
    options, so confirm is no toggle from there: after a successful
    confirm on a user whose state was ENABLED, every further confirm for
    that user fails with MfaNotEnabled and writes nothing, whatever the
    code, until enable is called again. *)
Theorem confirm_after_disabling (params : UserProfileConfirmMFARequest.t)
    (verify_code : string) (s s' : Store) (user_vo response : User.t)
    (m : MFA.t) :
  stored_user s (UserProfileConfirmMFARequest.user_id params)
    (UserProfileConfirmMFARequest.domain_id params) = Some user_vo →
  User.mfa user_vo = Some m →
  MFA.state m = "ENABLED" →
  confirm_mfa email_manager params s = (Ok response, s') →
  confirm_mfa email_manager
    {| UserProfileConfirmMFARequest.verify_code := verify_code;
       UserProfileConfirmMFARequest.user_id :=
         UserProfileConfirmMFARequest.user_id params;
       UserProfileConfirmMFARequest.domain_id :=
         UserProfileConfirmMFARequest.domain_id params |} s' =
    (Raise (ERROR_MFA_NOT_ENABLED
              (UserProfileConfirmMFARequest.user_id params)), s').
Proof.
  intros Huser Hmfa Hstate Hrun.
  destruct (confirm_Ok _ _ _ _ _ _ Huser Hmfa Hrun) as [_ ->].
  pose proof (stored_user_write_mfa _ _ _ _
                (toggled_mfa (MFA.to_dict m)) Huser) as Huser'.
  rewrite (toggled_enabled _ Hstate) in Huser'.
  apply (confirm_mfa_without_mfa_type email_manager
           {| UserProfileConfirmMFARequest.verify_code := verify_code;
              UserProfileConfirmMFARequest.user_id :=
                UserProfileConfirmMFARequest.user_id params;
              UserProfileConfirmMFARequest.domain_id :=
                UserProfileConfirmMFARequest.domain_id params |}
           _ _ _ Huser' eq_refl).
  by left.
Qed.

(** The store an MFA call leaves: the one it found, or that one after a
    write of an MFA dictionary to a user. *)
Lemma mfa_call_store (c : MfaCall) (s : Store) :
  (run_mfa_call email_manager c s).2 = s ∨
  ∃ user_mfa user_vo,
    (run_mfa_call email_manager c s).2 = write_mfa user_mfa user_vo s.
Proof.
  destruct c as [params|params|params]; unfold_profile;
    repeat case_match; simplify_eq; simpl; eauto.
Qed.

(** X17: the MFA calls (enable, disable, confirm) touch nothing but MFA
    records: whatever the outcome, the bindings, roles and workspaces are
    as before, the number of users is, and every user's stored role type
    is. *)
Theorem mfa_call_frame (c : MfaCall) (s : Store) :
  role_bindings (run_mfa_call email_manager c s).2 = role_bindings s ∧
  roles (run_mfa_call email_manager c s).2 = roles s ∧
  workspaces (run_mfa_call email_manager c s).2 = workspaces s ∧
  length (users (run_mfa_call email_manager c s).2) = length (users s) ∧
  ∀ user_id domain_id,
    stored_role_type (run_mfa_call email_manager c s).2 user_id domain_id =
      stored_role_type s user_id domain_id.
Proof.
  destruct (mfa_call_store c s) as [->|(user_mfa & user_vo & ->)]; [done|].
  repeat split; try done.
  - unfold write_mfa, update_documents. simpl. by rewrite length_fmap.
  - intros user_id domain_id. apply stored_role_type_write_mfa.
Qed.

(** The store a binding mutation leaves: the one it found, or that one
    after a write of a role type to a user and a change of the
    bindings. *)
Lemma mutation_store (m : Mutation) (s : Store) :
  (run_mutation m s).2 = s ∨
  ∃ rbs r user_vo,
    (run_mutation m s).2 = with_role_bindings rbs (write_role_type r user_vo s).
Proof.
  destruct m as [params|params|params];
    unfold run_mutation, RoleBindingService.create,
      RoleBindingService.convert_model,
      RoleBindingService.create_role_binding,
      RoleBindingService.update_role, RoleBindingService.delete,
      UserManager.get_user, UserManager.update_user_by_vo,
      RoleManager.get_role, WorkspaceManager.get_workspace,
      RoleBindingManager.get_role_binding,
      RoleBindingManager.filter_role_bindings,
      RoleBindingManager.create_role_binding,
      RoleBindingManager.update_role_binding_by_vo,
      RoleBindingManager.delete_role_binding_by_vo;
    cbv beta iota zeta delta [bind ret raise gets modify];
    repeat case_match; simplify_eq; simpl; eauto;
    right; eexists _, _, _; reflexivity.
Qed.

(** X18: the binding mutations (create, changeRole, delete) touch no MFA
    record: whatever the outcome, every user's stored MFA record is as
    before, and so are the roles, the workspaces and the number of
    users. *)
Theorem mutation_keeps_mfa (m : Mutation) (s : Store) :
  roles (run_mutation m s).2 = roles s ∧
  workspaces (run_mutation m s).2 = workspaces s ∧
  length (users (run_mutation m s).2) = length (users s) ∧
  ∀ user_id domain_id,
    stored_mfa (run_mutation m s).2 user_id domain_id =
      stored_mfa s user_id domain_id.
Proof.
  destruct (mutation_store m s) as [->|(rbs & r & user_vo & ->)]; [done|].
  repeat split; try done.
  - unfold write_role_type, update_documents. simpl. by rewrite length_fmap.
  - intros user_id domain_id.
    change (stored_mfa (with_role_bindings rbs ?s0)) with (stored_mfa s0).
    apply stored_mfa_write_role_type.
Qed.

End MoreMfa.

Lemma disable_mfa_outcome_witness :
  UserProfileService.disable_mfa Example.email_manager
    {| UserProfileDisableMFARequest.user_id := "carol";
       UserProfileDisableMFARequest.domain_id := "domain-1" |}
    Example.store0 =
    (Ok (Example.user "carol" "USER" (Some (Example.email_mfa "ENABLED"))),
     Example.store0) ∧
  UserProfileService.disable_mfa Example.email_manager
    {| UserProfileDisableMFARequest.user_id := "alice";
       UserProfileDisableMFARequest.domain_id := "domain-1" |}
    Example.store0 =
    (Raise (ERROR_MFA_ALREADY_DISABLED "alice"), Example.store0).
Proof.
  split.
  - apply (disable_mfa_outcome Example.email_manager
             {| UserProfileDisableMFARequest.user_id := "carol";
                UserProfileDisableMFARequest.domain_id := "domain-1" |}
             Example.store0
             (Example.user "carol" "USER"
                (Some (Example.email_mfa "ENABLED")))).
    reflexivity.
  - apply (disable_mfa_outcome Example.email_manager
             {| UserProfileDisableMFARequest.user_id := "alice";
                UserProfileDisableMFARequest.domain_id := "domain-1" |}
             Example.store0 (Example.user "alice" "USER" None)).
    reflexivity.
Defined.

Lemma enable_mfa_reenrol_witness :
  ∃ user_vo' s',
    UserProfileService.enable_mfa Example.email_manager
      (Example.enable_request "dave" "EMAIL" {[ "email" := "d@example.com" ]})
      Example.store0 = (Ok user_vo', s') ∧
    stored_mfa s' "dave" "domain-1" =
      Some (Some {| MFA.state := "DISABLED"; MFA.mfa_type := Some "EMAIL";
                    MFA.options := {[ "email" := "d@example.com" ]} |}).
Proof.
  refine (enable_mfa_reenrol Example.email_manager
            (Example.enable_request "dave" "EMAIL"
               {[ "email" := "d@example.com" ]})
            Example.store0
            (Example.user "dave" "USER" (Some (Example.email_mfa "DISABLED")))
            (Example.email_mfa "DISABLED") eq_refl eq_refl _ _).
  - discriminate.
  - vm_compute. discriminate.
Defined.

Lemma enable_then_confirm_witness :
  ∃ user_vo1 s1 user_vo2 s2,
    UserProfileService.enable_mfa Example.email_manager
      (Example.enable_request "alice" "EMAIL"
         {[ "email" := "a@example.com" ]}) Example.store0 =
      (Ok user_vo1, s1) ∧
    UserProfileService.confirm_mfa Example.email_manager
      (Example.confirm_request "alice" "123456") s1 = (Ok user_vo2, s2) ∧
    stored_mfa s2 "alice" "domain-1" =
      Some (Some {| MFA.state := "ENABLED"; MFA.mfa_type := Some "EMAIL";
                    MFA.options := {[ "email" := "a@example.com" ]} |}).
Proof.
  refine (enable_then_confirm Example.email_manager
            (Example.enable_request "alice" "EMAIL"
               {[ "email" := "a@example.com" ]})
            "123456" Example.store0 (Example.user "alice" "USER" None)
            eq_refl I _ eq_refl eq_refl).
  vm_compute. discriminate.
Defined.

Lemma confirm_after_disabling_witness :
  UserProfileService.confirm_mfa Example.email_manager
    (Example.confirm_request "carol" "123456")
    (UserProfileService.confirm_mfa Example.email_manager
       (Example.confirm_request "carol" "123456") Example.store0).2 =
    (Raise (ERROR_MFA_NOT_ENABLED "carol"),
     (UserProfileService.confirm_mfa Example.email_manager
        (Example.confirm_request "carol" "123456") Example.store0).2).
Proof.
  refine (confirm_after_disabling Example.email_manager
            (Example.confirm_request "carol" "123456") "123456"
            Example.store0 _
            (Example.user "carol" "USER" (Some (Example.email_mfa "ENABLED")))
            (Example.user "carol" "USER"
               (Some (MFA.of_dict {[ "state" := PyStr "DISABLED" ]})))
            (Example.email_mfa "ENABLED") eq_refl eq_refl eq_refl _).
  vm_compute. reflexivity.
Defined.

(** ** The queries of the profile service *)

Section MoreQueries.
Import UserProfileService.

Variable workspace_state : Workspace.t → string.

(** The run of [get_workspaces] for a stored user. *)
Lemma get_workspaces_run (params : UserProfileGetWorkspacesRequest.t)
    (s : Store) (user_vo : User.t) :
  stored_user s (UserProfileGetWorkspacesRequest.user_id params)
    (UserProfileGetWorkspacesRequest.domain_id params) = Some user_vo →
  ∃ workspace_vos,
    get_workspaces workspace_state params s =
      (Ok (workspace_vos, length workspace_vos), s) ∧
    workspace_vos `sublist_of` workspaces s ∧
    ∀ w, w ∈ workspace_vos ↔
      w ∈ workspaces s ∧
      Workspace.domain_id w = UserProfileGetWorkspacesRequest.domain_id params ∧
      workspace_state w = "ENABLED" ∧
      (User.role_type user_vo = "DOMAIN_ADMIN" ∨
       holds_workspace_role s
         (UserProfileGetWorkspacesRequest.user_id params)
         (UserProfileGetWorkspacesRequest.domain_id params) (Some "*") ∨
       holds_workspace_role s
         (UserProfileGetWorkspacesRequest.user_id params)
         (UserProfileGetWorkspacesRequest.domain_id params)
         (Some (Workspace.workspace_id w))).
Proof.
  intros Huser.
  unfold get_workspaces, UserManager.get_user,
    RoleBindingManager.filter_role_bindings_by,
    WorkspaceManager.filter_workspaces, stored_user in *.
  cbv beta iota zeta delta [bind ret raise gets modify].
  rewrite Huser.
  destruct (decide (User.role_type user_vo = "DOMAIN_ADMIN")) as [Hadmin|Hadmin].
  - eexists. split; [reflexivity|]. split; [apply sublist_filter|].
    intros w. rewrite list_elem_of_filter. simpl. tauto.
  - destruct (bool_decide (0 < length _)%nat) eqn:Hwild.
    + apply bool_decide_eq_true in Hwild.
      eexists. split; [reflexivity|]. split; [apply sublist_filter|].
      intros w. rewrite list_elem_of_filter. simpl.
      assert (holds_workspace_role s
                (UserProfileGetWorkspacesRequest.user_id params)
                (UserProfileGetWorkspacesRequest.domain_id params)
                (Some "*")) as Hholds.
      { destruct (filter _ (role_bindings s)) as [|rb l] eqn:Hfilter;
          [simpl in Hwild; lia|].
        assert (rb ∈ rb :: l) as Hin by (by left).
        rewrite <- Hfilter in Hin.
        apply list_elem_of_filter in Hin as [(Hu & Hd & Hty & Hws) Hin].
        exists rb. done. }
      tauto.
    + apply bool_decide_eq_false in Hwild.
      eexists. split; [reflexivity|]. split; [apply sublist_filter|].
      assert (¬ holds_workspace_role s
                (UserProfileGetWorkspacesRequest.user_id params)
                (UserProfileGetWorkspacesRequest.domain_id params)
                (Some "*")) as Hnone.
      { intros (rb & Hin & Hu & Hd & Hty & Hws). apply Hwild.
        assert (rb ∈ filter
          (λ rb, RoleBinding.user_id rb =
                   UserProfileGetWorkspacesRequest.user_id params ∧
                 RoleBinding.domain_id rb =
                   UserProfileGetWorkspacesRequest.domain_id params ∧
                 RoleBinding.role_type rb ∈
                   ["WORKSPACE_OWNER"; "WORKSPACE_MEMBER"] ∧
                 RoleBindingManager.on_workspace (Some "*") rb)
          (role_bindings s)) as Hin'.
        { apply list_elem_of_filter. done. }
        destruct (filter _ (role_bindings s)); [by apply elem_of_nil in Hin'|].
        simpl. lia. }
      intros w. rewrite list_elem_of_filter.
      unfold WorkspaceManager.among.
      rewrite elem_of_remove_dups, list_elem_of_fmap.
      split.
      * intros ((Hd & Hst & (rb & Hws & Hin)) & Hw).
        apply list_elem_of_filter in Hin as [(Hu & Hd' & Hty & _) Hin].
        split; [done|]. split; [done|]. split; [done|].
        right. right. exists rb. done.
      * intros (Hw & Hd & Hst & [Hadm|[Hwild'|(rb & Hin & Hu & Hd' & Hty & Hws)]]);
          [done|done|].
        split; [|done]. split; [done|]. split; [done|].
        exists rb. split; [done|].
        apply list_elem_of_filter. done.
Qed.

(** X19: get_workspaces reads and never writes. For a missing user it
    fails with NotFound. For a stored user it returns, in stored order and
    with their number as total_count, exactly the workspaces of the domain
    that are ENABLED and that the user may see: all of them for a
    DOMAIN_ADMIN or for the holder of a workspace role on the wildcard
    "*", otherwise those on which the user holds a WORKSPACE_OWNER or
    WORKSPACE_MEMBER binding. *)
Theorem get_workspaces_visible (params : UserProfileGetWorkspacesRequest.t)
    (s : Store) :
  match stored_user s (UserProfileGetWorkspacesRequest.user_id params)
          (UserProfileGetWorkspacesRequest.domain_id params) with
  | None =>
      get_workspaces workspace_state params s =
        (Raise (ERROR_NOT_FOUND "user_id"
                  (UserProfileGetWorkspacesRequest.user_id params)), s)
  | Some user_vo =>
      ∃ workspace_vos,
        get_workspaces workspace_state params s =
          (Ok (workspace_vos, length workspace_vos), s) ∧
        workspace_vos `sublist_of` workspaces s ∧
        ∀ w, w ∈ workspace_vos ↔
          w ∈ workspaces s ∧
          Workspace.domain_id w =
            UserProfileGetWorkspacesRequest.domain_id params ∧
          workspace_state w = "ENABLED" ∧
          (User.role_type user_vo = "DOMAIN_ADMIN" ∨
           holds_workspace_role s
             (UserProfileGetWorkspacesRequest.user_id params)
             (UserProfileGetWorkspacesRequest.domain_id params) (Some "*") ∨
           holds_workspace_role s
             (UserProfileGetWorkspacesRequest.user_id params)
             (UserProfileGetWorkspacesRequest.domain_id params)
             (Some (Workspace.workspace_id w)))
  end.
Proof.
  destruct (stored_user s _ _) as [user_vo|] eqn:Huser.
  - by apply get_workspaces_run.
  - unfold get_workspaces, UserManager.get_user, stored_user in *.
    cbv beta iota zeta delta [bind ret raise gets modify].
    by rewrite Huser.
Qed.

(** X20: create and get_workspaces compose: once a user is given a
    WORKSPACE_OWNER or WORKSPACE_MEMBER binding on an ENABLED workspace
    through create, the workspaces get_workspaces returns for that user
    hold that workspace. *)
Theorem create_then_get_workspaces (params : RoleBindingCreateRequest.t)
    (s : Store) (user_vo : User.t) (w : Workspace.t) (role_vo : Role.t) :
  RoleBindingCreateRequest.resource_group params = "WORKSPACE" →
  stored_user s (RoleBindingCreateRequest.user_id params)
    (RoleBindingCreateRequest.domain_id params) = Some user_vo →
  get_document
    (λ w, Some (Workspace.workspace_id w) =
            RoleBindingCreateRequest.workspace_id params ∧
          Workspace.domain_id w = RoleBindingCreateRequest.domain_id params)
    (workspaces s) = Some w →
  get_document
    (λ r, Role.role_id r = RoleBindingCreateRequest.role_id params ∧
          Role.domain_id r = RoleBindingCreateRequest.domain_id params)
    (roles s) = Some role_vo →
  Role.role_type role_vo ∈ ["WORKSPACE_OWNER"; "WORKSPACE_MEMBER"] →
  workspace_state w = "ENABLED" →
  ∃ rb s1 workspace_vos,
    RoleBindingService.create params s = (Ok rb, s1) ∧
    get_workspaces workspace_state
      {| UserProfileGetWorkspacesRequest.user_id :=
           RoleBindingCreateRequest.user_id params;
         UserProfileGetWorkspacesRequest.domain_id :=
           RoleBindingCreateRequest.domain_id params |} s1 =
      (Ok (workspace_vos, length workspace_vos), s1) ∧
    w ∈ workspace_vos.
Proof.
  intros Hgroup Huser Hworkspace Hrole Htype Hstate.
  destruct (get_document_Some _ _ _ Hworkspace) as (Hw & Hwid & Hwd).
  pose proof (create_run params s user_vo role_vo
                (valid_workspace _ Hgroup) Huser) as Hrun.
  rewrite Hworkspace, Hrole in Hrun.
  rewrite (decide_False (P := RoleBindingCreateRequest.resource_group params
                              = "DOMAIN")) in Hrun
    by (rewrite Hgroup; discriminate).
  specialize (Hrun (λ _, ltac:(eauto)) eq_refl Htype).
  set (s1 := with_role_bindings _ _) in Hrun.
  assert (stored_user s1 (RoleBindingCreateRequest.user_id params)
            (RoleBindingCreateRequest.domain_id params) =
          Some (User.set_role_type
                  (RoleBindingService._get_latest_role_type
                     (User.role_type user_vo) (Role.role_type role_vo))
                  user_vo)) as Huser1.
  { subst s1.
    change (stored_user (with_role_bindings ?rbs ?s0))
      with (stored_user s0).
    by apply stored_user_write_same. }
  destruct (get_workspaces_run
    {| UserProfileGetWorkspacesRequest.user_id :=
         RoleBindingCreateRequest.user_id params;
       UserProfileGetWorkspacesRequest.domain_id :=
         RoleBindingCreateRequest.domain_id params |} s1 _ Huser1)
    as (workspace_vos & Hget & _ & Hvisible).
  eexists _, _, workspace_vos. split; [exact Hrun|]. split; [exact Hget|].
  apply Hvisible. simpl.
  split; [done|]. split; [done|]. split; [done|].
  right. right.
  exists (created_binding params (Role.role_type role_vo) s).
  split; [subst s1; simpl; apply elem_of_app; right; by left|].
  unfold created_binding. simpl. rewrite decide_True by done. done.
Qed.

Lemma unique_by_key {A K} (f : A → K) (l : list A) (x y : A) :
  NoDup (f <$> l) → x ∈ l → y ∈ l → f x = f y → x = y.
Proof.
  induction l as [|z l IH]; intros Hnodup Hx Hy Heq.
  - by apply elem_of_nil in Hx.
  - rewrite fmap_cons in Hnodup. apply NoDup_cons in Hnodup as [Hz Hnodup].
    apply elem_of_cons in Hx as [->|Hx];
      apply elem_of_cons in Hy as [->|Hy]; try done.
    + exfalso. apply Hz. rewrite Heq. by apply list_elem_of_fmap_2.
    + exfalso. apply Hz. rewrite <- Heq. by apply list_elem_of_fmap_2.
    + by apply IH.
Qed.

Lemma all_same_singleton {A} (l : list A) (x : A) :
  NoDup l → x ∈ l → (∀ y, y ∈ l → y = x) → l = [x].
Proof.
  intros Hnodup Hx Hall. destruct l as [|a [|b l]].
  - by apply elem_of_nil in Hx.
  - f_equal. apply Hall. by left.
  - exfalso. apply NoDup_cons in Hnodup as [Ha _]. apply Ha.
    rewrite (Hall a) by (by left).
    rewrite <- (Hall b) by (right; by left). by left.
Qed.

(** X21: [_check_last_admin] looks at the role type of the user it is
    given, whichever it is, not only at administrators. On a store where
    (user_id, domain_id) is unique, for a stored user of the domain: it
    raises LastAdminCannotDisabledDeleted exactly when the user is
    ENABLED and no other stored user of the domain is ENABLED with the
    same role type; in every other case it returns. *)
Theorem check_last_admin_stored (s : Store) (domain_id : string)
    (user_vo : User.t) :
  NoDup (user_key <$> users s) →
  user_vo ∈ users s →
  User.domain_id user_vo = domain_id →
  (_check_last_admin domain_id user_vo s =
     Some (ERROR_LAST_ADMIN_CANNOT_DISABLED_DELETED (User.user_id user_vo)) ↔
   User.state user_vo = "ENABLED" ∧
   ∀ v, v ∈ users s → User.domain_id v = domain_id →
        User.state v = "ENABLED" →
        User.role_type v = User.role_type user_vo → v = user_vo) ∧
  (_check_last_admin domain_id user_vo s = None ∨
   _check_last_admin domain_id user_vo s =
     Some (ERROR_LAST_ADMIN_CANNOT_DISABLED_DELETED (User.user_id user_vo))).
Proof.
  intros Hnodup Hin Hdomain. unfold _check_last_admin.
  unfold UserManager.filter_users.
  set (l := filter _ (users s)).
  assert (∀ v, v ∈ l ↔
               (User.domain_id v = domain_id ∧ User.state v = "ENABLED" ∧
                User.role_type v = User.role_type user_vo) ∧ v ∈ users s)
    as Hl.
  { intros v. subst l. rewrite list_elem_of_filter. tauto. }
  split.
  - split.
    + intros Hraise.
      destruct (decide (length l = 1%nat)) as [Hlen|]; [|discriminate].
      destruct l as [|first [|second l']] eqn:Hfilter; try discriminate.
      simpl in Hraise.
      destruct (decide (User.user_id first = User.user_id user_vo))
        as [Hid|]; [|discriminate].
      assert (first ∈ [first]) as Hfirst by (by left).
      apply Hl in Hfirst as [(Hd & Hst & _) Hfirst].
      assert (first = user_vo) as ->.
      { apply (unique_by_key user_key (users s)); try done.
        unfold user_key. congruence. }
      split; [done|]. intros v Hv Hvd Hvs Hvr.
      assert (v ∈ [user_vo]) as Hvl by (by apply Hl).
      apply elem_of_cons in Hvl as [->|Hvl]; [done|].
      by apply elem_of_nil in Hvl.
    + intros [Hstate Hlast].
      assert (l = [user_vo]) as ->.
      { apply all_same_singleton.
        - subst l. apply NoDup_filter. by eapply NoDup_fmap_1.
        - by apply Hl.
        - intros v Hv. apply Hl in Hv as [(Hd & Hst & Hr) Hv].
          by apply Hlast. }
      simpl. by rewrite decide_True.
  - destruct (decide (length l = 1%nat)); [|by left].
    destruct (head l) as [first|]; [|by left].
    destruct (decide (User.user_id first = User.user_id user_vo));
      [by right|by left].
Qed.

End MoreQueries.

Lemma create_then_get_workspaces_witness :
  ∃ rb s1 workspace_vos,
    RoleBindingService.create
      (Example.create_request "bob" "role-member" "WORKSPACE" (Some "ws-1"))
      Example.store0 = (Ok rb, s1) ∧
    UserProfileService.get_workspaces (λ _, "ENABLED")
      {| UserProfileGetWorkspacesRequest.user_id := "bob";
         UserProfileGetWorkspacesRequest.domain_id := "domain-1" |} s1 =
      (Ok (workspace_vos, length workspace_vos), s1) ∧
    {| Workspace.workspace_id := "ws-1"; Workspace.domain_id := "domain-1" |}
      ∈ workspace_vos.
Proof.
  refine (create_then_get_workspaces (λ _, "ENABLED")
            (Example.create_request "bob" "role-member" "WORKSPACE"
               (Some "ws-1"))
            Example.store0 (Example.user "bob" "USER" None)
            {| Workspace.workspace_id := "ws-1";
               Workspace.domain_id := "domain-1" |}
            (Example.role "role-member" "WORKSPACE_MEMBER")
            eq_refl eq_refl eq_refl eq_refl _ eq_refl).
  right. by left.
Defined.

Lemma check_last_admin_stored_witness :
  UserProfileService._check_last_admin "domain-1"
    (Example.user "root" "SYSTEM_ADMIN" None) Example.store0 =
    Some (ERROR_LAST_ADMIN_CANNOT_DISABLED_DELETED "root").
Proof.
  assert (NoDup (user_key <$> users Example.store0)) as Hnodup.
  { apply (bool_decide_unpack _). vm_compute. exact I. }
  assert (Example.user "root" "SYSTEM_ADMIN" None ∈ users Example.store0)
    as Hin.
  { right. right. by left. }
  apply (proj2 (proj1 (check_last_admin_stored Example.store0 "domain-1"
                  (Example.user "root" "SYSTEM_ADMIN" None)
                  Hnodup Hin eq_refl))).
  split; [reflexivity|].
  intros v Hv _ _ Hrole. revert v Hv Hrole.
  apply (proj1 (Forall_forall
    (λ v, User.role_type v =
            User.role_type (Example.user "root" "SYSTEM_ADMIN" None) →
          v = Example.user "root" "SYSTEM_ADMIN" None)
    (users Example.store0))).
  repeat constructor; intros; try discriminate; reflexivity.
Defined.

Section TemporaryPassword.
Import UserProfileService.
Import Stdlib.Strings.Ascii.

Lemma length_string_of_list_ascii (l : list Ascii.ascii) :
  String.length (String.string_of_list_ascii l) = length l.
Proof. induction l as [|c l IH]; simpl; congruence. Qed.

Lemma choice_alphabet (seq : string) (r : nat) :
  seq ≠ EmptyString → choice seq r ∈ String.list_ascii_of_string seq.
Proof.
  intros Hseq. unfold choice. apply list_elem_of_In, nth_In.
  rewrite <- length_string_of_list_ascii,
    String.string_of_list_ascii_of_string.
  apply Nat.mod_upper_bound. by destruct seq.
Qed.

Lemma search_range_char (lo hi : Ascii.ascii) (p : string) :
  search_range lo hi p = true →
  ∃ c, c ∈ String.list_ascii_of_string p ∧
       (Ascii.nat_of_ascii lo ≤ Ascii.nat_of_ascii c)%nat ∧
       (Ascii.nat_of_ascii c ≤ Ascii.nat_of_ascii hi)%nat.
Proof.
  unfold search_range. intros Hsearch.
  apply existsb_exists in Hsearch as (c & Hc & Hrange).
  apply andb_true_iff in Hrange as [Hlo Hhi].
  exists c. split; [by apply list_elem_of_In|].
  split; by apply Nat.leb_le.
Qed.

Lemma generate_attempt (rand : nat → nat) (fuel attempt : nat) (p : string) :
  _generate_temporary_password rand fuel attempt = Some p ↔
  ∃ k, (k < fuel)%nat ∧ p = random_password rand (attempt + k) ∧
       accepted p = true ∧
       ∀ j, (j < k)%nat →
            accepted (random_password rand (attempt + j)) = false.
Proof.
  revert attempt. induction fuel as [|fuel IH]; intros attempt; simpl.
  - split; [discriminate|]. intros (k & Hk & _). lia.
  - destruct (accepted (random_password rand attempt)) eqn:Haccepted.
    + split.
      * intros [= <-]. exists 0%nat. rewrite Nat.add_0_r.
        repeat split; [lia|done|]. intros j Hj. lia.
      * intros ([|k] & _ & -> & Hp & Hbefore).
        -- by rewrite Nat.add_0_r.
        -- specialize (Hbefore 0%nat ltac:(lia)).
           rewrite Nat.add_0_r in Hbefore. congruence.
    + rewrite IH. split.
      * intros (k & Hk & -> & Hp & Hbefore). exists (S k).
        rewrite Nat.add_succ_r. repeat split; [lia|done|].
        intros [|j] Hj; [by rewrite Nat.add_0_r|].
        rewrite Nat.add_succ_r. apply Hbefore. lia.
      * intros ([|k] & Hk & -> & Hp & Hbefore).
        -- rewrite Nat.add_0_r in Hp. congruence.
        -- exists k. rewrite Nat.add_succ_r in Hp |- *.
           repeat split; [lia|done|]. intros j Hj.
           specialize (Hbefore (S j) ltac:(lia)).
           by rewrite Nat.add_succ_r in Hbefore.
Qed.

(** X22: a password that [_generate_temporary_password] returns has
    twelve characters, each of them an ASCII letter or a digit, among
    them a lower-case letter, an upper-case letter and a digit. *)
Theorem generated_password_valid (rand : nat → nat) (fuel attempt : nat)
    (p : string) :
  _generate_temporary_password rand fuel attempt = Some p →
  String.length p = 12%nat ∧
  (∀ c, c ∈ String.list_ascii_of_string p →
        c ∈ String.list_ascii_of_string
              (ascii_uppercase +:+ ascii_lowercase +:+ digits)) ∧
  (∃ c, c ∈ String.list_ascii_of_string p ∧
        (97 ≤ Ascii.nat_of_ascii c ≤ 122)%nat) ∧
  (∃ c, c ∈ String.list_ascii_of_string p ∧
        (65 ≤ Ascii.nat_of_ascii c ≤ 90)%nat) ∧
  (∃ c, c ∈ String.list_ascii_of_string p ∧
        (48 ≤ Ascii.nat_of_ascii c ≤ 57)%nat).
Proof.
  intros Hgenerated.
  apply generate_attempt in Hgenerated as (k & _ & -> & Haccepted & _).
  unfold accepted in Haccepted.
  apply andb_true_iff in Haccepted as [Haccepted Hdigit].
  apply andb_true_iff in Haccepted as [Hlower Hupper].
  split; [|split; [|split; [|split]]].
  - unfold random_password.
    by rewrite length_string_of_list_ascii, length_fmap, length_seq.
  - intros c. unfold random_password.
    rewrite String.list_ascii_of_string_of_list_ascii.
    intros (j & -> & _)%list_elem_of_fmap.
    by apply choice_alphabet.
  - apply search_range_char in Hlower as (c & Hc & Hlo & Hhi). eauto.
  - apply search_range_char in Hupper as (c & Hc & Hlo & Hhi). eauto.
  - apply search_range_char in Hdigit as (c & Hc & Hlo & Hhi). eauto.
Qed.

(** X23: the loop of [_generate_temporary_password] returns the first
    pass whose twelve characters hold a lower-case letter, an upper-case
    letter and a digit, and nothing bounds the number of passes before
    it: within [fuel] passes the result is [p] exactly when [p] is the
    password of some pass [k] below [fuel], it is accepted, and every
    earlier pass was rejected. *)
Theorem generate_first_accepted (rand : nat → nat) (fuel attempt : nat)
    (p : string) :
  _generate_temporary_password rand fuel attempt = Some p ↔
  ∃ k, (k < fuel)%nat ∧ p = random_password rand (attempt + k) ∧
       accepted p = true ∧
       ∀ j, (j < k)%nat →
            accepted (random_password rand (attempt + j)) = false.
Proof. apply generate_attempt. Qed.

End TemporaryPassword.

Lemma generated_password_valid_witness :
  String.length "wy02468ACEGI" = 12%nat.
Proof.
  apply (generated_password_valid (λ n, 2 * n)%nat 5 0 "wy02468ACEGI").
  vm_compute. reflexivity.
Defined.
